(** * Desktop-automation core: window resolution, input validation and
      screenshot fallback

    A shallow embedding of the TypeScript sources

    - [tools/mouse.ts]  (validateMousePosition, moveMouse, dragMouse, clickAt, ...),
    - [providers/keysender/screen.ts]  (class KeysenderScreenAutomation),
    - [handlers/tools.ts]  (the tool dispatcher and its argument guards),
    - [handlers/resources.ts]  (the resource reader),
    - [scripts/mcp-client/src/index.ts]  (callTool, runScript),
    - [types/responses.ts]  (WindowsControlResponse),

    together with the properties the design document states about them.

    Modelling conventions.
    - A JavaScript number is a rational or one of NaN, +Infinity, -Infinity
      ([num]); comparisons follow IEEE (any comparison with NaN is false);
      the result of [*], [/] and [-] is the exact result rounded to the
      nearest binary64 number, ties to even ([double]); -0 is identified
      with 0.
    - A JavaScript string is a [string] of 8-bit code units (code points
      below 256).  [toLowerCase] and the rendering of numbers as text are
      parameters of the development ([CaseMapping], [NumberFormat]); no
      property of them is assumed.
    - A thrown value is represented by its text
      ([error instanceof Error ? error.message : String(error)]).
    - Effects are explicit: a computation is a function from the world to a
      result (a value or a thrown error) and the next world; what a statement
      did before it threw stays done.  Every call into a native backend is
      appended to a call log kept in the world.
    - [console.log], [console.warn] and [console.error] are not modelled,
      except for the conversion to text inside a template literal where it
      can throw.

    Layout: the embedding (modules [JS], [Response], [Eff], [Types], [Mouse],
    [Screen], [Handler], [Dispatcher], [Resources], [Client]), scripted
    backends to run it on, the vocabulary of the properties, and then the
    lemmas and theorems.  A theorem that settles a numbered property of the
    design document carries its number (C1 to C10); the further properties
    read off the code are numbered X1 to X24. *)

From Stdlib Require Import ZArith QArith Qabs Qround Qpower List String Ascii Bool Lia Lqa.
From Stdlib Require Import Strings.Byte DecimalString.
Import ListNotations.

Set Warnings "-register-all".

Local Open Scope string_scope.
Local Open Scope Z_scope.

(* ===================================================================== *)
(** * JavaScript values                                                   *)
(* ===================================================================== *)

Module JS.

(** A JavaScript number. *)
Inductive num : Type :=
  | NaN
  | NegInf
  | PosInf
  | Fin (q : Q).

Definition ofZ (z : Z) : num := Fin (inject_Z z).

Definition isNaN (n : num) : bool :=
  match n with NaN => true | _ => false end.

Definition Qlt_bool (a b : Q) : bool := negb (Qle_bool b a).

(** [a < b] *)
Definition lt (a b : num) : bool :=
  match a, b with
  | NaN, _ | _, NaN => false
  | PosInf, _ => false
  | _, NegInf => false
  | NegInf, _ => true
  | Fin _, PosInf => true
  | Fin x, Fin y => Qlt_bool x y
  end.

(** [a > b] *)
Definition gt (a b : num) : bool := lt b a.

(** [a >= b] *)
Definition ge (a b : num) : bool :=
  match a, b with
  | NaN, _ | _, NaN => false
  | _, _ => negb (lt a b)
  end.

(** [a === b] on numbers *)
Definition eqn (a b : num) : bool :=
  match a, b with
  | NegInf, NegInf | PosInf, PosInf => true
  | Fin x, Fin y => Qeq_bool x y
  | _, _ => false
  end.

(** Truthiness of a number: 0 and NaN are falsy. *)
Definition truthy (n : num) : bool :=
  match n with
  | NaN => false
  | Fin q => negb (Qeq_bool q 0)
  | _ => true
  end.

(** [a || b] on numbers *)
Definition or (a b : num) : num := if truthy a then a else b.

(** Unary minus. *)
Definition neg (a : num) : num :=
  match a with
  | NaN => NaN
  | NegInf => PosInf
  | PosInf => NegInf
  | Fin q => Fin (- q)
  end.

Definition sgn (q : Q) : Z := Z.sgn (Qnum q).

(** *** Double precision

    An arithmetic operation of JavaScript returns the binary64 number
    nearest to the exact result, ties going to the even significand. *)

Definition pow2 (e : Z) : Q := (2 ^ e)%Q.

(** The integer nearest to [x], ties to even. *)
Definition nearestEven (x : Q) : Z :=
  let f := Qfloor x in
  match Qcompare (x - inject_Z f) (1 # 2) with
  | Lt => f
  | Gt => f + 1
  | Eq => if Z.even f then f else f + 1
  end.

(** The exponent [e] of the grid of doubles around a positive [q]:
    [2^52 <= q / 2^e < 2^53], and no finer than the subnormal grid. *)
Definition gridExponent (q : Q) : Z :=
  let k := Z.log2 (Qnum q) - Z.log2 (Zpos (Qden q)) in
  Z.max (if Qle_bool (pow2 k) q then k - 52 else k - 53) (-1074).

(** The point of that grid nearest to a positive [q]. *)
Definition nearestDouble (q : Q) : Q :=
  let e := gridExponent q in
  (inject_Z (nearestEven (q / pow2 e)) * pow2 e)%Q.

(** The double nearest to the rational [q]; what reaches 2^1024 is
    infinite. *)
Definition double (q : Q) : num :=
  match Qcompare q 0 with
  | Eq => Fin 0
  | Gt => let r := nearestDouble q in
          if Qle_bool (pow2 1024) r then PosInf else Fin r
  | Lt => let r := nearestDouble (- q) in
          if Qle_bool (pow2 1024) r then NegInf else Fin (- r)
  end.

(** [a * b] *)
Definition mul (a b : num) : num :=
  match a, b with
  | NaN, _ | _, NaN => NaN
  | Fin x, Fin y => double (x * y)
  | Fin x, PosInf | PosInf, Fin x =>
      match sgn x with 0 => NaN | Zpos _ => PosInf | Zneg _ => NegInf end
  | Fin x, NegInf | NegInf, Fin x =>
      match sgn x with 0 => NaN | Zpos _ => NegInf | Zneg _ => PosInf end
  | PosInf, PosInf | NegInf, NegInf => PosInf
  | PosInf, NegInf | NegInf, PosInf => NegInf
  end.

(** [a / b] *)
Definition div (a b : num) : num :=
  match a, b with
  | NaN, _ | _, NaN => NaN
  | Fin x, Fin y =>
      if Qeq_bool y 0
      then match sgn x with 0 => NaN | Zpos _ => PosInf | Zneg _ => NegInf end
      else double (x / y)
  | Fin _, _ => Fin 0
  | PosInf, Fin y => match sgn y with Zneg _ => NegInf | _ => PosInf end
  | NegInf, Fin y => match sgn y with Zneg _ => PosInf | _ => NegInf end
  | _, _ => NaN
  end.

(** [a - b] *)
Definition sub (a b : num) : num :=
  match a, b with
  | NaN, _ | _, NaN => NaN
  | Fin x, Fin y => double (x - y)
  | PosInf, PosInf | NegInf, NegInf => NaN
  | PosInf, _ | _, NegInf => PosInf
  | NegInf, _ | _, PosInf => NegInf
  end.

(** [Math.abs(a)] *)
Definition abs (a : num) : num :=
  match a with
  | NaN => NaN
  | NegInf | PosInf => PosInf
  | Fin q => Fin (Qabs q)
  end.

(** [Math.min(a, b)] *)
Definition min (a b : num) : num :=
  match a, b with
  | NaN, _ | _, NaN => NaN
  | _, _ => if lt b a then b else a
  end.

(** [Math.round(a)]: the nearest integer, halves rounded up. *)
Definition round (a : num) : num :=
  match a with
  | Fin q => ofZ (Qfloor (q + (1 # 2)))
  | other => other
  end.

(** *** Strings *)

Definition code (c : ascii) : N := N_of_ascii c.

(** White space as [String.prototype.trim] sees it, among code units
    below 256: TAB, LF, VT, FF, CR, SPACE and NO-BREAK SPACE. *)
Definition isWhiteSpace (c : ascii) : bool :=
  let n := code c in
  ((9 <=? n) && (n <=? 13) || (n =? 32) || (n =? 160))%N.

Fixpoint trimStart (s : string) : string :=
  match s with
  | EmptyString => EmptyString
  | String c s' => if isWhiteSpace c then trimStart s' else s
  end.

Fixpoint rev (s : string) : string :=
  match s with
  | EmptyString => EmptyString
  | String c s' => rev s' ++ String c EmptyString
  end.

Definition trimEnd (s : string) : string := rev (trimStart (rev s)).

(** [s.trim()] *)
Definition trim (s : string) : string := trimEnd (trimStart s).

(** [s.toLowerCase()].  The Unicode lower-casing of a string is not done
    unit by unit (a capital sigma becomes a final sigma at the end of a
    word), so a substring of [s] need not lower-case to a substring of the
    lower-cased [s].  The mapping is a parameter of the development and
    nothing is assumed of it; [Scripted.latin1] below is the mapping on the
    strings of code points below 256. *)
Class CaseMapping : Type := { toLowerCase : string -> string }.

(** [s.includes(t)] *)
Fixpoint includes (s t : string) : bool :=
  prefix t s ||
  match s with
  | EmptyString => false
  | String _ s' => includes s' t
  end.

(** *** Buffers *)

Definition base64Alphabet : string :=
  "ABCDEFGHIJKLMNOPQRSTUVWXYZabcdefghijklmnopqrstuvwxyz0123456789+/".

Definition base64Digit (n : N) : ascii :=
  match get (N.to_nat n) base64Alphabet with
  | Some c => c
  | None => "="%char
  end.

(** [buffer.toString('base64')]: three bytes become four digits, the last
    group is padded with [=]. *)
Fixpoint base64 (buffer : list byte) : string :=
  match buffer with
  | [] => EmptyString
  | [a] =>
      let n := (Byte.to_N a * 65536)%N in
      String (base64Digit (n / 262144))
        (String (base64Digit ((n / 4096) mod 64)) "==")
  | [a; b] =>
      let n := (Byte.to_N a * 65536 + Byte.to_N b * 256)%N in
      String (base64Digit (n / 262144))
        (String (base64Digit ((n / 4096) mod 64))
           (String (base64Digit ((n / 64) mod 64)) "="))
  | a :: b :: c :: rest =>
      let n := (Byte.to_N a * 65536 + Byte.to_N b * 256 + Byte.to_N c)%N in
      String (base64Digit (n / 262144))
        (String (base64Digit ((n / 4096) mod 64))
           (String (base64Digit ((n / 64) mod 64))
              (String (base64Digit (n mod 64)) (base64 rest))))
  end.

(** The double-quote character, as a string. *)
Definition quote : string := String (ascii_of_N 34) EmptyString.

(** Truthiness of a string: only the empty string is falsy. *)
Definition truthyStr (s : string) : bool :=
  negb (s =? EmptyString)%string.

(** [a || b] on strings *)
Definition orStr (a b : string) : string := if truthyStr a then a else b.

(** A loosely typed value, as the tool dispatcher receives its arguments. *)
Inductive value : Type :=
  | VUndefined
  | VNull
  | VBool (b : bool)
  | VNum (n : num)
  | VStr (s : string)
  | VArr (items : list value)
  | VObj (fields : list (string * value)).

(** Property lookup in an object literal: the first binding of [k]. *)
Fixpoint lookup (k : string) (fields : list (string * value)) : value :=
  match fields with
  | [] => VUndefined
  | (k', v) :: rest => if (k =? k')%string then v else lookup k rest
  end.

(** [args?.k] *)
Definition prop (args : value) (k : string) : value :=
  match args with
  | VObj fields => lookup k fields
  | _ => VUndefined
  end.

(** [typeof v === 'string'] and [typeof v === 'number'] *)
Definition isString (v : value) : bool :=
  match v with VStr _ => true | _ => false end.

Definition isNumber (v : value) : bool :=
  match v with VNum _ => true | _ => false end.

(** A field read through a cast to [number]: anything that is not a number
    compares like NaN. *)
Definition asNum (v : value) : num :=
  match v with VNum n => n | _ => NaN end.

(** [String(n)] for a number.  The decimal rendering of a number that is
    not an integer depends on its binary representation, so the rendering is
    a parameter of the development; [decimalFormat] below fixes it on
    integers. *)
Class NumberFormat : Type := { showNum : num -> string }.

Definition showZ (z : Z) : string := NilZero.string_of_int (Z.to_int z).

(** Whether an object literal has a member of its own named [k]. *)
Definition hasOwn (k : string) (fields : list (string * value)) : bool :=
  existsb (fun binding => (k =? fst binding)%string) fields.

Section Conversion.
Context {fmt : NumberFormat}.

(** [String(v)], as a template literal and [Array.prototype.join] convert a
    value made of JSON data; [None] stands for the TypeError "Cannot convert
    object to primitive value".  An array is the text of its elements
    joined by commas, where [null] and [undefined] count as empty.  A plain
    object is ["[object Object]"] through [Object.prototype.toString],
    unless it has a member of its own named [toString]: that member is data
    and cannot be called, [valueOf] (its own, or the inherited one, which
    returns the object) yields no primitive either, and the conversion
    throws. *)
Fixpoint toText (v : value) : option string :=
  match v with
  | VUndefined => Some "undefined"
  | VNull => Some "null"
  | VBool b => Some (if b then "true" else "false")
  | VNum n => Some (showNum n)
  | VStr s => Some s
  | VArr items =>
      (fix commaJoined (l : list value) : option string :=
         match l with
         | [] => Some EmptyString
         | x :: rest =>
             let element :=
               match x with
               | VUndefined | VNull => Some EmptyString
               | _ => toText x
               end in
             match rest with
             | [] => element
             | _ :: _ =>
                 match element, commaJoined rest with
                 | Some a, Some b => Some (a ++ "," ++ b)
                 | _, _ => None
                 end
             end
         end) items
  | VObj fields =>
      if hasOwn "toString" fields then None else Some "[object Object]"
  end.

(** What [join] makes of one element. *)
Definition joinElement (v : value) : option string :=
  match v with
  | VUndefined | VNull => Some EmptyString
  | _ => toText v
  end.

(** [items.join(sep)] *)
Fixpoint joinWith (sep : string) (items : list value) : option string :=
  match items with
  | [] => Some EmptyString
  | v :: rest =>
      match rest with
      | [] => joinElement v
      | _ :: _ =>
          match joinElement v, joinWith sep rest with
          | Some a, Some b => Some (a ++ sep ++ b)
          | _, _ => None
          end
      end
  end.

End Conversion.

End JS.

(* ===================================================================== *)
(** * The result envelope ([types/responses.ts])                         *)
(* ===================================================================== *)

Module Response.
Import JS.

Record ImageContent : Type := {
  type_ : string;      (* always "image" *)
  imageData : string;  (* base64 *)
  mimeType : string
}.

(** [interface WindowsControlResponse]; an optional member is an [option]. *)
Record WindowsControlResponse : Type := {
  success : bool;
  message : string;
  data : option (list (string * value));
  screenshot : option string;
  encoding : option string;
  content : option (list ImageContent);
  timestamp : option string
}.

(** [{ success: false, message }] *)
Definition failure (msg : string) : WindowsControlResponse :=
  {| success := false; message := msg; data := None; screenshot := None;
     encoding := None; content := None; timestamp := None |}.

(** [{ success: true, message, data }] *)
Definition successWith (msg : string) (d : list (string * value))
  : WindowsControlResponse :=
  {| success := true; message := msg; data := Some d; screenshot := None;
     encoding := None; content := None; timestamp := None |}.

(** [response.data.k], [VUndefined] when there is no data. *)
Definition field (r : WindowsControlResponse) (k : string) : value :=
  match data r with
  | Some d => lookup k d
  | None => VUndefined
  end.

End Response.

(* ===================================================================== *)
(** * Effects: state, exceptions, call log                                *)
(* ===================================================================== *)

Module Eff.

(** The outcome of running a statement: it completes with a value or
    throws. *)
Inductive Res (A : Type) : Type :=
  | Ok (a : A)
  | Throw (e : string).
Arguments Ok {A} a.
Arguments Throw {A} e.

(** A computation over a world [W]. *)
Definition M (W A : Type) : Type := W -> Res A * W.

Definition ret {W A} (a : A) : M W A := fun w => (Ok a, w).

Definition bind {W A B} (m : M W A) (k : A -> M W B) : M W B :=
  fun w =>
    match m w with
    | (Ok a, w') => k a w'
    | (Throw e, w') => (Throw e, w')
    end.

(** [try { m } catch (error) { h error }] *)
Definition tryCatch {W A} (m : M W A) (h : string -> M W A) : M W A :=
  fun w =>
    match m w with
    | (Ok a, w') => (Ok a, w')
    | (Throw e, w') => h e w'
    end.

Definition completes {A} (r : Res A) : bool :=
  match r with Ok _ => true | Throw _ => false end.

End Eff.

Declare Scope eff_scope.
Delimit Scope eff_scope with eff.
Notation "x <- m ;; k" := (Eff.bind m (fun x => k))
  (at level 61, m at next level, right associativity) : eff_scope.
Notation "m ;;; k" := (Eff.bind m (fun _ => k))
  (at level 61, right associativity) : eff_scope.
Notation "'try' m 'catch' x => h" := (Eff.tryCatch m (fun x => h))
  (at level 61, m at next level, x name, right associativity) : eff_scope.

(* ===================================================================== *)
(** * Shared data ([types/common.ts]) and the world                       *)
(* ===================================================================== *)

(** [interface MousePosition { x: number; y: number }] *)
Module Pos.
Record t : Type := { x : JS.num; y : JS.num }.
End Pos.

(** [{ x, y, width, height }]: a window view or a capture region. *)
Module Rect.
Record t : Type := { x : JS.num; y : JS.num; width : JS.num; height : JS.num }.
End Rect.

Module Types.
Import JS.

(** An entry of keysender's [getAllWindows()]. *)
Record WindowInfo : Type := {
  title : string;
  className : string;
  handle : num
}.

(** What [workwindow.capture] returns. *)
Record Capture : Type := {
  captureData : list byte;
  captureWidth : num;
  captureHeight : num
}.

Inductive Format : Type := jpeg | png.

Inductive Fit : Type := contain | cover | fill | inside | outside.

Record Resize : Type := {
  resizeWidth : option num;
  resizeHeight : option num;
  fit : option Fit
}.

(** [interface ScreenshotOptions]; every member is optional. *)
Record ScreenshotOptions : Type := {
  region : option Rect.t;
  format : option Format;
  quality : option num;
  grayscale : option bool;
  compressionLevel : option num;
  resize : option Resize
}.

(** The calls made on the [sharp] pipeline before [toBuffer()], as data. *)
Record SharpJob : Type := {
  input : list byte;
  rawWidth : num;
  rawHeight : num;            (* raw: { width, height, channels: 4 } *)
  initialWidth : num;         (* first resize, withoutEnlargement *)
  toGrayscale : bool;
  finalResize : option (option num * option num * Fit);
  encoder : Format;
  encoderLevel : num          (* jpeg quality or png compressionLevel *)
}.

Inductive OperationType : Type := reposition | resize_.

(** The part of [updateWindowPosition] that is still to run when the
    function suspends at [await new Promise(r => setTimeout(r, 100))]:
    the local variables the rest of the body reads. *)
Record Suspended : Type := {
  operationType : OperationType;
  reqX : option num;
  reqY : option num;
  reqWidth : option num;
  reqHeight : option num;
  actualTitle : string;
  focusedHandle : num;
  newView : Rect.t
}.

(** A call that leaves the module for a backend. *)
Inductive Call : Type :=
  (* the AutomationProvider behind tools/mouse.ts *)
  | ProviderGetScreenSize
  | ProviderMoveMouse (p : Pos.t)
  | ProviderClickMouse (button : string)
  | ProviderDoubleClick (p : option Pos.t)
  | ProviderGetCursorPosition
  | ProviderScrollMouse (amount : num)
  | ProviderDragMouse (from to : Pos.t) (button : string)
  | ProviderClickAt (x y : num) (button : string)
  (* keysender, koffi and sharp behind providers/keysender/screen.ts *)
  | GetAllWindows
  | GetWindowChildren (h : num)
  | HardwareGetView (h : num)
  | HardwareGet (h : num)
  | WorkwindowSet (h : num)
  | WorkwindowSetForeground
  | WorkwindowIsForeground
  | WorkwindowIsOpen
  | WorkwindowGetView
  | WorkwindowSetView (v : Rect.t)
  | WorkwindowCapture (r : option Rect.t)
  | GetSystemMetrics (nIndex : Z)
  | ImportSharp
  | SharpToBuffer (job : SharpJob).

(** The world: the backend's own state [S], the continuations parked on a
    timer, and two logs kept for the proofs (oldest entry first): the calls
    made into a backend and the texts of the errors thrown so far, caught
    or not. *)
Record World (S : Type) : Type := {
  host : S;
  timers : list Suspended;
  calls : list Call;
  raised : list string
}.
Arguments host {S} w.
Arguments timers {S} w.
Arguments calls {S} w.
Arguments raised {S} w.

Definition initial {S} (s : S) : World S :=
  {| host := s; timers := []; calls := []; raised := [] |}.

(** [throw new Error(e)] *)
Definition throw {S A} (e : string) : Eff.M (World S) A :=
  fun w =>
    (Eff.Throw e,
     {| host := host w; timers := timers w; calls := calls w;
        raised := raised w ++ [e] |}).

(** [if (c) throw new Error(e)] *)
Definition throwIf {S} (c : bool) (e : string) : Eff.M (World S) unit :=
  if c then throw e else Eff.ret tt.

(** Run the backend function [f] and log the call as [c]. *)
Definition invoke {S A} (c : Call) (f : S -> Eff.Res A * S)
  : Eff.M (World S) A :=
  fun w =>
    let (r, s') := f (host w) in
    (r, {| host := s'; timers := timers w; calls := calls w ++ [c];
           raised := match r with
                     | Eff.Throw e => raised w ++ [e]
                     | Eff.Ok _ => raised w
                     end |}).

(** Park a continuation on the timer queue. *)
Definition park {S} (k : Suspended) : Eff.M (World S) unit :=
  fun w =>
    (Eff.Ok tt,
     {| host := host w; timers := timers w ++ [k]; calls := calls w;
        raised := raised w |}).

End Types.

(* ===================================================================== *)
(** * Mouse tools ([tools/mouse.ts])                                      *)
(* ===================================================================== *)

Module Mouse.
Import JS Response Eff Types.
Local Open Scope eff_scope.

(** The part of [AutomationProvider] that [tools/mouse.ts] calls.  A backend
    method takes the backend state and may throw. *)
Record MouseAutomation (S : Type) : Type := {
  mouse_moveMouse : Pos.t -> S -> Res WindowsControlResponse * S;
  mouse_clickMouse : string -> S -> Res WindowsControlResponse * S;
  mouse_doubleClick : option Pos.t -> S -> Res WindowsControlResponse * S;
  mouse_getCursorPosition : S -> Res WindowsControlResponse * S;
  mouse_scrollMouse : num -> S -> Res WindowsControlResponse * S;
  mouse_dragMouse : Pos.t -> Pos.t -> string -> S -> Res WindowsControlResponse * S;
  mouse_clickAt : num -> num -> string -> S -> Res WindowsControlResponse * S
}.
Arguments mouse_moveMouse {S} m.
Arguments mouse_clickMouse {S} m.
Arguments mouse_doubleClick {S} m.
Arguments mouse_getCursorPosition {S} m.
Arguments mouse_scrollMouse {S} m.
Arguments mouse_dragMouse {S} m.
Arguments mouse_clickAt {S} m.

(** [provider.mouse] and [provider.screen.getScreenSize] may be missing. *)
Record AutomationProvider (S : Type) : Type := {
  mouse : option (MouseAutomation S);
  screen_getScreenSize : option (S -> Res WindowsControlResponse * S)
}.
Arguments mouse {S} a.
Arguments screen_getScreenSize {S} a.

(** [process.env], as far as the module reads it. *)
Record ProcessEnv : Type := {
  NODE_ENV : option string;
  VITEST : option string
}.

(** [process.env.NODE_ENV === 'test' || process.env.VITEST] *)
Definition inTestEnvironment (env : ProcessEnv) : bool :=
  match NODE_ENV env with Some v => (v =? "test")%string | None => false end
  || match VITEST env with Some v => truthyStr v | None => false end.

(** [const MAX_ALLOWED_COORDINATE = 10000] *)
Definition MAX_ALLOWED_COORDINATE : num := ofZ 10000.

Section WithProvider.
Context {S : Type}.
(** The value of [createAutomationProvider()]: the factory is outside this
    module; it is taken to hand out the provider without side effects. *)
Variable provider : AutomationProvider S.
Variable env : ProcessEnv.
Context {fmt : NumberFormat}.

Definition showPos (x y : num) : string :=
  "(" ++ showNum x ++ "," ++ showNum y ++ ")".

(** The screen-bounds part of [validateMousePosition] (the inner [try]).
    The error thrown for a position off the screen is caught by the
    [catch (screenError)] that closes this very block. *)
Definition checkScreenBounds (position : Pos.t) : M (World S) unit :=
  match screen_getScreenSize provider with
  | Some getScreenSize =>
      try (
        screenSizeResponse <- invoke ProviderGetScreenSize getScreenSize ;;
        match success screenSizeResponse, data screenSizeResponse with
        | true, Some screenSize =>
            let w := asNum (lookup "width" screenSize) in
            let h := asNum (lookup "height" screenSize) in
            throwIf (lt (Pos.x position) (ofZ 0) || ge (Pos.x position) w ||
                     lt (Pos.y position) (ofZ 0) || ge (Pos.y position) h)
              ("Position " ++ showPos (Pos.x position) (Pos.y position) ++
               " is outside screen bounds (0,0)-" ++
               showPos (sub w (ofZ 1)) (sub h (ofZ 1)))
        | _, _ => ret tt
        end
      ) catch _screenError => ret tt
  | None => ret tt
  end.

(** [function validateMousePosition(position, provider)].  The two
    [typeof] tests at its head hold by typing. *)
Definition validateMousePosition (position : Pos.t) : M (World S) Pos.t :=
  let x := Pos.x position in
  let y := Pos.y position in
  throwIf (isNaN x || isNaN y)
    ("Invalid mouse position: x and y cannot be NaN, got x=" ++ showNum x ++
     ", y=" ++ showNum y) ;;;
  (try (
     throwIf (lt x (neg MAX_ALLOWED_COORDINATE) || gt x MAX_ALLOWED_COORDINATE ||
              lt y (neg MAX_ALLOWED_COORDINATE) || gt y MAX_ALLOWED_COORDINATE)
       ("Position " ++ showPos x y ++
        " is outside reasonable bounds (-10000, -10000)-(10000, 10000)") ;;;
     checkScreenBounds position
   ) catch e =>
     if inTestEnvironment env then ret tt else throw e) ;;;
  ret position.

(** [provider.mouse], or the error thrown when it is missing. *)
Definition requireMouse : M (World S) (MouseAutomation S) :=
  match mouse provider with
  | Some m => ret m
  | None => throw "Mouse provider not available"
  end.

(** [export function moveMouse(position)] *)
Definition moveMouse (position : Pos.t) : M (World S) WindowsControlResponse :=
  try (
    validateMousePosition position ;;;
    m <- requireMouse ;;
    invoke (ProviderMoveMouse position) (mouse_moveMouse m position)
  ) catch error => ret (failure ("Failed to move mouse: " ++ error)).

(** [function validateMouseButton(button)] on a string argument. *)
Definition validateMouseButton (button : string) : M (World S) string :=
  throwIf (negb (truthyStr button)) ("Invalid mouse button: " ++ button) ;;;
  throwIf (negb (existsb (String.eqb button) ["left"; "right"; "middle"]))
    ("Invalid mouse button: " ++ button ++
     ". Must be 'left', 'right', or 'middle'") ;;;
  ret button.

(** [export function clickMouse(button = 'left')] *)
Definition clickMouse (button : string) : M (World S) WindowsControlResponse :=
  try (
    validatedButton <- validateMouseButton button ;;
    m <- requireMouse ;;
    invoke (ProviderClickMouse validatedButton) (mouse_clickMouse m validatedButton)
  ) catch error => ret (failure ("Failed to click mouse: " ++ error)).

(** [export function doubleClick(position?)] *)
Definition doubleClick (position : option Pos.t)
  : M (World S) WindowsControlResponse :=
  try (
    match position with
    | Some p => validateMousePosition p ;;; ret tt
    | None => ret tt
    end ;;;
    m <- requireMouse ;;
    invoke (ProviderDoubleClick position) (mouse_doubleClick m position)
  ) catch error => ret (failure ("Failed to double click: " ++ error)).

(** [export function getCursorPosition()] *)
Definition getCursorPosition : M (World S) WindowsControlResponse :=
  try (
    m <- requireMouse ;;
    invoke ProviderGetCursorPosition (mouse_getCursorPosition m)
  ) catch error => ret (failure ("Failed to get cursor position: " ++ error)).

(** [Math.abs(amount) > MAX_SCROLL_AMOUNT] *)
Definition scrollTooLarge (amount : num) : bool :=
  gt (abs amount) (ofZ 1000).

(** [export function scrollMouse(amount)] *)
Definition scrollMouse (amount : num) : M (World S) WindowsControlResponse :=
  try (
    throwIf (isNaN amount)
      ("Invalid scroll amount: " ++ showNum amount ++ ". Must be a number") ;;;
    throwIf (scrollTooLarge amount)
      ("Scroll amount too large: " ++ showNum amount ++ " (max 1000)") ;;;
    m <- requireMouse ;;
    invoke (ProviderScrollMouse amount) (mouse_scrollMouse m amount)
  ) catch error => ret (failure ("Failed to scroll mouse: " ++ error)).

(** [export function dragMouse(from, to, button = 'left')] *)
Definition dragMouse (from to : Pos.t) (button : string)
  : M (World S) WindowsControlResponse :=
  try (
    validateMousePosition from ;;;
    validateMousePosition to ;;;
    validatedButton <- validateMouseButton button ;;
    m <- requireMouse ;;
    invoke (ProviderDragMouse from to validatedButton)
           (mouse_dragMouse m from to validatedButton)
  ) catch error => ret (failure ("Failed to drag mouse: " ++ error)).

(** [export function clickAt(x, y, button = 'left')] *)
Definition clickAt (x y : num) (button : string)
  : M (World S) WindowsControlResponse :=
  if isNaN x || isNaN y
  then ret (failure "Invalid coordinates provided")
  else
    try (
      validateMousePosition {| Pos.x := x; Pos.y := y |} ;;;
      validatedButton <- validateMouseButton button ;;
      m <- requireMouse ;;
      invoke (ProviderClickAt x y validatedButton)
             (mouse_clickAt m x y validatedButton)
    ) catch error => ret (failure ("Failed to click at position: " ++ error)).

End WithProvider.

(** Whether a logged call went to [provider.mouse]. *)
Definition isMouseCall (c : Call) : bool :=
  match c with
  | ProviderMoveMouse _ | ProviderClickMouse _ | ProviderDoubleClick _
  | ProviderGetCursorPosition | ProviderScrollMouse _
  | ProviderDragMouse _ _ _ | ProviderClickAt _ _ _ => true
  | _ => false
  end.

End Mouse.

(* ===================================================================== *)
(** * The keysender screen provider ([providers/keysender/screen.ts])    *)
(* ===================================================================== *)

Module Screen.
Import JS Response Eff Types.
Local Open Scope eff_scope.

(** The native layer under [KeysenderScreenAutomation]: keysender
    ([getAllWindows], [getWindowChildren], [Hardware]), koffi's
    [GetSystemMetrics] and the [sharp] image library.  [hardware_*] act on a
    fresh [new Hardware(handle)], [workwindow_*] on [this.hardware]. *)
Record Native (S : Type) : Type := {
  getAllWindows : S -> Res (list WindowInfo) * S;
  getWindowChildren : num -> S -> Res (list WindowInfo) * S;
  hardware_getView : num -> S -> Res Rect.t * S;
  hardware_get : num -> S -> Res unit * S;
  workwindow_set : num -> S -> Res unit * S;
  workwindow_setForeground : S -> Res unit * S;
  workwindow_isForeground : S -> Res bool * S;
  workwindow_isOpen : S -> Res bool * S;
  workwindow_getView : S -> Res Rect.t * S;
  workwindow_setView : Rect.t -> S -> Res unit * S;
  workwindow_capture : option Rect.t -> S -> Res Capture * S;
  user32_GetSystemMetrics : Z -> S -> Res Z * S;
  import_sharp : S -> Res unit * S;
  sharp_toBuffer : SharpJob -> S -> Res (list byte) * S
}.
Arguments getAllWindows {S} n.
Arguments getWindowChildren {S} n.
Arguments hardware_getView {S} n.
Arguments hardware_get {S} n.
Arguments workwindow_set {S} n.
Arguments workwindow_setForeground {S} n.
Arguments workwindow_isForeground {S} n.
Arguments workwindow_isOpen {S} n.
Arguments workwindow_getView {S} n.
Arguments workwindow_setView {S} n.
Arguments workwindow_capture {S} n.
Arguments user32_GetSystemMetrics {S} n.
Arguments import_sharp {S} n.
Arguments sharp_toBuffer {S} n.

(** System metrics constants. *)
Definition SM_CXSCREEN : Z := 0.
Definition SM_CYSCREEN : Z := 1.
Definition SM_CMONITORS : Z := 80.
Definition SM_XVIRTUALSCREEN : Z := 76.
Definition SM_YVIRTUALSCREEN : Z := 77.
Definition SM_CXVIRTUALSCREEN : Z := 78.
Definition SM_CYVIRTUALSCREEN : Z := 79.

(** ** Pure parts of [findSuitableWindow] *)

(** [w.title && typeof w.title === 'string' && w.title.trim() !== ''] *)
Definition hasTitle (w : WindowInfo) : bool :=
  truthyStr (title w) && negb (trim (title w) =? EmptyString)%string.

(** The predicate of the filter that computes [matchingWindows]. *)
Definition matchesTitle {cm : CaseMapping} (targetTitle : string)
    (w : WindowInfo) : bool :=
  (title w =? targetTitle)%string ||
  includes (title w) targetTitle ||
  includes (toLowerCase (title w)) (toLowerCase targetTitle).

(** [targetTitle ? windowsWithTitle.filter(...) : []] *)
Definition matchingWindows {cm : CaseMapping} (targetTitle : option string)
    (windowsWithTitle : list WindowInfo) : list WindowInfo :=
  match targetTitle with
  | Some t => if truthyStr t then filter (matchesTitle t) windowsWithTitle else []
  | None => []
  end.

(** The predicate of the filter that computes [preferredWindows]. *)
Definition isPreferred (w : WindowInfo) : bool :=
  includes (title w) "Notepad" ||
  includes (title w) "Chrome" ||
  includes (title w) "Firefox" ||
  includes (title w) "Visual Studio Code" ||
  includes (title w) "Word" ||
  includes (title w) "Excel" ||
  includes (title w) "PowerPoint".

Definition isEmpty {A} (l : list A) : bool :=
  match l with [] => true | _ => false end.

(** [targetTitle && targetTitle !== "Unknown"] *)
Definition targetRequired (targetTitle : option string) : bool :=
  match targetTitle with
  | Some t => truthyStr t && negb (t =? "Unknown")%string
  | None => false
  end.

(** The list the [for] loop of [findSuitableWindow] iterates over, or [None]
    where the function returns [null] before reaching the loop. *)
Definition selectCandidates {cm : CaseMapping} (targetTitle : option string)
    (allWindows : list WindowInfo) : option (list WindowInfo) :=
  if isEmpty allWindows then None else
  let windowsWithTitle := filter hasTitle allWindows in
  if isEmpty windowsWithTitle then None else
  let matching := matchingWindows targetTitle windowsWithTitle in
  if isEmpty matching then
    if targetRequired targetTitle then None else
    let preferredWindows := filter isPreferred windowsWithTitle in
    Some (if isEmpty preferredWindows then windowsWithTitle else preferredWindows)
  else Some matching.

(** The test on [viewInfo] inside the loop; [viewInfo] is an object with
    numeric members by typing. *)
Definition validView (viewInfo : Rect.t) : bool :=
  gt (Rect.width viewInfo) (ofZ 0) &&
  gt (Rect.height viewInfo) (ofZ 0) &&
  gt (Rect.x viewInfo) (ofZ (-10000)) &&
  gt (Rect.y viewInfo) (ofZ (-10000)).

(** [{ x: 0, y: 0, width: 800, height: 600 }] *)
Definition fallbackView : Rect.t :=
  {| Rect.x := ofZ 0; Rect.y := ofZ 0;
     Rect.width := ofZ 800; Rect.height := ofZ 600 |}.

Definition zeroView : Rect.t :=
  {| Rect.x := ofZ 0; Rect.y := ofZ 0;
     Rect.width := ofZ 0; Rect.height := ofZ 0 |}.

(** ** Data payloads *)

Definition point (x y : num) : value :=
  VObj [("x", VNum x); ("y", VNum y)].

Definition extent (w h : num) : value :=
  VObj [("width", VNum w); ("height", VNum h)].

(** The descriptor [getActiveWindow] and [focusWindow] report. *)
Definition descriptor (w : WindowInfo) (viewInfo : Rect.t)
  : list (string * value) :=
  [ ("title", VStr (title w));
    ("className", VStr (orStr (className w) "Unknown"));
    ("handle", VNum (handle w));
    ("position", point (Rect.x viewInfo) (Rect.y viewInfo));
    ("size", extent (Rect.width viewInfo) (Rect.height viewInfo)) ].

(** The placeholder [getActiveWindow] reports when nothing was found. *)
Definition unknownWindow : list (string * value) :=
  [ ("title", VStr "Unknown");
    ("className", VStr "Unknown");
    ("handle", VNum (ofZ 0));
    ("position", point (ofZ 0) (ofZ 0));
    ("size", extent (ofZ 0) (ofZ 0)) ].

(** [x !== null ? x : fallback] *)
Definition orElse (requested : option num) (fallback : num) : num :=
  match requested with Some v => v | None => fallback end.

(** [x || 0] for [x : number | null] *)
Definition orZero (requested : option num) : num :=
  match requested with Some v => or v (ofZ 0) | None => ofZ 0 end.

(** The object literal [newView] of [updateWindowPosition]. *)
Definition mergeView (x y width height : option num) (currentView : Rect.t)
  : Rect.t :=
  {| Rect.x := orElse x (or (Rect.x currentView) (ofZ 0));
     Rect.y := orElse y (or (Rect.y currentView) (ofZ 0));
     Rect.width := orElse width (or (Rect.width currentView) (ofZ 0));
     Rect.height := orElse height (or (Rect.height currentView) (ofZ 0)) |}.

(** [resultData?.title || windowTitle], read through the cast to
    [{ title: string; handle: number }]. *)
Definition titleOr (v : value) (windowTitle : string) : string :=
  match v with VStr s => orStr s windowTitle | _ => windowTitle end.

(** ** Screenshot helpers *)

Definition defaultResize : Resize :=
  {| resizeWidth := Some (ofZ 1280); resizeHeight := None; fit := Some inside |}.

(** [{ format: 'jpeg', quality: 70, resize: {...}, ...options }]: a member
    of [options] that is present replaces the default. *)
Definition mergeOptions (options : option ScreenshotOptions) : ScreenshotOptions :=
  match options with
  | None =>
      {| region := None; format := Some jpeg; quality := Some (ofZ 70);
         grayscale := None; compressionLevel := None;
         resize := Some defaultResize |}
  | Some o =>
      {| region := region o;
         format := match format o with Some f => Some f | None => Some jpeg end;
         quality := match quality o with Some q => Some q | None => Some (ofZ 70) end;
         grayscale := grayscale o;
         compressionLevel := compressionLevel o;
         resize := match resize o with Some r => Some r | None => Some defaultResize end |}
  end.

(** [o?.k || d] for an optional number *)
Definition optOr (o : option num) (d : num) : num :=
  match o with Some v => or v d | None => d end.

Definition optTruthy (o : option num) : bool :=
  match o with Some v => truthy v | None => false end.

Definition resizeWidthOf (m : ScreenshotOptions) : option num :=
  match resize m with Some r => resizeWidth r | None => None end.

Definition resizeHeightOf (m : ScreenshotOptions) : option num :=
  match resize m with Some r => resizeHeight r | None => None end.

Definition fitOf (m : ScreenshotOptions) : Fit :=
  match resize m with
  | Some r => match fit r with Some f => f | None => inside end
  | None => inside
  end.

Definition formatIsJpeg (m : ScreenshotOptions) : bool :=
  match format m with Some jpeg => true | _ => false end.

Definition mimeTypeOf (m : ScreenshotOptions) : string :=
  if formatIsJpeg m then "image/jpeg" else "image/png".

(** The pipeline the inner [try] of [getScreenshot] builds. *)
Definition sharpJob (m : ScreenshotOptions) (screenImage : list byte)
    (width height : num) : SharpJob :=
  {| input := screenImage;
     rawWidth := width;
     rawHeight := height;
     initialWidth := JS.min width (optOr (resizeWidthOf m) (ofZ 1280));
     toGrayscale := match grayscale m with Some b => b | None => false end;
     finalResize :=
       if optTruthy (resizeWidthOf m) || optTruthy (resizeHeightOf m)
       then Some (resizeWidthOf m, resizeHeightOf m, fitOf m)
       else None;
     encoder := if formatIsJpeg m then jpeg else png;
     encoderLevel :=
       if formatIsJpeg m then optOr (quality m) (ofZ 70)
       else optOr (compressionLevel m) (ofZ 9) |}.

(** [const maxSize = 1280] and the [scaleFactor] of the fallback. *)
Definition maxSize : num := ofZ 1280.

Definition scaleFactor (width height : num) : num :=
  if gt width maxSize || gt height maxSize
  then JS.min (div maxSize width) (div maxSize height)
  else ofZ 1.

Definition scaledWidth (width height : num) : num :=
  round (mul width (scaleFactor width height)).

Definition scaledHeight (width height : num) : num :=
  round (mul height (scaleFactor width height)).

(** The envelope both branches of [getScreenshot] build. *)
Definition screenshotResponse (msg base64Data mime : string)
    (d : list (string * value)) : WindowsControlResponse :=
  {| success := true;
     message := msg;
     data := Some d;
     screenshot := Some base64Data;
     encoding := Some "base64";
     content := Some [ {| type_ := "image"; imageData := base64Data;
                          mimeType := mime |} ];
     timestamp := None |}.

Definition dims (w h : num) : list (string * value) :=
  [("width", VNum w); ("height", VNum h)].

Definition operationName (op : OperationType) : string :=
  match op with reposition => "reposition" | resize_ => "resize" end.

(** The envelope of the outer [catch] of [updateWindowPosition]. *)
Definition updateFailure (op : OperationType) (error : string)
  : WindowsControlResponse :=
  failure ("Failed to " ++ operationName op ++ " window: " ++ error).

(** ** The methods of [KeysenderScreenAutomation] *)

Section WithNative.
Context {S : Type}.
Variable native : Native S.
Context {fmt : NumberFormat} {cm : CaseMapping}.

(** Swallow whatever [m] throws: [try { m } catch (e) { console.warn(e) }]. *)
Definition quietly (m : M (World S) unit) : M (World S) unit :=
  try m catch _e => ret tt.

(** [let b = false; try { b = m } catch (e) { console.warn(e) }] *)
Definition flagOf (m : M (World S) bool) : M (World S) bool :=
  try m catch _e => ret false.

(** [getScreenSize()] *)
Definition getScreenSize : M (World S) WindowsControlResponse :=
  try (
    screenWidth <- invoke (GetSystemMetrics SM_CXSCREEN)
                     (user32_GetSystemMetrics native SM_CXSCREEN) ;;
    screenHeight <- invoke (GetSystemMetrics SM_CYSCREEN)
                      (user32_GetSystemMetrics native SM_CYSCREEN) ;;
    throwIf ((screenWidth =? 0) || (screenHeight =? 0))
      "GetSystemMetrics returned zero for screen dimensions." ;;;
    ret (successWith
           ("Primary screen size: " ++ showZ screenWidth ++ "x" ++ showZ screenHeight)
           (dims (ofZ screenWidth) (ofZ screenHeight)))
  ) catch error =>
    ret (failure ("Failed to get screen size using koffi: " ++ error)).

(** The [for (const candidateWindow of matchingWindows)] loop of
    [findSuitableWindow]: the first candidate whose view passes
    [validView]; a candidate whose view cannot be read is skipped. *)
Fixpoint scanCandidates (candidates : list WindowInfo)
  : M (World S) (option (WindowInfo * Rect.t)) :=
  match candidates with
  | [] => ret None
  | candidateWindow :: rest =>
      found <- (try (
                  viewInfo <- invoke (HardwareGetView (handle candidateWindow))
                                (hardware_getView native (handle candidateWindow)) ;;
                  ret (if validView viewInfo
                       then Some (candidateWindow, viewInfo)
                       else None)
                ) catch _error => ret None) ;;
      match found with
      | Some hit => ret (Some hit)
      | None => scanCandidates rest
      end
  end.

(** [private findSuitableWindow(targetTitle?)]; [None] is [null]. *)
Definition findSuitableWindow (targetTitle : option string)
  : M (World S) (option (WindowInfo * Rect.t)) :=
  try (
    allWindows <- invoke GetAllWindows (getAllWindows native) ;;
    match selectCandidates targetTitle allWindows with
    | None => ret None
    | Some matching =>
        found <- scanCandidates matching ;;
        match found, matching with
        | Some hit, _ => ret (Some hit)
        | None, fallbackWindow :: _ => ret (Some (fallbackWindow, fallbackView))
        | None, [] => ret None
        end
    end
  ) catch _error => ret None.

(** [getActiveWindow()] *)
Definition getActiveWindow : M (World S) WindowsControlResponse :=
  try (
    windowInfo <- findSuitableWindow None ;;
    match windowInfo with
    | None =>
        ret (successWith "Active window: Unknown (no suitable window found)"
               unknownWindow)
    | Some (typedWindow, viewInfo) =>
        invoke (HardwareGet (handle typedWindow))
          (hardware_get native (handle typedWindow)) ;;;
        quietly (invoke (WorkwindowSet (handle typedWindow))
                   (workwindow_set native (handle typedWindow))) ;;;
        isForeground <- flagOf (invoke WorkwindowIsForeground
                                  (workwindow_isForeground native)) ;;
        ret (successWith
               ("Active window: " ++ title typedWindow ++
                (if isForeground then " (foreground)" else EmptyString))
               (descriptor typedWindow viewInfo ++
                [("isForeground", VBool isForeground)]))
    end
  ) catch error =>
    ret (failure ("Failed to get active window: " ++ error)).

(** The special case of [focusWindow] for the title ["Unknown"]: any window
    will do; [None] where the code falls through to the failure envelope. *)
Definition focusAlternative : M (World S) (option WindowsControlResponse) :=
  anyWindow <- findSuitableWindow None ;;
  match anyWindow with
  | None => ret None
  | Some (w, viewInfo) =>
      try (
        invoke (WorkwindowSet (handle w)) (workwindow_set native (handle w)) ;;;
        quietly (invoke WorkwindowSetForeground (workwindow_setForeground native)) ;;;
        isForeground <- flagOf (invoke WorkwindowIsForeground
                                  (workwindow_isForeground native)) ;;
        ret (Some (successWith
                     ("Focused alternative window: " ++ title w)
                     (descriptor w viewInfo ++
                      [("isForeground", VBool isForeground)])))
      ) catch _error => ret None
  end.

(** [focusWindow(title)] *)
Definition focusWindow (title_ : string) : M (World S) WindowsControlResponse :=
  try (
    windowInfo <- findSuitableWindow (Some title_) ;;
    match windowInfo with
    | None =>
        alternative <- (if (title_ =? "Unknown")%string
                        then focusAlternative
                        else ret None) ;;
        match alternative with
        | Some response => ret response
        | None => ret (failure ("Could not find window with title: " ++ title_))
        end
    | Some (targetWindow, viewInfo) =>
        quietly (invoke (WorkwindowSet (handle targetWindow))
                   (workwindow_set native (handle targetWindow))) ;;;
        quietly (invoke WorkwindowSetForeground (workwindow_setForeground native)) ;;;
        isForeground <- flagOf (invoke WorkwindowIsForeground
                                  (workwindow_isForeground native)) ;;
        isOpen <- flagOf (invoke WorkwindowIsOpen (workwindow_isOpen native)) ;;
        quietly (invoke (GetWindowChildren (handle targetWindow))
                   (getWindowChildren native (handle targetWindow)) ;;; ret tt) ;;;
        ret (successWith
               ("Focused window: " ++ title targetWindow ++
                (if isForeground then " (foreground)" else EmptyString) ++
                (if isOpen then " (open)" else EmptyString))
               (descriptor targetWindow viewInfo ++
                [("isForeground", VBool isForeground); ("isOpen", VBool isOpen)]))
    end
  ) catch error =>
    ret (failure ("Failed to focus window: " ++ error)).

Definition showOpt (n : option num) : string :=
  match n with Some v => showNum v | None => "null" end.

(** The text after [to] in the messages of [updateWindowPosition]. *)
Definition showRequest (op : OperationType) (x y width height : option num)
  : string :=
  match op with
  | resize_ => showOpt width ++ "x" ++ showOpt height
  | reposition => "(" ++ showOpt x ++ ", " ++ showOpt y ++ ")"
  end.

(** [private async updateWindowPosition(...)], up to its only [await]: the
    promise is already settled ([inl]) when focusing failed or something
    threw; otherwise the body is suspended ([inr]) just before the view is
    read again. *)
Definition updateWindowPosition_start (windowTitle : string)
    (x y width height : option num) (op : OperationType)
  : M (World S) (WindowsControlResponse + Suspended) :=
  try (
    focusResult <- focusWindow windowTitle ;;
    if negb (success focusResult) then ret (inl focusResult) else
    let actualTitle_ := titleOr (field focusResult "title") windowTitle in
    let handle_ := or (asNum (field focusResult "handle")) (ofZ 0) in
    currentView <- (try invoke WorkwindowGetView (workwindow_getView native)
                    catch _viewError => ret zeroView) ;;
    let newView_ := mergeView x y width height currentView in
    quietly (invoke (WorkwindowSetView newView_)
               (workwindow_setView native newView_)) ;;;
    ret (inr {| operationType := op;
                reqX := x; reqY := y; reqWidth := width; reqHeight := height;
                actualTitle := actualTitle_;
                focusedHandle := handle_;
                newView := newView_ |})
  ) catch error =>
    ret (inl (updateFailure op error)).

(** The [data] of the envelope [updateWindowPosition] resolves to. *)
Definition updateData (k : Suspended) (updatedView : Rect.t)
    (isForeground : bool) : list (string * value) :=
  [ ("title", VStr (actualTitle k));
    ("handle", VNum (focusedHandle k));
    ("position", point (or (Rect.x updatedView) (Rect.x (newView k)))
                       (or (Rect.y updatedView) (Rect.y (newView k))));
    ("size", extent (or (Rect.width updatedView) (Rect.width (newView k)))
                    (or (Rect.height updatedView) (Rect.height (newView k))));
    ("isForeground", VBool isForeground);
    match operationType k with
    | resize_ => ("requestedSize",
                  extent (orZero (reqWidth k)) (orZero (reqHeight k)))
    | reposition => ("requestedPosition",
                     point (orZero (reqX k)) (orZero (reqY k)))
    end ].

(** [updateWindowPosition] from the end of the 100 ms delay on. *)
Definition updateWindowPosition_resume (k : Suspended)
  : M (World S) WindowsControlResponse :=
  try (
    updatedView <- (try invoke WorkwindowGetView (workwindow_getView native)
                    catch _viewError => ret (newView k)) ;;
    isForeground <- flagOf (invoke WorkwindowIsForeground
                              (workwindow_isForeground native)) ;;
    ret (successWith
           ((match operationType k with
             | resize_ => "Resized"
             | reposition => "Repositioned"
             end) ++ " window " ++ quote ++ actualTitle k ++ quote ++ " to " ++
            showRequest (operationType k) (reqX k) (reqY k) (reqWidth k) (reqHeight k))
           (updateData k updatedView isForeground))
  ) catch error =>
    ret (updateFailure (operationType k) error).

(** [await this.updateWindowPosition(...)]: the envelope the promise
    resolves to when nothing else runs during the delay. *)
Definition updateWindowPosition (windowTitle : string)
    (x y width height : option num) (op : OperationType)
  : M (World S) WindowsControlResponse :=
  started <- updateWindowPosition_start windowTitle x y width height op ;;
  match started with
  | inl settled => ret settled
  | inr k => updateWindowPosition_resume k
  end.

(** [void this.updateWindowPosition(...)]: the body runs up to its [await];
    what is left of it waits on the timer queue and its envelope is
    dropped. *)
Definition fireAndForget (windowTitle : string)
    (x y width height : option num) (op : OperationType)
  : M (World S) unit :=
  started <- updateWindowPosition_start windowTitle x y width height op ;;
  match started with
  | inl _ => ret tt
  | inr k => park k
  end.

(** [resizeWindow(title, width, height)] *)
Definition resizeWindow (title_ : string) (width height : num)
  : M (World S) WindowsControlResponse :=
  try (
    fireAndForget title_ None None (Some width) (Some height) resize_ ;;;
    ret (successWith
           ("Resized window " ++ quote ++ title_ ++ quote ++ " to " ++
            showNum width ++ "x" ++ showNum height)
           [ ("title", VStr title_);
             ("handle", VNum (ofZ 0));
             ("position", point (ofZ 0) (ofZ 0));
             ("size", extent width height);
             ("isForeground", VBool false);
             ("requestedSize", extent width height) ])
  ) catch error =>
    ret (failure ("Failed to resize window: " ++ error)).

(** [repositionWindow(title, x, y)] *)
Definition repositionWindow (title_ : string) (x y : num)
  : M (World S) WindowsControlResponse :=
  try (
    fireAndForget title_ (Some x) (Some y) None None reposition ;;;
    ret (successWith
           ("Repositioned window " ++ quote ++ title_ ++ quote ++ " to (" ++
            showNum x ++ ", " ++ showNum y ++ ")")
           [ ("title", VStr title_);
             ("handle", VNum (ofZ 0));
             ("position", point x y);
             ("size", extent (ofZ 0) (ofZ 0));
             ("isForeground", VBool false);
             ("requestedPosition", point x y) ])
  ) catch error =>
    ret (failure ("Failed to reposition window: " ++ error)).

(** The event loop fires the parked continuations, oldest first; nobody
    receives their envelopes. *)
Fixpoint resumeAll (ks : list Suspended) : M (World S) unit :=
  match ks with
  | [] => ret tt
  | k :: rest => updateWindowPosition_resume k ;;; resumeAll rest
  end.

Definition fireTimers : M (World S) unit :=
  fun w =>
    resumeAll (timers w)
      {| host := host w; timers := []; calls := calls w; raised := raised w |}.

(** One entry of [monitors] in [getAllDisplays]. *)
Definition monitorInfo (index : Z) (isPrimary : bool)
    (bx by_ bw bh : Z) (wx wy ww wh : Z) (deviceName : string) : value :=
  VObj [ ("index", VNum (ofZ index));
         ("isPrimary", VBool isPrimary);
         ("bounds", VObj [("x", VNum (ofZ bx)); ("y", VNum (ofZ by_));
                          ("width", VNum (ofZ bw)); ("height", VNum (ofZ bh))]);
         ("workArea", VObj [("x", VNum (ofZ wx)); ("y", VNum (ofZ wy));
                            ("width", VNum (ofZ ww)); ("height", VNum (ofZ wh))]);
         ("deviceName", VStr deviceName) ].

(** [const estimatedTaskbarHeight = 40] *)
Definition estimatedTaskbarHeight : Z := 40.

(** The array [monitors] that [getAllDisplays] builds. *)
Definition estimateMonitors (screenWidth screenHeight monitorCount
    virtualWidth virtualHeight : Z) : list value :=
  monitorInfo 0 true 0 0 screenWidth screenHeight
    0 0 screenWidth (screenHeight - estimatedTaskbarHeight) "DISPLAY1" ::
  (if monitorCount >? 1 then
     let secondaryWidth := virtualWidth - screenWidth in
     let secondaryHeight := virtualHeight in
     (if secondaryWidth >? 0 then
        [ monitorInfo 1 false screenWidth 0 secondaryWidth secondaryHeight
            screenWidth 0 secondaryWidth (secondaryHeight - estimatedTaskbarHeight)
            "DISPLAY2" ]
      else []) ++
     map (fun i : nat =>
            monitorInfo (Z.of_nat i) false 0 0 0 0 0 0 0 0
              ("DISPLAY" ++ showZ (Z.of_nat i + 1)))
         (seq 2 (Z.to_nat monitorCount - 2))
   else []).

(** [getAllDisplays()] *)
Definition getAllDisplays : M (World S) WindowsControlResponse :=
  let metric i := invoke (GetSystemMetrics i) (user32_GetSystemMetrics native i) in
  try (
    screenWidth <- metric SM_CXSCREEN ;;
    screenHeight <- metric SM_CYSCREEN ;;
    monitorCount <- metric SM_CMONITORS ;;
    virtualX <- metric SM_XVIRTUALSCREEN ;;
    virtualY <- metric SM_YVIRTUALSCREEN ;;
    virtualWidth <- metric SM_CXVIRTUALSCREEN ;;
    virtualHeight <- metric SM_CYVIRTUALSCREEN ;;
    throwIf (((screenWidth =? 0) || (screenHeight =? 0) || (monitorCount =? 0) ||
              (virtualWidth =? 0) || (virtualHeight =? 0)) && (monitorCount =? 0))
      "GetSystemMetrics reported 0 monitors." ;;;
    let monitors :=
      estimateMonitors screenWidth screenHeight monitorCount
        virtualWidth virtualHeight in
    ret (successWith
           ("Found " ++ showZ monitorCount ++ " display(s) using koffi. Primary: " ++
            showZ screenWidth ++ "x" ++ showZ screenHeight ++ ". Virtual: " ++
            showZ virtualWidth ++ "x" ++ showZ virtualHeight ++ " at (" ++
            showZ virtualX ++ "," ++ showZ virtualY ++ ").")
           [ ("monitorCount", VNum (ofZ monitorCount));
             ("primaryIndex", VNum (ofZ 0));
             ("primaryDisplay",
              VObj [ ("width", VNum (ofZ screenWidth));
                     ("height", VNum (ofZ screenHeight));
                     ("bounds", prop (hd VUndefined monitors) "bounds");
                     ("workArea", prop (hd VUndefined monitors) "workArea") ]);
             ("virtualScreen",
              VObj [ ("x", VNum (ofZ virtualX)); ("y", VNum (ofZ virtualY));
                     ("width", VNum (ofZ virtualWidth));
                     ("height", VNum (ofZ virtualHeight)) ]);
             ("monitors", VArr monitors) ])
  ) catch error =>
    ret (failure ("Failed to get display information using koffi: " ++ error)).

(** The [data] of a screenshot envelope: the requested region's extent, or
    [full] for a capture of the whole screen. *)
Definition screenshotData (options : option ScreenshotOptions)
    (full : list (string * value)) : list (string * value) :=
  match options with
  | Some {| region := Some r |} => dims (Rect.width r) (Rect.height r)
  | _ => full
  end.

Definition regionOf (options : option ScreenshotOptions) : option Rect.t :=
  match options with
  | Some o => region o
  | None => None
  end.

(** [async getScreenshot(options?)]; every [await] is waited for. *)
Definition getScreenshot (options : option ScreenshotOptions)
  : M (World S) WindowsControlResponse :=
  try (
    invoke ImportSharp (import_sharp native) ;;;
    let mergedOptions := mergeOptions options in
    captureResult <- invoke (WorkwindowCapture (regionOf options))
                       (workwindow_capture native (regionOf options)) ;;
    let width := captureWidth captureResult in
    let height := captureHeight captureResult in
    let screenImage := captureData captureResult in
    try (
      outputBuffer <- invoke (SharpToBuffer (sharpJob mergedOptions screenImage width height))
                        (sharp_toBuffer native
                           (sharpJob mergedOptions screenImage width height)) ;;
      ret (screenshotResponse "Screenshot captured successfully"
             (base64 outputBuffer) (mimeTypeOf mergedOptions)
             (screenshotData options (dims (round width) (round height))))
    ) catch _sharpError =>
      ret (screenshotResponse "Screenshot captured with basic processing"
             (base64 screenImage) (mimeTypeOf mergedOptions)
             (screenshotData options
                (dims (scaledWidth width height) (scaledHeight width height))))
  ) catch error =>
    ret (failure ("Failed to capture screenshot: " ++ error)).

End WithNative.

End Screen.

(* ===================================================================== *)
(** * The tool dispatcher ([handlers/tools.ts]), window cases            *)
(* ===================================================================== *)

Module Handler.
Import JS Response Eff Types.
Local Open Scope eff_scope.

(** The functions the dispatcher imports from [tools/screen.js]; that
    module is outside this development, so they are parameters. *)
Record ScreenTools (S : Type) : Type := {
  tool_getActiveWindow : M (World S) WindowsControlResponse;
  tool_focusWindow : string -> M (World S) WindowsControlResponse;
  tool_resizeWindow : string -> num -> num -> M (World S) WindowsControlResponse;
  tool_repositionWindow : string -> num -> num -> M (World S) WindowsControlResponse
}.
Arguments tool_getActiveWindow {S} _.
Arguments tool_focusWindow {S} _.
Arguments tool_resizeWindow {S} _.
Arguments tool_repositionWindow {S} _.

(** What the request handler hands back to the transport. *)
Inductive ToolResult : Type :=
  | Images (items : list ImageContent)       (* { content: response.content } *)
  | Text (response : WindowsControlResponse) (* text: JSON.stringify(response, null, 2) *)
  | ErrorText (text : string).               (* { content: [errorContent], isError: true } *)

Section WithTools.
Context {S : Type}.
Variable tools : ScreenTools S.

(** The [case] labels of [switch (name)] that deal with windows; [None]
    for every other label, which this development does not cover. *)
Definition windowCase (name : string) (args : value)
  : option (M (World S) WindowsControlResponse) :=
  if (name =? "get_active_window")%string then
    Some (tool_getActiveWindow tools)
  else if (name =? "focus_window")%string then
    Some match prop args "title" with
         | VStr t => tool_focusWindow tools t
         | _ => throw "Invalid window title argument"
         end
  else if (name =? "resize_window")%string then
    Some match prop args "title", prop args "width", prop args "height" with
         | VStr t, VNum w, VNum h => tool_resizeWindow tools t w h
         | _, _, _ => throw "Invalid window resize arguments"
         end
  else if (name =? "reposition_window")%string then
    Some match prop args "title", prop args "x", prop args "y" with
         | VStr t, VNum x, VNum y => tool_repositionWindow tools t x y
         | _, _, _ => throw "Invalid window reposition arguments"
         end
  else if (name =? "minimize_window")%string then
    Some match prop args "title" with
         | VStr _ => ret (failure "Minimize window operation is not supported")
         | _ => throw "Invalid window title argument"
         end
  else if (name =? "restore_window")%string then
    Some match prop args "title" with
         | VStr _ => ret (failure "Restore window operation is not supported")
         | _ => throw "Invalid window title argument"
         end
  else None.

(** The code after the [switch]: an image-bearing response is returned as
    its content items, any other as text. *)
Definition wrap (response : WindowsControlResponse) : ToolResult :=
  match content response with
  | Some (first :: rest) =>
      if (type_ first =? "image")%string then Images (first :: rest)
      else Text response
  | _ => Text response
  end.

(** The handler of [CallToolRequestSchema], restricted to [windowCase]. *)
Definition callTool (name : string) (args : value)
  : option (M (World S) ToolResult) :=
  match windowCase name args with
  | Some action =>
      Some (try (response <- action ;; ret (wrap response))
            catch error => ret (ErrorText ("Error: " ++ error)))
  | None => None
  end.

End WithTools.

End Handler.

(* ===================================================================== *)
(** * Scripted backends, used to run the code on concrete inputs          *)
(* ===================================================================== *)

Module Scripted.
Import JS Response Eff Types.

(** Integers are rendered in decimal, as JavaScript does; the text given
    to other rationals is a placeholder. *)
Definition decimal (n : num) : string :=
  match n with
  | NaN => "NaN"
  | PosInf => "Infinity"
  | NegInf => "-Infinity"
  | Fin q =>
      let r := Qred q in
      if (Qden r =? 1)%positive then showZ (Qnum r)
      else showZ (Qnum r) ++ "/" ++ showZ (Zpos (Qden r))
  end.

#[export] Instance decimalFormat : NumberFormat := {| showNum := decimal |}.

(** Lower-casing of one code unit below 256: A-Z and the Latin-1 capitals
    U+00C0..U+00DE (except the multiplication sign U+00D7) move up by 32. *)
Definition lowerChar (c : ascii) : ascii :=
  let n := code c in
  if ((65 <=? n) && (n <=? 90) || (192 <=? n) && (n <=? 222) && negb (n =? 215))%N
  then ascii_of_N (n + 32)
  else c.

(** Among code points below 256 no lower-casing depends on the context:
    [toLowerCase] maps the units one by one. *)
Fixpoint lowerLatin1 (s : string) : string :=
  match s with
  | EmptyString => EmptyString
  | String c s' => String (lowerChar c) (lowerLatin1 s')
  end.

#[export] Instance latin1 : CaseMapping := {| toLowerCase := lowerLatin1 |}.

(** A native layer that answers every call from a fixed script and keeps
    no state. *)
Record Script : Type := {
  windowsAnswer : Res (list WindowInfo);
  childrenAnswer : Res (list WindowInfo);
  candidateView : num -> Res Rect.t;
  hardwareGetAnswer : Res unit;
  setAnswer : Res unit;
  setForegroundAnswer : Res unit;
  isForegroundAnswer : Res bool;
  isOpenAnswer : Res bool;
  viewAnswer : Res Rect.t;
  setViewAnswer : Res unit;
  captureAnswer : option Rect.t -> Res Capture;
  metric : Z -> Res Z;
  importAnswer : Res unit;
  sharpAnswer : Res (list byte)
}.

Definition native (sc : Script) : Screen.Native unit :=
  {| Screen.getAllWindows := fun s => (windowsAnswer sc, s);
     Screen.getWindowChildren := fun _ s => (childrenAnswer sc, s);
     Screen.hardware_getView := fun h s => (candidateView sc h, s);
     Screen.hardware_get := fun _ s => (hardwareGetAnswer sc, s);
     Screen.workwindow_set := fun _ s => (setAnswer sc, s);
     Screen.workwindow_setForeground := fun s => (setForegroundAnswer sc, s);
     Screen.workwindow_isForeground := fun s => (isForegroundAnswer sc, s);
     Screen.workwindow_isOpen := fun s => (isOpenAnswer sc, s);
     Screen.workwindow_getView := fun s => (viewAnswer sc, s);
     Screen.workwindow_setView := fun _ s => (setViewAnswer sc, s);
     Screen.workwindow_capture := fun r s => (captureAnswer sc r, s);
     Screen.user32_GetSystemMetrics := fun i s => (metric sc i, s);
     Screen.import_sharp := fun s => (importAnswer sc, s);
     Screen.sharp_toBuffer := fun _ s => (sharpAnswer sc, s) |}.

(** A native layer on which windows appear while an operation runs: the
    first [getAllWindows()] finds none, every later one finds [late].  The
    state counts the enumerations; every other call follows the script. *)
Definition nativeAfter (sc : Script) (late : list WindowInfo)
  : Screen.Native nat :=
  {| Screen.getAllWindows := fun n =>
       (match n with O => Ok [] | Datatypes.S _ => Ok late end, Datatypes.S n);
     Screen.getWindowChildren := fun _ s => (childrenAnswer sc, s);
     Screen.hardware_getView := fun h s => (candidateView sc h, s);
     Screen.hardware_get := fun _ s => (hardwareGetAnswer sc, s);
     Screen.workwindow_set := fun _ s => (setAnswer sc, s);
     Screen.workwindow_setForeground := fun s => (setForegroundAnswer sc, s);
     Screen.workwindow_isForeground := fun s => (isForegroundAnswer sc, s);
     Screen.workwindow_isOpen := fun s => (isOpenAnswer sc, s);
     Screen.workwindow_getView := fun s => (viewAnswer sc, s);
     Screen.workwindow_setView := fun _ s => (setViewAnswer sc, s);
     Screen.workwindow_capture := fun r s => (captureAnswer sc r, s);
     Screen.user32_GetSystemMetrics := fun i s => (metric sc i, s);
     Screen.import_sharp := fun s => (importAnswer sc, s);
     Screen.sharp_toBuffer := fun _ s => (sharpAnswer sc, s) |}.

Definition rect (x y w h : Z) : Rect.t :=
  {| Rect.x := ofZ x; Rect.y := ofZ y; Rect.width := ofZ w; Rect.height := ofZ h |}.

Definition pixels : list byte := [x66; x75; x6c; x6c]%byte.

(** The desktop the repository's unit tests simulate: one window
    ["Test Window"] at (100, 200) of size 800x600, in the foreground; the
    screen is 1920x1080; a region capture has the size asked for. *)
Definition testDesktop : Script :=
  {| windowsAnswer :=
       Ok [ {| title := "Test Window"; className := "TestClass";
               handle := ofZ 12345 |} ];
     childrenAnswer := Ok [];
     candidateView := fun _ => Ok (rect 100 200 800 600);
     hardwareGetAnswer := Ok tt;
     setAnswer := Ok tt;
     setForegroundAnswer := Ok tt;
     isForegroundAnswer := Ok true;
     isOpenAnswer := Ok true;
     viewAnswer := Ok (rect 100 200 800 600);
     setViewAnswer := Ok tt;
     captureAnswer := fun r =>
       match r with
       | Some part => Ok {| captureData := pixels;
                            captureWidth := Rect.width part;
                            captureHeight := Rect.height part |}
       | None => Ok {| captureData := pixels;
                       captureWidth := ofZ 1920;
                       captureHeight := ofZ 1080 |}
       end;
     metric := fun i => Ok (if i =? 0 then 1920 else if i =? 1 then 1080
                            else if i =? 80 then 1 else if i =? 78 then 1920
                            else if i =? 79 then 1080 else 0);
     importAnswer := Ok tt;
     sharpAnswer := Ok pixels |}.

(** A provider for [tools/mouse.ts] whose mouse accepts everything and whose
    screen is 1920x1080. *)
Definition accepted : WindowsControlResponse :=
  successWith "done" [].

Definition provider : Mouse.AutomationProvider unit :=
  {| Mouse.mouse :=
       Some {| Mouse.mouse_moveMouse := fun _ s => (Ok accepted, s);
               Mouse.mouse_clickMouse := fun _ s => (Ok accepted, s);
               Mouse.mouse_doubleClick := fun _ s => (Ok accepted, s);
               Mouse.mouse_getCursorPosition := fun s => (Ok accepted, s);
               Mouse.mouse_scrollMouse := fun _ s => (Ok accepted, s);
               Mouse.mouse_dragMouse := fun _ _ _ s => (Ok accepted, s);
               Mouse.mouse_clickAt := fun _ _ _ s => (Ok accepted, s) |};
     Mouse.screen_getScreenSize :=
       Some (fun s => (Ok (successWith "Primary screen size: 1920x1080"
                             (Screen.dims (ofZ 1920) (ofZ 1080))), s)) |}.

Definition production : Mouse.ProcessEnv :=
  {| Mouse.NODE_ENV := Some "production"; Mouse.VITEST := None |}.

Definition underVitest : Mouse.ProcessEnv :=
  {| Mouse.NODE_ENV := Some "test"; Mouse.VITEST := Some "true" |}.

End Scripted.

(* ===================================================================== *)
(** * The design document's reading of title matching                     *)
(* ===================================================================== *)

Module Design.
Import JS Types.

(** Title matching as the design document words it: "filter by exact match,
    then substring match, then case-insensitive substring match (first
    non-empty tier wins)". *)
Definition tieredMatch {cm : CaseMapping} (targetTitle : string)
    (windowsWithTitle : list WindowInfo) : list WindowInfo :=
  let exact := filter (fun w => (title w =? targetTitle)%string) windowsWithTitle in
  if negb (Screen.isEmpty exact) then exact else
  let containing :=
    filter (fun w => includes (title w) targetTitle) windowsWithTitle in
  if negb (Screen.isEmpty containing) then containing else
  filter (fun w => includes (toLowerCase (title w)) (toLowerCase targetTitle))
    windowsWithTitle.

End Design.

Import JS Response Eff Types.
Local Open Scope eff_scope.
#[local] Existing Instance Scripted.decimalFormat.
#[local] Existing Instance Scripted.latin1.

(* ===================================================================== *)
(** * The public operations, as data                                    *)
(* ===================================================================== *)

(** The public operations of the two modules, as data. *)
Module Capability.



Inductive MouseOperation : Type :=
  | OpMoveMouse (position : Pos.t)
  | OpClickMouse (button : string)
  | OpDoubleClick (position : option Pos.t)
  | OpGetCursorPosition
  | OpScrollMouse (amount : num)
  | OpDragMouse (from to : Pos.t) (button : string)
  | OpClickAt (x y : num) (button : string).

Definition performMouse {S : Type} (provider : Mouse.AutomationProvider S)
    (env : Mouse.ProcessEnv) {fmt : NumberFormat} (op : MouseOperation)
  : M (World S) WindowsControlResponse :=
  match op with
  | OpMoveMouse p => Mouse.moveMouse provider env p
  | OpClickMouse b => Mouse.clickMouse provider b
  | OpDoubleClick p => Mouse.doubleClick provider env p
  | OpGetCursorPosition => Mouse.getCursorPosition provider
  | OpScrollMouse a => Mouse.scrollMouse provider a
  | OpDragMouse from to b => Mouse.dragMouse provider env from to b
  | OpClickAt x y b => Mouse.clickAt provider env x y b
  end.


End Capability.

(* ===================================================================== *)
(** * More scripted desktops                                            *)
(* ===================================================================== *)

(** Two windows that both match the title ["Target"], the second one
    exactly. *)
Definition twoTargets : list WindowInfo :=
  [ {| title := "My Target App"; className := "A"; handle := ofZ 1 |};
    {| title := "Target"; className := "B"; handle := ofZ 2 |} ].

(** A desktop whose only window reports a view of zero width. *)
Definition collapsedDesktop : Scripted.Script :=
  {| Scripted.windowsAnswer :=
       Ok [ {| title := "Calculator"; className := "Calc"; handle := ofZ 7 |} ];
     Scripted.childrenAnswer := Ok [];
     Scripted.candidateView := fun _ => Ok (Scripted.rect 10 10 0 300);
     Scripted.hardwareGetAnswer := Ok tt;
     Scripted.setAnswer := Throw "set failed";
     Scripted.setForegroundAnswer := Throw "setForeground failed";
     Scripted.isForegroundAnswer := Throw "isForeground failed";
     Scripted.isOpenAnswer := Throw "isOpen failed";
     Scripted.viewAnswer := Throw "getView failed";
     Scripted.setViewAnswer := Throw "setView failed";
     Scripted.captureAnswer := fun _ => Throw "capture failed";
     Scripted.metric := fun _ => Ok 0;
     Scripted.importAnswer := Ok tt;
     Scripted.sharpAnswer := Throw "sharp failed" |}.

(** A desktop without windows. *)
Definition emptyDesktop : Scripted.Script :=
  {| Scripted.windowsAnswer := Ok [];
     Scripted.childrenAnswer := Ok [];
     Scripted.candidateView := fun _ => Throw "no such window";
     Scripted.hardwareGetAnswer := Throw "no such window";
     Scripted.setAnswer := Ok tt;
     Scripted.setForegroundAnswer := Ok tt;
     Scripted.isForegroundAnswer := Ok false;
     Scripted.isOpenAnswer := Ok false;
     Scripted.viewAnswer := Throw "no window";
     Scripted.setViewAnswer := Throw "no window";
     Scripted.captureAnswer := fun _ => Throw "capture failed";
     Scripted.metric := fun _ => Ok 0;
     Scripted.importAnswer := Ok tt;
     Scripted.sharpAnswer := Ok [] |}.

(** A desktop that clamps: whatever view is applied, the window ends at
    (0, 10) with size 640x480, in the foreground. *)
Definition clampingDesktop : Scripted.Script :=
  {| Scripted.windowsAnswer :=
       Ok [ {| title := "Test Window"; className := "TestClass";
               handle := ofZ 12345 |} ];
     Scripted.childrenAnswer := Ok [];
     Scripted.candidateView := fun _ => Ok (Scripted.rect 0 10 640 480);
     Scripted.hardwareGetAnswer := Ok tt;
     Scripted.setAnswer := Ok tt;
     Scripted.setForegroundAnswer := Ok tt;
     Scripted.isForegroundAnswer := Ok true;
     Scripted.isOpenAnswer := Ok true;
     Scripted.viewAnswer := Ok (Scripted.rect 0 10 640 480);
     Scripted.setViewAnswer := Ok tt;
     Scripted.captureAnswer := fun _ => Throw "capture failed";
     Scripted.metric := fun _ => Ok 0;
     Scripted.importAnswer := Ok tt;
     Scripted.sharpAnswer := Ok [] |}.

(** A desktop with another answer for [import('sharp')], for the window
    enumeration, for the pipeline, or for the capture. *)
Definition withImport (r : Res unit) (sc : Scripted.Script) : Scripted.Script :=
  {| Scripted.windowsAnswer := Scripted.windowsAnswer sc;
     Scripted.childrenAnswer := Scripted.childrenAnswer sc;
     Scripted.candidateView := Scripted.candidateView sc;
     Scripted.hardwareGetAnswer := Scripted.hardwareGetAnswer sc;
     Scripted.setAnswer := Scripted.setAnswer sc;
     Scripted.setForegroundAnswer := Scripted.setForegroundAnswer sc;
     Scripted.isForegroundAnswer := Scripted.isForegroundAnswer sc;
     Scripted.isOpenAnswer := Scripted.isOpenAnswer sc;
     Scripted.viewAnswer := Scripted.viewAnswer sc;
     Scripted.setViewAnswer := Scripted.setViewAnswer sc;
     Scripted.captureAnswer := Scripted.captureAnswer sc;
     Scripted.metric := Scripted.metric sc;
     Scripted.importAnswer := r;
     Scripted.sharpAnswer := Scripted.sharpAnswer sc |}.

Definition withWindows (r : Res (list WindowInfo)) (sc : Scripted.Script)
  : Scripted.Script :=
  {| Scripted.windowsAnswer := r;
     Scripted.childrenAnswer := Scripted.childrenAnswer sc;
     Scripted.candidateView := Scripted.candidateView sc;
     Scripted.hardwareGetAnswer := Scripted.hardwareGetAnswer sc;
     Scripted.setAnswer := Scripted.setAnswer sc;
     Scripted.setForegroundAnswer := Scripted.setForegroundAnswer sc;
     Scripted.isForegroundAnswer := Scripted.isForegroundAnswer sc;
     Scripted.isOpenAnswer := Scripted.isOpenAnswer sc;
     Scripted.viewAnswer := Scripted.viewAnswer sc;
     Scripted.setViewAnswer := Scripted.setViewAnswer sc;
     Scripted.captureAnswer := Scripted.captureAnswer sc;
     Scripted.metric := Scripted.metric sc;
     Scripted.importAnswer := Scripted.importAnswer sc;
     Scripted.sharpAnswer := Scripted.sharpAnswer sc |}.

Definition withSharp (r : Res (list byte)) (sc : Scripted.Script)
  : Scripted.Script :=
  {| Scripted.windowsAnswer := Scripted.windowsAnswer sc;
     Scripted.childrenAnswer := Scripted.childrenAnswer sc;
     Scripted.candidateView := Scripted.candidateView sc;
     Scripted.hardwareGetAnswer := Scripted.hardwareGetAnswer sc;
     Scripted.setAnswer := Scripted.setAnswer sc;
     Scripted.setForegroundAnswer := Scripted.setForegroundAnswer sc;
     Scripted.isForegroundAnswer := Scripted.isForegroundAnswer sc;
     Scripted.isOpenAnswer := Scripted.isOpenAnswer sc;
     Scripted.viewAnswer := Scripted.viewAnswer sc;
     Scripted.setViewAnswer := Scripted.setViewAnswer sc;
     Scripted.captureAnswer := Scripted.captureAnswer sc;
     Scripted.metric := Scripted.metric sc;
     Scripted.importAnswer := Scripted.importAnswer sc;
     Scripted.sharpAnswer := r |}.

Definition withCapture (r : option Rect.t -> Res Capture) (sc : Scripted.Script)
  : Scripted.Script :=
  {| Scripted.windowsAnswer := Scripted.windowsAnswer sc;
     Scripted.childrenAnswer := Scripted.childrenAnswer sc;
     Scripted.candidateView := Scripted.candidateView sc;
     Scripted.hardwareGetAnswer := Scripted.hardwareGetAnswer sc;
     Scripted.setAnswer := Scripted.setAnswer sc;
     Scripted.setForegroundAnswer := Scripted.setForegroundAnswer sc;
     Scripted.isForegroundAnswer := Scripted.isForegroundAnswer sc;
     Scripted.isOpenAnswer := Scripted.isOpenAnswer sc;
     Scripted.viewAnswer := Scripted.viewAnswer sc;
     Scripted.setViewAnswer := Scripted.setViewAnswer sc;
     Scripted.captureAnswer := r;
     Scripted.metric := Scripted.metric sc;
     Scripted.importAnswer := Scripted.importAnswer sc;
     Scripted.sharpAnswer := Scripted.sharpAnswer sc |}.


(** The tests' desktop with the windows of [twoTargets]. *)
Definition twoTargetsDesktop : Scripted.Script :=
  withWindows (Ok twoTargets) Scripted.testDesktop.

(** The tools, backed by the keysender provider on the tests' desktop. *)
Definition keysenderTools : Handler.ScreenTools unit :=
  {| Handler.tool_getActiveWindow :=
       Screen.getActiveWindow (Scripted.native Scripted.testDesktop);
     Handler.tool_focusWindow :=
       Screen.focusWindow (Scripted.native Scripted.testDesktop);
     Handler.tool_resizeWindow :=
       Screen.resizeWindow (Scripted.native Scripted.testDesktop);
     Handler.tool_repositionWindow :=
       Screen.repositionWindow (Scripted.native Scripted.testDesktop) |}.

(* ===================================================================== *)
(** * The vocabulary of the properties                                  *)
(* ===================================================================== *)

(** A view that cannot be read counts as rejected, like one that fails
    [validView]. *)
Definition viewRejected (r : Res Rect.t) : Prop :=
  match r with
  | Ok viewInfo => Screen.validView viewInfo = false
  | Throw _ => True
  end.

(** [x] or [y] lies outside [-MAX_ALLOWED_COORDINATE, MAX_ALLOWED_COORDINATE]. *)
Definition outOfRange (p : Pos.t) : bool :=
  lt (Pos.x p) (neg Mouse.MAX_ALLOWED_COORDINATE) ||
  gt (Pos.x p) Mouse.MAX_ALLOWED_COORDINATE ||
  lt (Pos.y p) (neg Mouse.MAX_ALLOWED_COORDINATE) ||
  gt (Pos.y p) Mouse.MAX_ALLOWED_COORDINATE.

Definition hasNaN (p : Pos.t) : bool := isNaN (Pos.x p) || isNaN (Pos.y p).

(** The run [r], started in [w], ended in a failure envelope and made no
    call to [provider.mouse]. *)
Definition failsWithoutMouse {S : Type} (w : World S)
    (r : Res WindowsControlResponse * World S) : Prop :=
  exists response w',
    r = (Ok response, w') /\
    success response = false /\
    exists extra,
      calls w' = (calls w ++ extra)%list /\ existsb Mouse.isMouseCall extra = false.

(** The envelope [resizeWindow] returns. *)
Definition resizeAnswer {fmt : NumberFormat} (title_ : string)
    (width height : num) : WindowsControlResponse :=
  {| success := true;
     message := "Resized window " ++ quote ++ title_ ++ quote ++ " to " ++
                showNum width ++ "x" ++ showNum height;
     data := Some [ ("title", VStr title_);
                    ("handle", VNum (ofZ 0));
                    ("position", VObj [("x", VNum (ofZ 0)); ("y", VNum (ofZ 0))]);
                    ("size", VObj [("width", VNum width); ("height", VNum height)]);
                    ("isForeground", VBool false);
                    ("requestedSize",
                     VObj [("width", VNum width); ("height", VNum height)]) ];
     screenshot := None; encoding := None; content := None; timestamp := None |}.

(** The envelope [repositionWindow] returns. *)
Definition repositionAnswer {fmt : NumberFormat} (title_ : string)
    (x y : num) : WindowsControlResponse :=
  {| success := true;
     message := "Repositioned window " ++ quote ++ title_ ++ quote ++ " to (" ++
                showNum x ++ ", " ++ showNum y ++ ")";
     data := Some [ ("title", VStr title_);
                    ("handle", VNum (ofZ 0));
                    ("position", VObj [("x", VNum x); ("y", VNum y)]);
                    ("size", VObj [("width", VNum (ofZ 0)); ("height", VNum (ofZ 0))]);
                    ("isForeground", VBool false);
                    ("requestedPosition", VObj [("x", VNum x); ("y", VNum y)]) ];
     screenshot := None; encoding := None; content := None; timestamp := None |}.

(** What a read of the view counts as: the view, or [fallback] when the
    read threw. *)
Definition viewOr (r : Res Rect.t) (fallback : Rect.t) : Rect.t :=
  match r with Ok v => v | Throw _ => fallback end.

Definition flagOr (r : Res bool) : bool :=
  match r with Ok b => b | Throw _ => false end.

Definition isViewRead (c : Call) : bool :=
  match c with WorkwindowGetView => true | _ => false end.

Definition isPipelineRun (c : Call) : option SharpJob :=
  match c with SharpToBuffer job => Some job | _ => None end.

(** The factor that brings the longer side of a capture of [W] x [H]
    pixels to 1280, or leaves a capture that fits as it is. *)
Definition fitFactor (W H : Z) : Q :=
  if (1280 <? W) || (1280 <? H) then 1280 / inject_Z (Z.max W H) else 1.

(** The relative error of one rounding to double precision: 2^-53. *)
Definition epsilon : Q := 1 # 9007199254740992.

(** How far a reported side may be from the exactly scaled one beyond half
    a pixel: 2^-40. *)
Definition tolerance : Q := 1 # 1099511627776.

(** From [w] to [w'] the errors [errs] were thrown and the calls [cs]
    made, in this order. *)
Definition runLog {S : Type} (w w' : World S) (errs : list string) (cs : list Call) : Prop :=
  raised w' = (raised w ++ errs)%list /\ calls w' = (calls w ++ cs)%list.

(** A computation is disciplined when both logs only grow and an error that
    escapes it is the last one logged. *)
Definition disciplined {S A : Type} (m : M (World S) A) : Prop :=
  forall w,
    exists errs cs,
      runLog w (snd (m w)) errs cs /\
      match fst (m w) with
      | Ok _ => True
      | Throw e => exists before, errs = (before ++ [e])%list
      end.






(** A failure envelope returned by a run from [w] to [w'] is accounted for
    when it is the answer, in the sense of [answers], to a call made during
    that run, or when it has no [data] and its message is a diagnostic in
    the sense of [diagnostic] or ends with the text of an error thrown
    during that run. *)
Definition accounted {S : Type} (answers : Call -> WindowsControlResponse -> Prop)
    (diagnostic : WindowsControlResponse -> Prop)
    (w w' : World S) (r : WindowsControlResponse) : Prop :=
  success r = false ->
  exists errs cs,
    runLog w w' errs cs /\
    ((exists c, In c cs /\ answers c r) \/
     (data r = None /\
      (diagnostic r \/
       exists prefix e, In e errs /\ message r = prefix ++ e))).

(** An operation body is sound when it is disciplined and every envelope
    it returns is accounted for. *)
Definition sound {S : Type} (answers : Call -> WindowsControlResponse -> Prop)
    (diagnostic : WindowsControlResponse -> Prop)
    (m : M (World S) WindowsControlResponse) : Prop :=
  forall w,
    exists errs cs,
      runLog w (snd (m w)) errs cs /\
      match fst (m w) with
      | Ok r => accounted answers diagnostic w (snd (m w)) r
      | Throw e => exists before, errs = (before ++ [e])%list
      end.

(* ===================================================================== *)
(** * The tool dispatcher ([handlers/tools.ts]), all cases                *)
(* ===================================================================== *)

Module Dispatcher.

(** [typeof v === 'object' && v !== null] *)
Definition isObject (v : value) : bool :=
  match v with VObj _ | VArr _ => true | _ => false end.

Definition isBoolean (v : value) : bool :=
  match v with VBool _ => true | _ => false end.

(** Truthiness of a loosely typed value. *)
Definition truthyValue (v : value) : bool :=
  match v with
  | VUndefined | VNull => false
  | VBool b => b
  | VNum n => truthy n
  | VStr s => truthyStr s
  | VArr _ | VObj _ => true
  end.

(** [function isMousePosition(args)] *)
Definition isMousePosition (args : value) : bool :=
  isObject args && isNumber (prop args "x") && isNumber (prop args "y").

(** [function isKeyboardInput(args)] *)
Definition isKeyboardInput (args : value) : bool :=
  isObject args && isString (prop args "text").

(** [function isKeyCombination(args)] *)
Definition isKeyCombination (args : value) : bool :=
  isObject args &&
  match prop args "keys" with
  | VArr keys => forallb isString keys
  | _ => false
  end.

(** [function isKeyHoldOperation(args)] *)
Definition isKeyHoldOperation (args : value) : bool :=
  isObject args &&
  isString (prop args "key") &&
  match prop args "state" with
  | VStr st => (st =? "down")%string || (st =? "up")%string
  | _ => false
  end &&
  match prop args "duration" with
  | VUndefined | VNum _ => true
  | _ => false
  end.

(** [function isClipboardInput(args)] *)
Definition isClipboardInput (args : value) : bool :=
  isObject args && isString (prop args "text").

(** [typeof args?.button === 'string' ? args.button : 'left'] *)
Definition buttonOf (args : value) : string :=
  match prop args "button" with VStr b => b | _ => "left" end.

(** The [region] member of the options of [get_screenshot]: taken only
    when it is an object whose four members are numbers. *)
Definition regionArgument (args : value) : option Rect.t :=
  let r := prop args "region" in
  if isObject r then
    match prop r "x", prop r "y", prop r "width", prop r "height" with
    | VNum x, VNum y, VNum w, VNum h =>
        Some {| Rect.x := x; Rect.y := y; Rect.width := w; Rect.height := h |}
    | _, _, _, _ => None
    end
  else None.

Definition formatArgument (args : value) : Format :=
  match prop args "format" with
  | VStr f => if (f =? "png")%string then png else jpeg
  | _ => jpeg
  end.

Definition fitArgument (r : value) : Fit :=
  match prop r "fit" with
  | VStr f =>
      if (f =? "contain")%string then contain
      else if (f =? "cover")%string then cover
      else if (f =? "fill")%string then fill
      else if (f =? "inside")%string then inside
      else if (f =? "outside")%string then outside
      else contain
  | _ => contain
  end.

(** The [resize] member: the default [{ width: 1280, fit: 'contain' }],
    with the members of [args.resize] that have the right type written
    over it. *)
Definition resizeArgument (args : value) : Resize :=
  let r := prop args "resize" in
  if isObject r then
    {| resizeWidth := match prop r "width" with
                      | VNum w => Some w
                      | _ => Some (ofZ 1280)
                      end;
       resizeHeight := match prop r "height" with
                       | VNum h => Some h
                       | _ => None
                       end;
       fit := Some (fitArgument r) |}
  else {| resizeWidth := Some (ofZ 1280); resizeHeight := None;
          fit := Some contain |}.

(** The [screenshotOptions] that the case [get_screenshot] builds. *)
Definition screenshotOptions (args : value) : ScreenshotOptions :=
  {| region := regionArgument args;
     format := Some (formatArgument args);
     quality := Some match prop args "quality" with
                     | VNum q => q
                     | _ => ofZ 85
                     end;
     grayscale := Some match prop args "grayscale" with
                       | VBool g => g
                       | _ => true
                       end;
     compressionLevel := match prop args "compressionLevel" with
                         | VNum c => Some c
                         | _ => None
                         end;
     resize := Some (resizeArgument args) |}.

Local Open Scope eff_scope.

(** The functions the dispatcher imports from [tools/*.js].  The dispatcher
    is written against their signatures only, so they are parameters; the
    window tools are those of [Handler.ScreenTools]. *)
Record Tools (S : Type) : Type := {
  getScreenshot : ScreenshotOptions -> M (World S) WindowsControlResponse;
  clickAt : num -> num -> string -> M (World S) WindowsControlResponse;
  moveMouse : Pos.t -> M (World S) WindowsControlResponse;
  clickMouse : string -> M (World S) WindowsControlResponse;
  dragMouse : Pos.t -> Pos.t -> string -> M (World S) WindowsControlResponse;
  setMouseSpeed : num -> M (World S) WindowsControlResponse;
  scrollMouse : num -> M (World S) WindowsControlResponse;
  typeText : value -> M (World S) WindowsControlResponse;
  pressKey : string -> M (World S) WindowsControlResponse;
  holdKey : value -> M (World S) WindowsControlResponse;
  pressKeyCombination : value -> M (World S) WindowsControlResponse;
  getScreenSize : M (World S) WindowsControlResponse;
  getCursorPosition : M (World S) WindowsControlResponse;
  doubleClick : option Pos.t -> M (World S) WindowsControlResponse;
  windowTools : Handler.ScreenTools S;
  getClipboardContent : M (World S) WindowsControlResponse;
  setClipboardContent : value -> M (World S) WindowsControlResponse;
  hasClipboardText : M (World S) WindowsControlResponse;
  clearClipboard : M (World S) WindowsControlResponse
}.
Arguments getScreenshot {S} _.
Arguments clickAt {S} _.
Arguments moveMouse {S} _.
Arguments clickMouse {S} _.
Arguments dragMouse {S} _.
Arguments setMouseSpeed {S} _.
Arguments scrollMouse {S} _.
Arguments typeText {S} _.
Arguments pressKey {S} _.
Arguments holdKey {S} _.
Arguments pressKeyCombination {S} _.
Arguments getScreenSize {S} _.
Arguments getCursorPosition {S} _.
Arguments doubleClick {S} _.
Arguments windowTools {S} _.
Arguments getClipboardContent {S} _.
Arguments setClipboardContent {S} _.
Arguments hasClipboardText {S} _.
Arguments clearClipboard {S} _.

Definition position (x y : num) : Pos.t := {| Pos.x := x; Pos.y := y |}.

Section WithTools.
Context {S : Type}.
Variable tools : Tools S.

(** The cases of [switch (name)] outside the window family; [None] when
    [name] is none of their labels. *)
Definition inputCase (name : string) (args : value)
  : option (M (World S) WindowsControlResponse) :=
  if (name =? "get_screenshot")%string then
    Some (getScreenshot tools (screenshotOptions args))
  else if (name =? "click_at")%string then
    Some match prop args "x", prop args "y" with
         | VNum x, VNum y => clickAt tools x y (buttonOf args)
         | _, _ => throw "Invalid click_at arguments"
         end
  else if (name =? "move_mouse")%string then
    Some (if isMousePosition args
          then moveMouse tools (position (asNum (prop args "x"))
                                         (asNum (prop args "y")))
          else throw "Invalid mouse position arguments")
  else if (name =? "click_mouse")%string then
    Some (clickMouse tools (buttonOf args))
  else if (name =? "drag_mouse")%string then
    Some match prop args "fromX", prop args "fromY",
               prop args "toX", prop args "toY" with
         | VNum fx, VNum fy, VNum tx, VNum ty =>
             dragMouse tools (position fx fy) (position tx ty) (buttonOf args)
         | _, _, _, _ => throw "Invalid drag mouse arguments"
         end
  else if (name =? "set_mouse_speed")%string then
    Some match prop args "speed" with
         | VNum speed => setMouseSpeed tools speed
         | _ => throw "Invalid mouse speed argument"
         end
  else if (name =? "scroll_mouse")%string then
    Some match prop args "amount" with
         | VNum amount => scrollMouse tools amount
         | _ => throw "Invalid scroll amount argument"
         end
  else if (name =? "type_text")%string then
    Some (if isKeyboardInput args then typeText tools args
          else throw "Invalid keyboard input arguments")
  else if (name =? "press_key")%string then
    Some match prop args "key" with
         | VStr key => pressKey tools key
         | _ => throw "Invalid key press arguments"
         end
  else if (name =? "hold_key")%string then
    Some (if isKeyHoldOperation args then holdKey tools args
          else throw "Invalid key hold arguments")
  else if (name =? "press_key_combination")%string then
    Some (if isKeyCombination args then pressKeyCombination tools args
          else throw "Invalid key combination arguments")
  else if (name =? "get_screen_size")%string then
    Some (getScreenSize tools)
  else if (name =? "get_cursor_position")%string then
    Some (getCursorPosition tools)
  else if (name =? "double_click")%string then
    Some match prop args "x", prop args "y" with
         | VNum x, VNum y => doubleClick tools (Some (position x y))
         | _, _ => doubleClick tools None
         end
  else if (name =? "get_clipboard_content")%string then
    Some (getClipboardContent tools)
  else if (name =? "set_clipboard_content")%string then
    Some (if isClipboardInput args then setClipboardContent tools args
          else throw "Invalid clipboard input arguments")
  else if (name =? "has_clipboard_text")%string then
    Some (hasClipboardText tools)
  else if (name =? "clear_clipboard")%string then
    Some (clearClipboard tools)
  else None.

(** The whole [switch (name)], with its [default]. *)
Definition dispatch (name : string) (args : value)
  : M (World S) WindowsControlResponse :=
  match inputCase name args with
  | Some action => action
  | None =>
      match Handler.windowCase (windowTools tools) name args with
      | Some action => action
      | None => throw ("Unknown tool: " ++ name)
      end
  end.

(** The handler of [CallToolRequestSchema]. *)
Definition callTool (name : string) (args : value)
  : M (World S) Handler.ToolResult :=
  try (response <- dispatch name args ;; ret (Handler.wrap response))
  catch error => ret (Handler.ErrorText ("Error: " ++ error)).

End WithTools.

(** The names the [switch] has a case for. *)
Definition toolNames : list string :=
  [ "get_screenshot"; "click_at"; "move_mouse"; "click_mouse"; "drag_mouse";
    "set_mouse_speed"; "scroll_mouse"; "type_text"; "press_key"; "hold_key";
    "press_key_combination"; "get_screen_size"; "get_cursor_position";
    "double_click"; "get_active_window"; "focus_window"; "resize_window";
    "reposition_window"; "minimize_window"; "restore_window";
    "get_clipboard_content"; "set_clipboard_content"; "has_clipboard_text";
    "clear_clipboard" ].

End Dispatcher.

(* ===================================================================== *)
(** * The resource reader ([handlers/resources.ts])                       *)
(* ===================================================================== *)

Module Resources.
Local Open Scope eff_scope.

(** The functions the reader imports from [tools/*.js] and
    [resources/screenshot.js]; they are parameters. *)
Record Tools (S : Type) : Type := {
  getScreenshot : M (World S) WindowsControlResponse;
  getScreenSize : M (World S) WindowsControlResponse;
  getCursorPosition : M (World S) WindowsControlResponse;
  getActiveWindow : M (World S) WindowsControlResponse;
  listAllWindows : M (World S) WindowsControlResponse
}.
Arguments getScreenshot {S} _.
Arguments getScreenSize {S} _.
Arguments getCursorPosition {S} _.
Arguments getActiveWindow {S} _.
Arguments listAllWindows {S} _.

Inductive Body : Type :=
  | Blob (base64Data : string)               (* blob: ... *)
  | Json (payload : list (string * value)).  (* text: JSON.stringify(data, null, 2) *)

(** An entry of [contents]. *)
Record Contents : Type := {
  uri : string;
  contentType : string;   (* mimeType *)
  body : Body
}.

Section WithTools.
Context {S : Type}.
Variable tools : Tools S.

(** The four cases that answer with JSON: the envelope of [tool] must be a
    success and carry [data], else its message is thrown. *)
Definition readJson (uri_ : string) (tool : M (World S) WindowsControlResponse)
  : M (World S) (list Contents) :=
  response <- tool ;;
  match success response, data response with
  | true, Some d =>
      ret [ {| uri := uri_; contentType := "application/json"; body := Json d |} ]
  | _, _ => throw (message response)
  end.

(** The case ["screen://current"].  [response.content[0].data] on an empty
    [content] is a TypeError. *)
Definition readScreen (uri_ : string) : M (World S) (list Contents) :=
  response <- getScreenshot tools ;;
  match success response, content response with
  | true, Some (first :: _) =>
      ret [ {| uri := uri_; contentType := "image/png";
               body := Blob (imageData first) |} ]
  | true, Some [] =>
      throw "Cannot read properties of undefined (reading 'data')"
  | _, _ => throw (message response)
  end.

(** The handler of [ReadResourceRequestSchema].  It has no [try]: what is
    thrown here leaves the handler. *)
Definition readResource (uri_ : string) : M (World S) (list Contents) :=
  if (uri_ =? "screen://current")%string then readScreen uri_
  else if (uri_ =? "screen://size")%string then
    readJson uri_ (getScreenSize tools)
  else if (uri_ =? "cursor://position")%string then
    readJson uri_ (getCursorPosition tools)
  else if (uri_ =? "window://active")%string then
    readJson uri_ (getActiveWindow tools)
  else if (uri_ =? "window://list")%string then
    readJson uri_ (listAllWindows tools)
  else throw ("Unknown resource: " ++ uri_).

End WithTools.

(** The uris of [ListResourcesRequestSchema]. *)
Definition listed : list string :=
  [ "screen://current"; "screen://size"; "cursor://position";
    "window://active"; "window://list" ].

End Resources.

(* ===================================================================== *)
(** * The scripted client ([scripts/mcp-client/src/index.ts])             *)
(* ===================================================================== *)

(** In this module a thrown value is represented by [String(error)], the
    text the client reports. *)
Module Client.
Local Open Scope eff_scope.

(** What [client.callTool] resolves to, as far as the client reads it. *)
Record ToolResponse : Type := {
  isError : bool;
  responseContent : value
}.

(** What the client does that can be seen from outside. *)
Inductive Event : Type :=
  | Called (toolName : string) (args : value)
  | Waited (ms : num).

(** The server and the file system behind the client, and the events so
    far (oldest first). *)
Record World (S : Type) : Type := {
  server : S;
  trace : list Event
}.
Arguments server {S} w.
Arguments trace {S} w.

Record Backend (S : Type) : Type := {
  (* this.client.callTool({ name, arguments }) *)
  request : string -> value -> S -> Res ToolResponse * S;
  (* JSON.parse(fs.readFileSync(scriptPath, 'utf-8')) *)
  readScript : string -> S -> Res value * S
}.
Arguments request {S} _.
Arguments readScript {S} _.

(** What [MCPClient.callTool] returns: [{ success: true, content }] or
    [{ success: false, error }]. *)
Inductive Outcome : Type :=
  | Succeeded (content : value)
  | Failed (error : string).

Definition newline : string := String (ascii_of_N 10) EmptyString.

(** [item.k]: reading a member of [null] or [undefined] throws. *)
Definition member {W} (item : value) (k : string) : M W value :=
  fun w =>
    match item with
    | VUndefined =>
        (Throw ("TypeError: Cannot read properties of undefined (reading '"
                ++ k ++ "')"), w)
    | VNull =>
        (Throw ("TypeError: Cannot read properties of null (reading '"
                ++ k ++ "')"), w)
    | other => (Ok (prop other k), w)
    end.

(** [content.filter(item => item.type === "text")] *)
Fixpoint textItems {W} (items : list value) : M W (list value) :=
  match items with
  | [] => ret []
  | item :: rest =>
      kind <- member item "type" ;;
      kept <- textItems rest ;;
      ret match kind with
          | VStr k => if (k =? "text")%string then item :: kept else kept
          | _ => kept
          end
  end.

(** [item => item.text]: the cast to [TextContent] checks nothing, so the
    member is whatever the server sent. *)
Definition textOf (item : value) : value := prop item "text".

(** A conversion to a string where the code makes one; it throws where
    [String] does. *)
Definition converted {W} (text : option string) : M W string :=
  fun w =>
    match text with
    | Some s => (Ok s, w)
    | None => (Throw "TypeError: Cannot convert object to primitive value", w)
    end.

Section WithFormat.
Context {fmt : NumberFormat}.

(** [private extractTextContent(content)] *)
Definition extractTextContent {W} (content : value) : M W string :=
  match content with
  | VArr items =>
      kept <- textItems items ;;
      converted (joinWith newline (map textOf kept))
  | _ => ret "Unknown error"
  end.

Section WithBackend.
Context {S : Type}.
Variable backend : Backend S.

Definition send (toolName : string) (args : value)
  : M (World S) ToolResponse :=
  fun w =>
    let (r, s') := request backend toolName args (server w) in
    (r, {| server := s'; trace := trace w ++ [Called toolName args] |}).

Definition wait (ms : num) : M (World S) unit :=
  fun w => (Ok tt, {| server := server w; trace := trace w ++ [Waited ms] |}).

Definition load (scriptPath : string) : M (World S) value :=
  fun w =>
    let (r, s') := readScript backend scriptPath (server w) in
    (r, {| server := s'; trace := trace w |}).

(** [async callTool(toolName, args)] *)
Definition callTool (toolName : string) (args : value)
  : M (World S) Outcome :=
  try (
    response <- send toolName args ;;
    if isError response then
      text <- extractTextContent (responseContent response) ;;
      ret (Failed text)
    else ret (Succeeded (responseContent response))
  ) catch error => ret (Failed error).

(** [command.args || {}] *)
Definition argsOf (command : value) : value :=
  let a := prop command "args" in
  if Dispatcher.truthyValue a then a else VObj [].

(** The body of the [for] loop of [runScript], for the commands left.  The
    loop starts by logging [`... ${command.tool}`]: the member is read and
    converted to a string before it is looked at. *)
Fixpoint runCommands (commands : list value) : M (World S) unit :=
  match commands with
  | [] => ret tt
  | command :: rest =>
      tool <- member command "tool" ;;
      converted (toText tool) ;;;
      match tool with
      | VStr toolName =>
          if truthyStr toolName then
            callTool toolName (argsOf command) ;;;
            match prop command "waitMs" with
            | VNum ms => if truthy ms then wait ms else ret tt
            | _ => ret tt
            end ;;;
            runCommands rest
          else runCommands rest
      | _ => runCommands rest
      end
  end.

(** [async runScript(scriptPath)] *)
Definition runScript (scriptPath : string) : M (World S) unit :=
  try (
    commands <- load scriptPath ;;
    match commands with
    | VArr items => runCommands items
    | _ => fun w => (Throw "Error: Script must contain an array of commands", w)
    end
  ) catch _error => ret tt.

End WithBackend.

End WithFormat.

End Client.

(* ===================================================================== *)
(** * Vocabulary of the further properties                                *)
(* ===================================================================== *)

(** What a tool answers after calling the backend mouse: the backend's
    envelope, or the failure envelope made from what the backend threw. *)
Definition answerOr (prefix : string) (r : Res WindowsControlResponse)
  : Res WindowsControlResponse :=
  match r with
  | Ok response => Ok response
  | Throw e => Ok (failure (prefix ++ e))
  end.

Definition validButton (button : string) : bool :=
  existsb (String.eqb button) ["left"; "right"; "middle"].

(** A provider with a screen but no mouse. *)
Definition mouseless : Mouse.AutomationProvider unit :=
  {| Mouse.mouse := None;
     Mouse.screen_getScreenSize := Mouse.screen_getScreenSize Scripted.provider |}.


(** The constructor of [KeysenderScreenAutomation]: [GetSystemMetrics] is
    the function found in user32.dll or, when loading it throws, a dummy
    that answers 0; [loaded] is the outcome of the two koffi calls. *)
Definition constructor {S : Type} (loaded : Res (Z -> S -> Res Z * S))
    (native : Screen.Native S) : Screen.Native S :=
  {| Screen.getAllWindows := Screen.getAllWindows native;
     Screen.getWindowChildren := Screen.getWindowChildren native;
     Screen.hardware_getView := Screen.hardware_getView native;
     Screen.hardware_get := Screen.hardware_get native;
     Screen.workwindow_set := Screen.workwindow_set native;
     Screen.workwindow_setForeground := Screen.workwindow_setForeground native;
     Screen.workwindow_isForeground := Screen.workwindow_isForeground native;
     Screen.workwindow_isOpen := Screen.workwindow_isOpen native;
     Screen.workwindow_getView := Screen.workwindow_getView native;
     Screen.workwindow_setView := Screen.workwindow_setView native;
     Screen.workwindow_capture := Screen.workwindow_capture native;
     Screen.user32_GetSystemMetrics :=
       match loaded with
       | Ok getSystemMetrics => getSystemMetrics
       | Throw _ => fun _nIndex s => (Ok 0, s)
       end;
     Screen.import_sharp := Screen.import_sharp native;
     Screen.sharp_toBuffer := Screen.sharp_toBuffer native |}.

(** How many entries [monitors] has, from the monitor count and the width
    the virtual screen has beyond the primary one. *)
Definition expectedMonitors (monitorCount secondaryWidth : Z) : Z :=
  if monitorCount <=? 1 then 1
  else if 0 <? secondaryWidth then monitorCount
  else monitorCount - 1.

(** The call that reads a candidate's view. *)
Definition viewCall (c : WindowInfo) : Call := HardwareGetView (handle c).

(** The state of the backend once the views of [read] have been read, in
    order, from the state [s]. *)
Fixpoint viewsRead {S : Type} (native : Screen.Native S)
    (read : list WindowInfo) (s : S) : S :=
  match read with
  | [] => s
  | c :: rest =>
      viewsRead native rest (snd (Screen.hardware_getView native (handle c) s))
  end.

(** Each window of [read] had its view rejected when its turn came, the
    reads starting in the state [s]. *)
Definition eachRejected {S : Type} (native : Screen.Native S)
    (read : list WindowInfo) (s : S) : Prop :=
  forall earlier b later,
    read = (earlier ++ b :: later)%list ->
    viewRejected
      (fst (Screen.hardware_getView native (handle b)
              (viewsRead native earlier s))).

(** A computation that leaves the timer queue alone. *)
Definition keepsTimers {S A : Type} (m : M (World S) A) : Prop :=
  forall w, timers (snd (m w)) = timers w.

(** The tests' desktop with other system metrics. *)
Definition withMetric (m : Z -> Res Z) (sc : Scripted.Script) : Scripted.Script :=
  {| Scripted.windowsAnswer := Scripted.windowsAnswer sc;
     Scripted.childrenAnswer := Scripted.childrenAnswer sc;
     Scripted.candidateView := Scripted.candidateView sc;
     Scripted.hardwareGetAnswer := Scripted.hardwareGetAnswer sc;
     Scripted.setAnswer := Scripted.setAnswer sc;
     Scripted.setForegroundAnswer := Scripted.setForegroundAnswer sc;
     Scripted.isForegroundAnswer := Scripted.isForegroundAnswer sc;
     Scripted.isOpenAnswer := Scripted.isOpenAnswer sc;
     Scripted.viewAnswer := Scripted.viewAnswer sc;
     Scripted.setViewAnswer := Scripted.setViewAnswer sc;
     Scripted.captureAnswer := Scripted.captureAnswer sc;
     Scripted.metric := m;
     Scripted.importAnswer := Scripted.importAnswer sc;
     Scripted.sharpAnswer := Scripted.sharpAnswer sc |}.

(** Three monitors of 1920x1080 stacked one above the other: the virtual
    screen is no wider than the primary one. *)
Definition stackedMetric (i : Z) : Z :=
  if i =? 0 then 1920 else if i =? 1 then 1080 else if i =? 80 then 3
  else if i =? 78 then 1920 else if i =? 79 then 3240 else 0.

Definition stackedDesktop : Scripted.Script :=
  withMetric (fun i => Ok (stackedMetric i)) Scripted.testDesktop.

(** A desktop with a calculator enumerated before a Notepad window. *)
Definition calculator : WindowInfo :=
  {| title := "Calculator"; className := "Calc"; handle := ofZ 7 |}.

Definition notepad : WindowInfo :=
  {| title := "Untitled - Notepad"; className := "Notepad"; handle := ofZ 8 |}.

Definition officeDesktop : Scripted.Script :=
  withWindows (Ok [calculator; notepad]) Scripted.testDesktop.

(** The argument checks of the dispatcher: the tool, what its arguments
    have to satisfy, and the error thrown when they do not. *)
Definition argumentChecks : list (string * (value -> bool) * string) :=
  [ ("click_at",
     fun args => isNumber (prop args "x") && isNumber (prop args "y"),
     "Invalid click_at arguments");
    ("move_mouse", Dispatcher.isMousePosition,
     "Invalid mouse position arguments");
    ("drag_mouse",
     fun args => isNumber (prop args "fromX") && isNumber (prop args "fromY") &&
                 isNumber (prop args "toX") && isNumber (prop args "toY"),
     "Invalid drag mouse arguments");
    ("set_mouse_speed", fun args => isNumber (prop args "speed"),
     "Invalid mouse speed argument");
    ("scroll_mouse", fun args => isNumber (prop args "amount"),
     "Invalid scroll amount argument");
    ("type_text", Dispatcher.isKeyboardInput,
     "Invalid keyboard input arguments");
    ("press_key", fun args => isString (prop args "key"),
     "Invalid key press arguments");
    ("hold_key", Dispatcher.isKeyHoldOperation, "Invalid key hold arguments");
    ("press_key_combination", Dispatcher.isKeyCombination,
     "Invalid key combination arguments");
    ("focus_window", fun args => isString (prop args "title"),
     "Invalid window title argument");
    ("resize_window",
     fun args => isString (prop args "title") &&
                 isNumber (prop args "width") && isNumber (prop args "height"),
     "Invalid window resize arguments");
    ("reposition_window",
     fun args => isString (prop args "title") &&
                 isNumber (prop args "x") && isNumber (prop args "y"),
     "Invalid window reposition arguments");
    ("minimize_window", fun args => isString (prop args "title"),
     "Invalid window title argument");
    ("restore_window", fun args => isString (prop args "title"),
     "Invalid window title argument");
    ("set_clipboard_content", Dispatcher.isClipboardInput,
     "Invalid clipboard input arguments") ].

(** The world after [throw new Error(e)] was caught. *)
Definition afterError {S : Type} (w : World S) (e : string) : World S :=
  {| host := host w; timers := timers w; calls := calls w;
     raised := raised w ++ [e] |}.

(** The dispatcher over the mouse tools and the keysender screen provider
    of the tests' desktop; keyboard and clipboard accept everything. *)
Definition deskTools : Dispatcher.Tools unit :=
  {| Dispatcher.getScreenshot := fun options =>
       Screen.getScreenshot (Scripted.native Scripted.testDesktop) (Some options);
     Dispatcher.clickAt := Mouse.clickAt Scripted.provider Scripted.production;
     Dispatcher.moveMouse := Mouse.moveMouse Scripted.provider Scripted.production;
     Dispatcher.clickMouse := Mouse.clickMouse Scripted.provider;
     Dispatcher.dragMouse := Mouse.dragMouse Scripted.provider Scripted.production;
     Dispatcher.setMouseSpeed := fun _ => ret Scripted.accepted;
     Dispatcher.scrollMouse := Mouse.scrollMouse Scripted.provider;
     Dispatcher.typeText := fun _ => ret Scripted.accepted;
     Dispatcher.pressKey := fun _ => ret Scripted.accepted;
     Dispatcher.holdKey := fun _ => ret Scripted.accepted;
     Dispatcher.pressKeyCombination := fun _ => ret Scripted.accepted;
     Dispatcher.getScreenSize :=
       Screen.getScreenSize (Scripted.native Scripted.testDesktop);
     Dispatcher.getCursorPosition := Mouse.getCursorPosition Scripted.provider;
     Dispatcher.doubleClick :=
       Mouse.doubleClick Scripted.provider Scripted.production;
     Dispatcher.windowTools := keysenderTools;
     Dispatcher.getClipboardContent := ret Scripted.accepted;
     Dispatcher.setClipboardContent := fun _ => ret Scripted.accepted;
     Dispatcher.hasClipboardText := ret Scripted.accepted;
     Dispatcher.clearClipboard := ret Scripted.accepted |}.

(** [args.grayscale === false] *)
Definition declinesGrayscale (args : value) : bool :=
  match prop args "grayscale" with VBool false => true | _ => false end.

(** The resources answered with JSON and the tool each one reads. *)
Definition jsonResources {S : Type} (tools : Resources.Tools S)
  : list (string * M (World S) WindowsControlResponse) :=
  [ ("screen://size", Resources.getScreenSize tools);
    ("cursor://position", Resources.getCursorPosition tools);
    ("window://active", Resources.getActiveWindow tools);
    ("window://list", Resources.listAllWindows tools) ].

(** Resource tools to run the reader on: the screen tools are the methods
    of the keysender provider on a scripted desktop; the cursor and the
    window list are not available. *)
Definition deskResources (sc : Scripted.Script) : Resources.Tools unit :=
  {| Resources.getScreenshot := Screen.getScreenshot (Scripted.native sc) None;
     Resources.getScreenSize := Screen.getScreenSize (Scripted.native sc);
     Resources.getCursorPosition := ret (failure "Cursor not available");
     Resources.getActiveWindow := Screen.getActiveWindow (Scripted.native sc);
     Resources.listAllWindows := ret (failure "Window list not available") |}.

(** [null] and [undefined] *)
Definition nullish (v : value) : bool :=
  match v with VUndefined | VNull => true | _ => false end.

(** [item.type === "text"] *)
Definition isTextItem (item : value) : bool :=
  match prop item "type" with
  | VStr k => (k =? "text")%string
  | _ => false
  end.

(** The text of the TypeError thrown when the member [k] of [bad], which
    is [null] or [undefined], is read. *)
Definition unreadable (bad : value) (k : string) : string :=
  "TypeError: Cannot read properties of " ++
  match bad with VNull => "null" | _ => "undefined" end ++
  " (reading '" ++ k ++ "')".

(** [String(v)] throws. *)
Definition unprintable {fmt : NumberFormat} (v : value) : bool :=
  match toText v with Some _ => false | None => true end.

(** The call a command of a script stands for, if it names a tool. *)
Definition runnable (command : value) : option (string * value) :=
  match prop command "tool" with
  | VStr toolName =>
      if truthyStr toolName then Some (toolName, Client.argsOf command)
      else None
  | _ => None
  end.

(** The calls a script stands for: those of its commands that name a tool,
    up to the first entry that is [null] or whose [tool] cannot be converted
    to a string. *)
Fixpoint planned {fmt : NumberFormat} (commands : list value)
  : list (string * value) :=
  match commands with
  | [] => []
  | command :: rest =>
      if nullish command || unprintable (prop command "tool") then []
      else match runnable command with
           | Some call => call :: planned rest
           | None => planned rest
           end
  end.

(** The tool calls of a trace. *)
Fixpoint calledTools (events : list Client.Event) : list (string * value) :=
  match events with
  | [] => []
  | Client.Called toolName args :: rest => (toolName, args) :: calledTools rest
  | Client.Waited _ :: rest => calledTools rest
  end.

(** A server that refuses every call, and whose script file holds
    [commands]. *)
Definition refusingServer (commands : value) : Client.Backend unit :=
  {| Client.request := fun _ _ s =>
       (Ok {| Client.isError := true;
              Client.responseContent :=
                VArr [ VObj [("type", VStr "text"); ("text", VStr "Error: no")] ] |},
        s);
     Client.readScript := fun _ s => (Ok commands, s) |}.

Definition sampleScript : list value :=
  [ VObj [("tool", VStr "move_mouse");
          ("args", VObj [("x", VNum (ofZ 1)); ("y", VNum (ofZ 2))]);
          ("waitMs", VNum (ofZ 100))];
    VObj [("note", VStr "no tool here")];
    VObj [("tool", VStr "click_mouse")];
    VNull;
    VObj [("tool", VStr "never_reached")] ].

(** A script whose second command has an object for [tool], with a member
    named [toString]. *)
Definition opaqueScript : list value :=
  [ VObj [("tool", VStr "get_screen_size")];
    VObj [("tool", VObj [("toString", VNull)])];
    VObj [("tool", VStr "never_reached")] ].

(** A server whose flagged answer to every call has the content
    [content]. *)
Definition flaggingServer (content : value) : Client.Backend unit :=
  {| Client.request := fun _ _ s =>
       (Ok {| Client.isError := true; Client.responseContent := content |}, s);
     Client.readScript := fun _ s => (Throw "ENOENT: no such file", s) |}.

(* ===================================================================== *)
(** * Facts about strings and buffers                                     *)
(* ===================================================================== *)

Module StringFacts.
Import JS.

Lemma prefix_refl (s : string) : prefix s s = true.
Proof.
  induction s as [|c s IH]; simpl; [reflexivity|].
  destruct (ascii_dec c c) as [_|n]; [exact IH | now destruct n].
Qed.

Lemma prefix_app (t s : string) : prefix t (t ++ s) = true.
Proof.
  induction t as [|c t IH]; simpl.
  - now destruct s.
  - destruct (ascii_dec c c) as [_|n]; [exact IH | now destruct n].
Qed.

Lemma prefix_split (t s : string) :
  prefix t s = true -> exists rest, s = t ++ rest.
Proof.
  revert s; induction t as [|c t IH]; intros s H.
  - now exists s.
  - destruct s as [|d s]; simpl in H; [discriminate|].
    destruct (ascii_dec c d) as [->|_]; [|discriminate].
    destruct (IH _ H) as [rest ->]. now exists rest.
Qed.

Lemma includes_prefix (s t : string) :
  prefix t s = true -> includes s t = true.
Proof. intros H. destruct s; cbn [includes]; now rewrite H. Qed.

(** [includes] is the substring relation. *)
Lemma includes_spec (s t : string) :
  includes s t = true <-> exists before after, s = before ++ t ++ after.
Proof.
  split.
  - induction s as [|c s IH]; simpl; intros H.
    + destruct t; [now exists EmptyString, EmptyString | discriminate].
    + change (prefix t (String c s) || includes s t = true) in H.
      apply orb_true_iff in H as [H|H].
      * apply prefix_split in H as [rest ->]. now exists EmptyString, rest.
      * destruct (IH H) as (b & a & ->). now exists (String c b), a.
  - intros (before & after & ->).
    induction before as [|c b IH].
    + change (includes (t ++ after) t = true).
      apply includes_prefix, prefix_app.
    + change (prefix t (String c (b ++ t ++ after))
              || includes (b ++ t ++ after) t = true).
      rewrite IH. apply orb_true_r.
Qed.

Lemma includes_refl (s : string) : includes s s = true.
Proof.
  apply includes_spec. exists EmptyString, EmptyString.
  simpl. induction s; simpl; congruence.
Qed.

(** A text that ends with [t] includes [t]. *)
Lemma includes_suffix (p t : string) : includes (p ++ t) t = true.
Proof.
  apply includes_spec. exists p, EmptyString.
  f_equal. induction t; simpl; congruence.
Qed.

(** The base64 text of a buffer is empty only for the empty buffer. *)
Lemma base64_empty (buffer : list byte) :
  base64 buffer = EmptyString <-> buffer = [].
Proof.
  split; [|now intros ->].
  destruct buffer as [|a [|b [|c rest]]]; simpl; intros H;
    [reflexivity | discriminate | discriminate | discriminate].
Qed.

End StringFacts.

(* ===================================================================== *)
(** * The repository's unit tests, replayed on the model                  *)
(* ===================================================================== *)

(** "should return information about the active window" *)
Example test_getActiveWindow :
  exists response,
    fst (Screen.getActiveWindow (Scripted.native Scripted.testDesktop)
           (initial tt)) = Ok response /\
    success response = true /\
    field response "title" = VStr "Test Window" /\
    field response "className" = VStr "TestClass" /\
    field response "handle" = VNum (ofZ 12345) /\
    field response "position" = Screen.point (ofZ 100) (ofZ 200) /\
    field response "size" = Screen.extent (ofZ 800) (ofZ 600).
Proof. eexists. repeat split; reflexivity. Qed.

(** "should focus a window by title" *)
Example test_focusWindow :
  fst (Screen.focusWindow (Scripted.native Scripted.testDesktop)
         "Test Window" (initial tt))
  = Ok (successWith "Focused window: Test Window (foreground) (open)"
          (Screen.descriptor
             {| title := "Test Window"; className := "TestClass";
                handle := ofZ 12345 |}
             (Scripted.rect 100 200 800 600) ++
           [("isForeground", VBool true); ("isOpen", VBool true)])).
Proof. reflexivity. Qed.

(** "should resize a window to specified dimensions": [setView] has been
    called with the requested size when [resizeWindow] returns. *)
Example test_resizeWindow :
  let run := Screen.resizeWindow (Scripted.native Scripted.testDesktop)
               "Test Window" (ofZ 1024) (ofZ 768) (initial tt) in
  In (WorkwindowSetView (Scripted.rect 100 200 1024 768)) (calls (snd run)) /\
  In WorkwindowSetForeground (calls (snd run)) /\
  exists response,
    fst run = Ok response /\ success response = true /\
    includes (message response) "Resized window" = true.
Proof.
  cbv zeta. split; [|split].
  - simpl. tauto.
  - simpl. tauto.
  - eexists. repeat split; reflexivity.
Qed.

(** "should capture a specific region when region is specified" *)
Example test_getScreenshot_region :
  exists response,
    fst (Screen.getScreenshot (Scripted.native Scripted.testDesktop)
           (Some {| region := Some (Scripted.rect 100 200 300 400);
                    format := None; quality := None; grayscale := None;
                    compressionLevel := None; resize := None |})
           (initial tt)) = Ok response /\
    success response = true /\
    data response = Some (Screen.dims (ofZ 300) (ofZ 400)).
Proof. eexists. repeat split; reflexivity. Qed.

(** "should handle errors gracefully" *)
Example test_getScreenshot_capture_error :
  fst (Screen.getScreenshot
         (Scripted.native
            (withCapture (fun _ => Throw "Capture error") Scripted.testDesktop))
         None (initial tt))
  = Ok (failure "Failed to capture screenshot: Capture error").
Proof. reflexivity. Qed.

(** "should handle errors when GetSystemMetrics returns zero" *)
Example test_getScreenSize_zero :
  fst (Screen.getScreenSize
         (Scripted.native collapsedDesktop) (initial tt))
  = Ok (failure ("Failed to get screen size using koffi: " ++
                 "GetSystemMetrics returned zero for screen dimensions.")).
Proof. reflexivity. Qed.

(* ===================================================================== *)
(** * Window resolution: which windows are candidates                     *)
(* ===================================================================== *)

Lemma filter_incl_filter {A} (p q : A -> bool) (l : list A) :
  (forall a, p a = true -> q a = true) ->
  incl (filter p l) (filter q l).
Proof.
  intros H a Ha. apply filter_In in Ha as [Hin Hp].
  apply filter_In. auto.
Qed.

(** C2, as stated, fails: for the target ["Target"] and the windows
    ["My Target App"], ["Target"], the tiers of the design document keep only
    the exact match, while the code keeps both windows, and resolution then
    returns the first of them, which is not the exact match. *)
Lemma C2_counterexample_tiers_differ :
  Design.tieredMatch "Target" twoTargets
    = [ {| title := "Target"; className := "B"; handle := ofZ 2 |} ] /\
  Screen.matchingWindows (Some "Target") twoTargets = twoTargets /\
  Screen.matchingWindows (Some "Target") twoTargets
    <> Design.tieredMatch "Target" twoTargets /\
  fst (Screen.findSuitableWindow (Scripted.native twoTargetsDesktop)
         (Some "Target") (initial tt))
    = Ok (Some ({| title := "My Target App"; className := "A"; handle := ofZ 1 |},
                Scripted.rect 100 200 800 600)).
Proof.
  repeat split; try reflexivity.
  intros H. vm_compute in H. discriminate H.
Qed.

(** C2 (amended): for a non-empty target title, one pass over the titled
    windows keeps, in enumeration order, every window whose title equals the
    target, contains it, or contains it once both are lower-cased: the
    union of the three predicates.  When some titled window passes, that
    list is the candidate set; when none does and the target is not
    ["Unknown"], there is no candidate.  The tiers of the design document
    select a part of the list. *)
Theorem C2_candidates_are_the_union {cm : CaseMapping}
    (targetTitle : string) (allWindows : list WindowInfo) :
  targetTitle <> EmptyString ->
  let titled := filter Screen.hasTitle allWindows in
  let union :=
    filter (fun w => (title w =? targetTitle)%string ||
                     includes (title w) targetTitle ||
                     includes (toLowerCase (title w)) (toLowerCase targetTitle))
      titled in
  Screen.matchingWindows (Some targetTitle) titled = union /\
  (forall w,
      In w union <->
      In w allWindows /\ Screen.hasTitle w = true /\
      (title w = targetTitle \/
       includes (title w) targetTitle = true \/
       includes (toLowerCase (title w)) (toLowerCase targetTitle) = true)) /\
  (union <> [] ->
   Screen.selectCandidates (Some targetTitle) allWindows = Some union) /\
  (union = [] -> targetTitle <> "Unknown" ->
   Screen.selectCandidates (Some targetTitle) allWindows = None) /\
  incl (Design.tieredMatch targetTitle titled) union.
Proof.
  intros Hne titled union.
  assert (Htruthy : truthyStr targetTitle = true).
  { unfold truthyStr. destruct (String.eqb_spec targetTitle EmptyString);
      [contradiction | reflexivity]. }
  assert (Hmatching : Screen.matchingWindows (Some targetTitle) titled = union).
  { unfold Screen.matchingWindows. rewrite Htruthy. reflexivity. }
  split; [exact Hmatching|]. split; [|split; [|split]].
  - intros w. unfold union, titled. rewrite !filter_In.
    rewrite !orb_true_iff, String.eqb_eq. tauto.
  - intros Hsome. unfold Screen.selectCandidates. fold titled.
    rewrite Hmatching.
    destruct allWindows as [|a rest] eqn:Hall.
    + exfalso. apply Hsome. reflexivity.
    + cbn [Screen.isEmpty]. destruct titled as [|t0 titled'] eqn:Htitled.
      * exfalso. apply Hsome. reflexivity.
      * cbn [Screen.isEmpty]. destruct union; [contradiction | reflexivity].
  - intros Hnone Hknown. unfold Screen.selectCandidates. fold titled.
    rewrite Hmatching, Hnone.
    destruct (Screen.isEmpty allWindows); [reflexivity|].
    destruct (Screen.isEmpty titled); [reflexivity|].
    cbn [Screen.isEmpty]. unfold Screen.targetRequired. rewrite Htruthy.
    destruct (String.eqb_spec targetTitle "Unknown"); [contradiction|].
    reflexivity.
  - unfold Design.tieredMatch, union.
    destruct (Screen.isEmpty (filter _ titled)); cbn [negb].
    + destruct (Screen.isEmpty (filter _ titled)); cbn [negb].
      * apply filter_incl_filter. intros a Ha. rewrite Ha.
        now rewrite orb_true_r.
      * apply filter_incl_filter. intros a Ha. rewrite Ha.
        now rewrite orb_true_r.
    + apply filter_incl_filter. intros a Ha. now rewrite Ha.
Qed.

(** The theorem at the target ["Target"] and the windows of [twoTargets]. *)
Lemma C2_candidates_are_the_union_witness :
  "Target" <> EmptyString /\
  Screen.selectCandidates (Some "Target") twoTargets = Some twoTargets.
Proof.
  split; [discriminate|].
  destruct (C2_candidates_are_the_union "Target" twoTargets)
    as (_ & _ & Hsome & _); [discriminate|].
  apply Hsome. discriminate.
Defined.

(* ===================================================================== *)
(** * Window resolution and focusing on an arbitrary native layer         *)
(* ===================================================================== *)

Ltac run_step :=
  cbv beta iota zeta delta
    [Eff.bind Eff.tryCatch Eff.ret invoke throw throwIf park].

Section Resolution.
Context {S : Type} (native : Screen.Native S) {cm : CaseMapping}.

Lemma quietly_completes (m : M (World S) unit) (w : World S) :
  exists w', Screen.quietly m w = (Ok tt, w').
Proof.
  unfold Screen.quietly, Eff.tryCatch.
  destruct (m w) as [[[]|e] w']; eexists; reflexivity.
Qed.

Lemma flagOf_completes (m : M (World S) bool) (w : World S) :
  exists b w', Screen.flagOf m w = (Ok b, w').
Proof.
  unfold Screen.flagOf, Eff.tryCatch.
  destruct (m w) as [[b|e] w']; do 2 eexists; reflexivity.
Qed.

Lemma scanCandidates_all_rejected (candidates : list WindowInfo) :
  (forall c s, In c candidates ->
     viewRejected (fst (Screen.hardware_getView native (handle c) s))) ->
  forall w, exists w', Screen.scanCandidates native candidates w = (Ok None, w').
Proof.
  induction candidates as [|c rest IH]; intros Hrej w.
  - simpl. eexists. reflexivity.
  - cbn [Screen.scanCandidates]. run_step.
    pose proof (Hrej c (host w) (or_introl eq_refl)) as Hc.
    destruct (Screen.hardware_getView native (handle c) (host w)) as [[v|e] s1];
      simpl in Hc |- *.
    + rewrite Hc. apply IH. intros c' s' Hin. apply Hrej. now right.
    + apply IH. intros c' s' Hin. apply Hrej. now right.
Qed.

Lemma findSuitableWindow_completes (targetTitle : option string) (w : World S) :
  exists r w', Screen.findSuitableWindow native targetTitle w = (Ok r, w').
Proof.
  unfold Screen.findSuitableWindow, Eff.tryCatch.
  destruct (Eff.bind _ _ w) as [[r|e] w']; do 2 eexists; reflexivity.
Qed.

(** With no window enumerated, resolution finds nothing. *)
Lemma findSuitableWindow_no_windows (targetTitle : option string) (w : World S) :
  fst (Screen.getAllWindows native (host w)) = Ok [] ->
  exists w', Screen.findSuitableWindow native targetTitle w = (Ok None, w').
Proof.
  intros H. unfold Screen.findSuitableWindow. run_step.
  destruct (Screen.getAllWindows native (host w)) as [r s1]. simpl in H. subst r.
  simpl. eexists. reflexivity.
Qed.

End Resolution.

(** The validity test, spelled out on finite geometry. *)
Lemma validView_finite (x y width height : Q) :
  Screen.validView {| Rect.x := Fin x; Rect.y := Fin y;
                      Rect.width := Fin width; Rect.height := Fin height |} = true
  <-> (0 < width /\ 0 < height /\ -(10000) < x /\ -(10000) < y)%Q.
Proof.
  unfold Screen.validView, gt, lt, Qlt_bool, ofZ. simpl.
  rewrite !andb_true_iff, !negb_true_iff.
  assert (L : forall a b : Q, Qle_bool a b = false <-> (b < a)%Q).
  { intros a b. split; intros H.
    - apply Qnot_le_lt. intros Hle. apply Qle_bool_iff in Hle. congruence.
    - destruct (Qle_bool a b) eqn:E; [|reflexivity].
      apply Qle_bool_iff in E. exfalso. now apply (Qlt_not_le b a). }
  rewrite !L. unfold inject_Z. tauto.
Qed.

(** C6: when the candidate set is not empty and no candidate's view passes
    the geometry test (positive width and height, origin above -10000 on
    both axes) -- or cannot be read at all -- resolution still succeeds: it
    returns the first candidate with the rectangle (0, 0, 800, 600). *)
Theorem C6_fallback_rectangle {S : Type} (native : Screen.Native S) {cm : CaseMapping}
    (targetTitle : option string) (w : World S)
    (allWindows : list WindowInfo) (s1 : S)
    (first : WindowInfo) (others : list WindowInfo) :
  Screen.getAllWindows native (host w) = (Ok allWindows, s1) ->
  Screen.selectCandidates targetTitle allWindows = Some (first :: others) ->
  (forall c s, In c (first :: others) ->
     viewRejected (fst (Screen.hardware_getView native (handle c) s))) ->
  exists w',
    Screen.findSuitableWindow native targetTitle w
      = (Ok (Some (first,
                   {| Rect.x := ofZ 0; Rect.y := ofZ 0;
                      Rect.width := ofZ 800; Rect.height := ofZ 600 |})), w').
Proof.
  intros Hall Hsel Hrej.
  unfold Screen.findSuitableWindow. run_step. rewrite Hall, Hsel.
  match goal with
  | |- context [Screen.scanCandidates native (first :: others) ?w0] =>
      destruct (scanCandidates_all_rejected native (first :: others) Hrej w0)
        as [w' Hscan]
  end.
  rewrite Hscan. eexists. reflexivity.
Qed.

(** On [collapsedDesktop] the one candidate has a view of zero width. *)
Lemma C6_fallback_rectangle_witness :
  exists w',
    Screen.findSuitableWindow (Scripted.native collapsedDesktop)
      (Some "calc") (initial tt)
    = (Ok (Some ({| title := "Calculator"; className := "Calc"; handle := ofZ 7 |},
                 Scripted.rect 0 0 800 600)), w').
Proof.
  apply (C6_fallback_rectangle (Scripted.native collapsedDesktop) (Some "calc")
           (initial tt)
           [ {| title := "Calculator"; className := "Calc"; handle := ofZ 7 |} ]
           tt _ []).
  - reflexivity.
  - reflexivity.
  - intros c s _. reflexivity.
Defined.

(** C10, as stated, fails on the retry that [focusWindow] makes for the
    title ["Unknown"].  The first enumeration finds no window, so the first
    lookup returns [null]; a window has appeared by the second lookup,
    which resolves it; [workwindow.set] then throws, the error is caught,
    and the operation falls through to the failure envelope although a
    window had been resolved. *)
Lemma C10_counterexample_unknown_retry :
  let native := Scripted.nativeAfter collapsedDesktop
                  [ {| title := "Calculator"; className := "Calc";
                       handle := ofZ 7 |} ] in
  let w1 := snd (Screen.findSuitableWindow native (Some "Unknown")
                   (initial 0%nat)) in
  fst (Screen.findSuitableWindow native (Some "Unknown") (initial 0%nat))
    = Ok None /\
  fst (Screen.findSuitableWindow native None w1)
    = Ok (Some ({| title := "Calculator"; className := "Calc";
                   handle := ofZ 7 |}, Scripted.rect 0 0 800 600)) /\
  fst (Screen.focusWindow native "Unknown" (initial 0%nat))
    = Ok (failure "Could not find window with title: Unknown") /\
  calls (snd (Screen.focusWindow native "Unknown" (initial 0%nat)))
    = [GetAllWindows; GetAllWindows; HardwareGetView (ofZ 7);
       WorkwindowSet (ofZ 7)] /\
  raised (snd (Screen.focusWindow native "Unknown" (initial 0%nat)))
    = ["set failed"].
Proof. repeat split; reflexivity. Qed.

(** C10 (amended): once the first lookup [findSuitableWindow(title)] of
    [focusWindow(title)] has returned a window, the operation returns
    [success: true] whatever the calls that follow do ([workwindow.set],
    [setForeground], [isForeground], [isOpen], [getWindowChildren] may all
    throw): the envelope is the descriptor of the resolved window, and only
    the two flags and the message suffixes they control depend on those
    calls.  When the first lookup returns [null] and the title is
    ["Unknown"], a second lookup without a title is made; if it resolves a
    window, the operation succeeds exactly when [workwindow.set] on that
    window does not throw ([setForeground] and [isForeground] may), and
    otherwise returns the failure "Could not find window with title:
    Unknown".  When the first lookup returns [null] and the title is not
    ["Unknown"], the operation returns that failure for its title. *)
Theorem C10_focus_succeeds_once_resolved {S : Type} (native : Screen.Native S) {cm : CaseMapping}
    (title_ : string) (w w1 : World S) :
  (forall (targetWindow : WindowInfo) (viewInfo : Rect.t),
     Screen.findSuitableWindow native (Some title_) w
       = (Ok (Some (targetWindow, viewInfo)), w1) ->
     exists response w',
       Screen.focusWindow native title_ w = (Ok response, w') /\
       success response = true /\
       exists isForeground isOpen : bool,
         response =
           successWith
             ("Focused window: " ++ title targetWindow ++
              (if isForeground then " (foreground)" else EmptyString) ++
              (if isOpen then " (open)" else EmptyString))
             (Screen.descriptor targetWindow viewInfo ++
              [("isForeground", VBool isForeground); ("isOpen", VBool isOpen)])) /\
  (forall (anyWindow : WindowInfo) (viewInfo : Rect.t) (w2 : World S),
     Screen.findSuitableWindow native (Some title_) w = (Ok None, w1) ->
     title_ = "Unknown" ->
     Screen.findSuitableWindow native None w1
       = (Ok (Some (anyWindow, viewInfo)), w2) ->
     exists response w',
       Screen.focusWindow native title_ w = (Ok response, w') /\
       match fst (Screen.workwindow_set native (handle anyWindow) (host w2)) with
       | Ok _ =>
           exists isForeground : bool,
             response =
               successWith
                 ("Focused alternative window: " ++ title anyWindow)
                 (Screen.descriptor anyWindow viewInfo ++
                  [("isForeground", VBool isForeground)])
       | Throw _ =>
           response = failure "Could not find window with title: Unknown"
       end) /\
  (Screen.findSuitableWindow native (Some title_) w = (Ok None, w1) ->
   title_ <> "Unknown" ->
   Screen.focusWindow native title_ w
     = (Ok (failure ("Could not find window with title: " ++ title_)), w1)).
Proof.
  split; [|split].
  - intros targetWindow viewInfo Hfound.
    unfold Screen.focusWindow.
    unfold Eff.tryCatch at 1. unfold Eff.bind at 1. rewrite Hfound.
    unfold Eff.bind at 1.
    destruct (quietly_completes
                (invoke (WorkwindowSet (handle targetWindow))
                   (Screen.workwindow_set native (handle targetWindow))) w1)
      as [w2 ->].
    unfold Eff.bind at 1.
    destruct (quietly_completes
                (invoke WorkwindowSetForeground
                   (Screen.workwindow_setForeground native)) w2) as [w3 ->].
    unfold Eff.bind at 1.
    destruct (flagOf_completes
                (invoke WorkwindowIsForeground
                   (Screen.workwindow_isForeground native)) w3)
      as (isForeground & w4 & ->).
    unfold Eff.bind at 1.
    destruct (flagOf_completes
                (invoke WorkwindowIsOpen (Screen.workwindow_isOpen native)) w4)
      as (isOpen & w5 & ->).
    unfold Eff.bind at 1.
    match goal with
    | |- context [Screen.quietly ?m w5] =>
        destruct (quietly_completes m w5) as [w6 ->]
    end.
    unfold Eff.ret.
    eexists; eexists; split; [reflexivity|].
    split; [reflexivity|]. exists isForeground, isOpen. reflexivity.
  - intros anyWindow viewInfo w2 Hnone -> Hany.
    unfold Screen.focusWindow.
    unfold Eff.tryCatch at 1. unfold Eff.bind at 1. rewrite Hnone.
    unfold Eff.bind at 1. cbn [String.eqb Ascii.eqb Bool.eqb].
    unfold Screen.focusAlternative. unfold Eff.bind at 1. rewrite Hany.
    unfold Eff.tryCatch at 1. unfold Eff.bind at 1. unfold invoke at 1.
    destruct (Screen.workwindow_set native (handle anyWindow) (host w2))
      as [[u|e] s3]; cbn [fst].
    + unfold Eff.bind at 1.
      match goal with
      | |- context [Screen.quietly ?m ?w0] =>
          destruct (quietly_completes m w0) as [w3 ->]
      end.
      unfold Eff.bind at 1.
      match goal with
      | |- context [Screen.flagOf ?m ?w0] =>
          destruct (flagOf_completes m w0) as (isForeground & w4 & ->)
      end.
      unfold Eff.ret.
      eexists; eexists; split; [reflexivity|]. exists isForeground.
      reflexivity.
    + unfold Eff.ret. eexists; eexists; split; reflexivity.
  - intros Hnone Hother.
    unfold Screen.focusWindow.
    unfold Eff.tryCatch at 1. unfold Eff.bind at 1. rewrite Hnone.
    unfold Eff.bind at 1.
    destruct (String.eqb_spec title_ "Unknown") as [Heq|_];
      [contradiction | reflexivity].
Qed.

(** On [collapsedDesktop] every call after resolution throws; on the same
    script with a window that appears late, the retry for ["Unknown"]
    resolves it and [workwindow.set] throws. *)
Lemma C10_focus_succeeds_once_resolved_witness :
  (exists response w',
     Screen.focusWindow (Scripted.native collapsedDesktop) "Calculator"
       (initial tt) = (Ok response, w') /\
     success response = true) /\
  (exists response w',
     Screen.focusWindow
       (Scripted.nativeAfter collapsedDesktop
          [ {| title := "Calculator"; className := "Calc"; handle := ofZ 7 |} ])
       "Unknown" (initial 0%nat) = (Ok response, w') /\
     response = failure "Could not find window with title: Unknown").
Proof.
  split.
  - destruct (C10_focus_succeeds_once_resolved
                (cm := Scripted.latin1)
                (Scripted.native collapsedDesktop) "Calculator" (initial tt)
                (snd (Screen.findSuitableWindow
                        (Scripted.native collapsedDesktop)
                        (Some "Calculator") (initial tt))))
      as (Hmain & _ & _).
    destruct (Hmain
                {| title := "Calculator"; className := "Calc"; handle := ofZ 7 |}
                (Scripted.rect 0 0 800 600) eq_refl)
      as (response & w' & Hrun & Hok & _).
    exists response, w'. split; assumption.
  - destruct (C10_focus_succeeds_once_resolved
                (cm := Scripted.latin1)
                (Scripted.nativeAfter collapsedDesktop
                   [ {| title := "Calculator"; className := "Calc";
                        handle := ofZ 7 |} ])
                "Unknown" (initial 0%nat)
                (snd (Screen.findSuitableWindow
                        (Scripted.nativeAfter collapsedDesktop
                           [ {| title := "Calculator"; className := "Calc";
                                handle := ofZ 7 |} ])
                        (Some "Unknown") (initial 0%nat))))
      as (_ & Hretry & _).
    destruct (Hretry
                {| title := "Calculator"; className := "Calc"; handle := ofZ 7 |}
                (Scripted.rect 0 0 800 600) _ eq_refl eq_refl eq_refl)
      as (response & w' & Hrun & Hres).
    exists response, w'. split; [exact Hrun | exact Hres].
Defined.

(** C5: when enumeration yields no window, [focusWindow(title)] fails with
    the missing-window message, which carries the searched title, whereas
    [getActiveWindow()] succeeds with the placeholder descriptor. *)
Theorem C5_empty_window_list {S : Type} (native : Screen.Native S) {cm : CaseMapping}
    (title_ : string) (w : World S) :
  (forall s, fst (Screen.getAllWindows native s) = Ok []) ->
  (exists w',
     Screen.focusWindow native title_ w
       = (Ok {| success := false;
                message := "Could not find window with title: " ++ title_;
                data := None; screenshot := None; encoding := None;
                content := None; timestamp := None |}, w')) /\
  includes ("Could not find window with title: " ++ title_) title_ = true /\
  (exists w',
     Screen.getActiveWindow native w
       = (Ok {| success := true;
                message := "Active window: Unknown (no suitable window found)";
                data := Some [ ("title", VStr "Unknown");
                               ("className", VStr "Unknown");
                               ("handle", VNum (ofZ 0));
                               ("position", VObj [("x", VNum (ofZ 0));
                                                  ("y", VNum (ofZ 0))]);
                               ("size", VObj [("width", VNum (ofZ 0));
                                              ("height", VNum (ofZ 0))]) ];
                screenshot := None; encoding := None;
                content := None; timestamp := None |}, w')).
Proof.
  intros Hnone. split; [|split].
  - unfold Screen.focusWindow.
    unfold Eff.tryCatch at 1. unfold Eff.bind at 1.
    destruct (findSuitableWindow_no_windows native (Some title_) w (Hnone _))
      as [w1 ->].
    unfold Eff.bind at 1.
    destruct (title_ =? "Unknown")%string.
    + unfold Screen.focusAlternative. unfold Eff.bind at 1.
      destruct (findSuitableWindow_no_windows native None w1 (Hnone _))
        as [w2 ->].
      eexists. reflexivity.
    + eexists. reflexivity.
  - apply StringFacts.includes_suffix.
  - unfold Screen.getActiveWindow.
    unfold Eff.tryCatch at 1. unfold Eff.bind at 1.
    destruct (findSuitableWindow_no_windows native None w (Hnone _))
      as [w1 ->].
    eexists. reflexivity.
Qed.

(** The theorem on [emptyDesktop]. *)
Lemma C5_empty_window_list_witness :
  (forall s, fst (Screen.getAllWindows (Scripted.native emptyDesktop) s) = Ok []) /\
  exists w',
    Screen.focusWindow (Scripted.native emptyDesktop) "Nonexistent Window"
      (initial tt)
    = (Ok (failure "Could not find window with title: Nonexistent Window"), w').
Proof.
  split; [reflexivity|].
  apply (C5_empty_window_list (Scripted.native emptyDesktop)
           "Nonexistent Window" (initial tt)).
  reflexivity.
Defined.

(* ===================================================================== *)
(** * The dispatcher: unsupported window operations                       *)
(* ===================================================================== *)

(** C9: for every string [title] and every state of the world,
    [minimize_window] and [restore_window] answer with a failure envelope
    whose message contains "not supported", and leave the world as it was:
    no backend is called and the tools are not consulted. *)
Theorem C9_minimize_restore_unsupported {S : Type}
    (tools : Handler.ScreenTools S) (name : string) (args : value)
    (title_ : string) (w : World S) :
  name = "minimize_window" \/ name = "restore_window" ->
  prop args "title" = VStr title_ ->
  exists action response,
    Handler.callTool tools name args = Some action /\
    action w = (Ok (Handler.Text response), w) /\
    success response = false /\
    data response = None /\
    includes (message response) "not supported" = true.
Proof.
  intros [-> | ->] Htitle; unfold Handler.callTool, Handler.windowCase; simpl;
    rewrite Htitle; eexists; eexists; (split; [reflexivity|]);
    repeat split; reflexivity.
Qed.

(** The theorem for [minimize_window] with the title ["Test Window"]. *)
Lemma C9_minimize_restore_unsupported_witness :
  exists action response,
    Handler.callTool keysenderTools "minimize_window"
      (VObj [("title", VStr "Test Window")]) = Some action /\
    action (initial tt) = (Ok (Handler.Text response), initial tt) /\
    success response = false /\
    data response = None /\
    includes (message response) "not supported" = true.
Proof.
  apply (C9_minimize_restore_unsupported keysenderTools "minimize_window"
           (VObj [("title", VStr "Test Window")]) "Test Window" (initial tt)).
  - left. reflexivity.
  - reflexivity.
Defined.

(* ===================================================================== *)
(** * Mouse tools: positions that are rejected                            *)
(* ===================================================================== *)

(** C3, at the input where the code departs from it.  The source announces
    the range check as one that "always applies" and documents
    [validateMousePosition] as throwing for a position out of bounds; yet
    the [catch] around the check rethrows only outside the test runner.
    With [NODE_ENV] equal to ["test"] (or [VITEST] set) the position
    (20000, 0), which is outside the bound, passes validation: the range
    error is thrown and dropped, [moveMouse] hands the position to
    [provider.mouse] and returns the backend's success envelope. *)
Lemma C3_out_of_range_forwarded_under_test_runner :
  outOfRange {| Pos.x := ofZ 20000; Pos.y := ofZ 0 |} = true /\
  Mouse.moveMouse Scripted.provider Scripted.underVitest
    {| Pos.x := ofZ 20000; Pos.y := ofZ 0 |} (initial tt)
  = (Ok Scripted.accepted,
     {| host := tt; timers := [];
        calls := [ProviderMoveMouse {| Pos.x := ofZ 20000; Pos.y := ofZ 0 |}];
        raised := ["Position (20000,0) is outside reasonable bounds (-10000, -10000)-(10000, 10000)"] |}) /\
  ~ failsWithoutMouse (initial tt)
      (Mouse.moveMouse Scripted.provider Scripted.underVitest
         {| Pos.x := ofZ 20000; Pos.y := ofZ 0 |} (initial tt)).
Proof.
  split; [reflexivity|]. split; [reflexivity|].
  intros (response & w' & Hrun & Hfail & _).
  vm_compute in Hrun. injection Hrun as <- _. discriminate Hfail.
Qed.

Section Rejection.
Context {S : Type} (provider : Mouse.AutomationProvider S)
        (env : Mouse.ProcessEnv) {fmt : NumberFormat}.

Lemma checkScreenBounds_quiet (p : Pos.t) (w : World S) :
  exists w',
    Mouse.checkScreenBounds provider p w = (Ok tt, w') /\
    exists extra,
      calls w' = (calls w ++ extra)%list /\ existsb Mouse.isMouseCall extra = false.
Proof.
  unfold Mouse.checkScreenBounds.
  destruct (Mouse.screen_getScreenSize provider) as [getScreenSize|].
  - run_step.
    destruct (getScreenSize (host w)) as [[r|e] s1]; simpl.
    + destruct (success r), (data r) as [d|]; simpl;
        try (eexists; split; [reflexivity|]; exists [ProviderGetScreenSize];
             split; reflexivity).
      match goal with |- context [if ?c then _ else _] => destruct c end; simpl;
        eexists; (split; [reflexivity|]); exists [ProviderGetScreenSize];
        split; reflexivity.
    + eexists; split; [reflexivity|]. exists [ProviderGetScreenSize].
      split; reflexivity.
  - eexists; split; [reflexivity|]. exists []. simpl.
    now rewrite app_nil_r.
Qed.

(** Validation never calls the mouse, whatever its outcome. *)
Lemma validateMousePosition_no_mouse (p : Pos.t) (w : World S) :
  exists r w',
    Mouse.validateMousePosition provider env p w = (r, w') /\
    exists extra,
      calls w' = (calls w ++ extra)%list /\ existsb Mouse.isMouseCall extra = false.
Proof.
  unfold Mouse.validateMousePosition.
  destruct (isNaN (Pos.x p) || isNaN (Pos.y p)).
  - run_step. do 2 eexists. split; [reflexivity|]. exists []. simpl.
    now rewrite app_nil_r.
  - unfold throwIf at 1. unfold Eff.bind at 1. unfold Eff.ret at 1.
    unfold Eff.bind at 1. unfold Eff.tryCatch.
    match goal with |- context [throwIf ?c _] => destruct c end.
    + run_step. destruct (Mouse.inTestEnvironment env); simpl;
        do 2 eexists; (split; [reflexivity|]); exists []; simpl;
        now rewrite app_nil_r.
    + unfold throwIf. unfold Eff.bind at 1. unfold Eff.ret at 1.
      destruct (checkScreenBounds_quiet p w) as (w1 & -> & extra & Hc & Hm).
      unfold Eff.ret. do 2 eexists. split; [reflexivity|].
      exists extra. split; assumption.
Qed.

(** A position with a NaN coordinate is rejected everywhere; one out of
    range is rejected outside the test environment.  Nothing is called. *)
Lemma validateMousePosition_rejects (p : Pos.t) (w : World S) :
  hasNaN p = true \/
  (Mouse.inTestEnvironment env = false /\ outOfRange p = true) ->
  exists e w',
    Mouse.validateMousePosition provider env p w = (Throw e, w') /\
    calls w' = calls w.
Proof.
  unfold hasNaN, outOfRange, Mouse.validateMousePosition.
  intros H.
  destruct (isNaN (Pos.x p) || isNaN (Pos.y p)) eqn:Hnan.
  - run_step. do 2 eexists. split; reflexivity.
  - destruct H as [H | [Henv Hout]]; [discriminate|].
    run_step. rewrite Hout, Henv.
    do 2 eexists. split; reflexivity.
Qed.

End Rejection.

(** Where the refusal of a position does hold: one with a NaN coordinate is
    refused by [moveMouse], [clickAt] and [dragMouse] (as either end of the
    drag) in every environment, and one with a coordinate outside
    [-10000, 10000] is refused by them whenever the process does not run
    under the test runner ([NODE_ENV] is not ["test"] and [VITEST] is unset
    or empty): the envelope has [success: false] and no call reaches
    [provider.mouse]. *)
Theorem invalid_position_refused {S : Type}
    (provider : Mouse.AutomationProvider S) (env : Mouse.ProcessEnv)
    {fmt : NumberFormat} (p q : Pos.t) (button : string) (w : World S) :
  hasNaN p = true \/
  (Mouse.inTestEnvironment env = false /\ outOfRange p = true) ->
  failsWithoutMouse w (Mouse.moveMouse provider env p w) /\
  failsWithoutMouse w (Mouse.clickAt provider env (Pos.x p) (Pos.y p) button w) /\
  failsWithoutMouse w (Mouse.dragMouse provider env p q button w) /\
  failsWithoutMouse w (Mouse.dragMouse provider env q p button w).
Proof.
  intros Hbad. unfold failsWithoutMouse.
  split; [|split; [|split]].
  - unfold Mouse.moveMouse. run_step.
    destruct (validateMousePosition_rejects provider env p w Hbad)
      as (e & w1 & -> & Hcalls).
    do 2 eexists. split; [reflexivity|]. split; [reflexivity|].
    exists []. rewrite app_nil_r. split; [assumption | reflexivity].
  - unfold Mouse.clickAt.
    destruct (isNaN (Pos.x p) || isNaN (Pos.y p)) eqn:Hnan.
    + run_step. do 2 eexists. split; [reflexivity|]. split; [reflexivity|].
      exists []. rewrite app_nil_r. split; reflexivity.
    + run_step. destruct p as [px py]. cbn [Pos.x Pos.y] in *.
      destruct (validateMousePosition_rejects provider env
                  {| Pos.x := px; Pos.y := py |} w Hbad)
        as (e & w1 & -> & Hcalls).
      do 2 eexists. split; [reflexivity|]. split; [reflexivity|].
      exists []. rewrite app_nil_r. split; [assumption | reflexivity].
  - unfold Mouse.dragMouse. run_step.
    destruct (validateMousePosition_rejects provider env p w Hbad)
      as (e & w1 & -> & Hcalls).
    do 2 eexists. split; [reflexivity|]. split; [reflexivity|].
    exists []. rewrite app_nil_r. split; [assumption | reflexivity].
  - unfold Mouse.dragMouse. run_step.
    destruct (validateMousePosition_no_mouse provider env q w)
      as (r & w1 & -> & extra & Hcalls & Hquiet).
    destruct r as [q'|e].
    + destruct (validateMousePosition_rejects provider env p w1 Hbad)
        as (e & w2 & -> & Hcalls2).
      do 2 eexists. split; [reflexivity|]. split; [reflexivity|].
      exists extra. split; [congruence | assumption].
    + do 2 eexists. split; [reflexivity|]. split; [reflexivity|].
      exists extra. split; assumption.
Qed.

(** Out of range in production, and a NaN coordinate under the test runner. *)
Lemma invalid_position_refused_witness :
  failsWithoutMouse (initial tt)
    (Mouse.moveMouse Scripted.provider Scripted.production
       {| Pos.x := ofZ 20000; Pos.y := ofZ 0 |} (initial tt)) /\
  failsWithoutMouse (initial tt)
    (Mouse.dragMouse Scripted.provider Scripted.underVitest
       {| Pos.x := ofZ 10; Pos.y := ofZ 10 |} {| Pos.x := ofZ 5; Pos.y := NaN |}
       "left" (initial tt)).
Proof.
  split.
  - apply (invalid_position_refused Scripted.provider Scripted.production
             {| Pos.x := ofZ 20000; Pos.y := ofZ 0 |}
             {| Pos.x := ofZ 0; Pos.y := ofZ 0 |} "left" (initial tt)).
    right. split; reflexivity.
  - apply (invalid_position_refused Scripted.provider Scripted.underVitest
             {| Pos.x := ofZ 5; Pos.y := NaN |}
             {| Pos.x := ofZ 10; Pos.y := ofZ 10 |} "left" (initial tt)).
    left. reflexivity.
Defined.

(* ===================================================================== *)
(** * Resizing and repositioning                                          *)
(* ===================================================================== *)

(** C1, as stated, fails.  On the desktop of the unit tests (the window
    stays at (100, 200) with size 800x600 and is in the foreground),
    [resizeWindow("Test Window", 1024, 768)] returns while the second read of
    the view is still parked on the timer (the view has been read once); its
    envelope reports position (0, 0), size 1024x768 and
    [isForeground: false]; the second read happens when the timer fires.
    The full sequence, which [updateWindowPosition] performs, reports the
    geometry read back, (100, 200) and 800x600, and [isForeground: true]. *)
Lemma C1_counterexample_fire_and_forget :
  let returned :=
    Screen.resizeWindow (Scripted.native Scripted.testDesktop)
      "Test Window" (ofZ 1024) (ofZ 768) (initial tt) in
  let awaited :=
    Screen.updateWindowPosition (Scripted.native Scripted.testDesktop)
      "Test Window" None None (Some (ofZ 1024)) (Some (ofZ 768)) resize_
      (initial tt) in
  (exists response,
      fst returned = Ok response /\
      field response "position" = Screen.point (ofZ 0) (ofZ 0) /\
      field response "size" = Screen.extent (ofZ 1024) (ofZ 768) /\
      field response "isForeground" = VBool false) /\
  List.length (timers (snd returned)) = 1%nat /\
  List.length (filter isViewRead (calls (snd returned))) = 1%nat /\
  List.length
    (filter isViewRead
       (calls (snd (Screen.fireTimers (Scripted.native Scripted.testDesktop)
                      (snd returned))))) = 2%nat /\
  (exists response,
      fst awaited = Ok response /\
      field response "position" = Screen.point (ofZ 100) (ofZ 200) /\
      field response "size" = Screen.extent (ofZ 800) (ofZ 600) /\
      field response "isForeground" = VBool true) /\
  List.length (filter isViewRead (calls (snd awaited))) = 2%nat /\
  fst returned <> fst awaited.
Proof.
  cbv zeta. repeat split.
  - eexists. split; [reflexivity|]. repeat split; reflexivity.
  - eexists. split; [reflexivity|]. repeat split; reflexivity.
  - intros H. vm_compute in H. discriminate H.
Qed.

Section UpdateSequence.
Context {S : Type} (native : Screen.Native S) {fmt : NumberFormat}
        {cm : CaseMapping}.

Lemma updateWindowPosition_start_completes (title_ : string)
    (x y width height : option num) (op : OperationType) (w : World S) :
  exists r w',
    Screen.updateWindowPosition_start native title_ x y width height op w
      = (Ok r, w').
Proof.
  unfold Screen.updateWindowPosition_start, Eff.tryCatch.
  destruct (Eff.bind _ _ w) as [[r|e] w']; do 2 eexists; reflexivity.
Qed.

Lemma fireAndForget_completes (title_ : string)
    (x y width height : option num) (op : OperationType) (w : World S) :
  exists w',
    Screen.fireAndForget native title_ x y width height op w = (Ok tt, w').
Proof.
  unfold Screen.fireAndForget, Eff.bind.
  destruct (updateWindowPosition_start_completes title_ x y width height op w)
    as ([settled|k] & w1 & ->); eexists; reflexivity.
Qed.

Lemma updateWindowPosition_resume_completes (k : Suspended) (w : World S) :
  exists r w', Screen.updateWindowPosition_resume native k w = (Ok r, w').
Proof.
  unfold Screen.updateWindowPosition_resume, Eff.tryCatch.
  destruct (Eff.bind _ _ w) as [[r|e] w']; do 2 eexists; reflexivity.
Qed.

(** The full sequence of [updateWindowPosition], step by step on the
    states of the native layer. *)
Lemma updateWindowPosition_sequence (title_ : string)
    (x y width height : option num) (op : OperationType) (w w1 : World S)
    (focusResult : WindowsControlResponse)
    (rcur rupd : Res Rect.t) (rset : Res unit) (rfg : Res bool)
    (s2 s3 s4 s5 : S) :
  Screen.focusWindow native title_ w = (Ok focusResult, w1) ->
  success focusResult = true ->
  Screen.workwindow_getView native (host w1) = (rcur, s2) ->
  Screen.workwindow_setView native
    (Screen.mergeView x y width height (viewOr rcur Screen.zeroView)) s2
    = (rset, s3) ->
  Screen.workwindow_getView native s3 = (rupd, s4) ->
  Screen.workwindow_isForeground native s4 = (rfg, s5) ->
  exists response w',
    Screen.updateWindowPosition native title_ x y width height op w
      = (Ok response, w') /\
    host w' = s5 /\
    success response = true /\
    data response =
      Some (Screen.updateData
              {| operationType := op;
                 reqX := x; reqY := y; reqWidth := width; reqHeight := height;
                 actualTitle := Screen.titleOr (field focusResult "title") title_;
                 focusedHandle := or (asNum (field focusResult "handle")) (ofZ 0);
                 newView := Screen.mergeView x y width height
                              (viewOr rcur Screen.zeroView) |}
              (viewOr rupd (Screen.mergeView x y width height
                              (viewOr rcur Screen.zeroView)))
              (flagOr rfg)).
Proof.
  intros Hfocus Hok Hcur Hset Hupd Hfg.
  unfold Screen.updateWindowPosition, Screen.updateWindowPosition_start,
    Screen.updateWindowPosition_resume, Screen.quietly, Screen.flagOf.
  run_step. rewrite Hfocus, Hok. cbn [negb]. rewrite Hcur.
  destruct rcur as [cur|e1]; cbn [viewOr] in Hset |- *; cbn [host];
    rewrite Hset;
    destruct rset as [[]|e2]; cbn [host newView]; rewrite Hupd;
    destruct rupd as [upd|e3]; cbn [host]; rewrite Hfg;
    destruct rfg as [b|e4]; do 2 eexists;
    (split; [reflexivity|]); repeat split; reflexivity.
Qed.

(** When the window resolves, [void this.updateWindowPosition(...)] stops
    after the new view has been applied and leaves the second read parked. *)
Lemma fireAndForget_parks (title_ : string)
    (x y width height : option num) (op : OperationType) (w w1 : World S)
    (focusResult : WindowsControlResponse)
    (rcur : Res Rect.t) (rset : Res unit) (s2 s3 : S) :
  Screen.focusWindow native title_ w = (Ok focusResult, w1) ->
  success focusResult = true ->
  Screen.workwindow_getView native (host w1) = (rcur, s2) ->
  Screen.workwindow_setView native
    (Screen.mergeView x y width height (viewOr rcur Screen.zeroView)) s2
    = (rset, s3) ->
  exists w',
    Screen.fireAndForget native title_ x y width height op w = (Ok tt, w') /\
    host w' = s3 /\
    timers w' =
      (timers w1 ++
       [ {| operationType := op;
            reqX := x; reqY := y; reqWidth := width; reqHeight := height;
            actualTitle := Screen.titleOr (field focusResult "title") title_;
            focusedHandle := or (asNum (field focusResult "handle")) (ofZ 0);
            newView := Screen.mergeView x y width height
                         (viewOr rcur Screen.zeroView) |} ])%list.
Proof.
  intros Hfocus Hok Hcur Hset.
  unfold Screen.fireAndForget, Screen.updateWindowPosition_start,
    Screen.quietly.
  run_step. rewrite Hfocus, Hok. cbn [negb]. rewrite Hcur.
  destruct rcur as [cur|e1]; cbn [viewOr] in Hset |- *; cbn [host];
    rewrite Hset; destruct rset as [[]|e2]; eexists;
    (split; [reflexivity|]); split; reflexivity.
Qed.

End UpdateSequence.

Lemma or_truthy (a b : num) : truthy a = true -> JS.or a b = a.
Proof. unfold JS.or. now intros ->. Qed.

(** C1 (amended).  [resizeWindow] and [repositionWindow] start
    [updateWindowPosition] without waiting for it: they return as soon as its
    synchronous part has run, with [success: true] and a payload fixed by
    their arguments ([handle: 0], [isForeground: false]; the requested size
    at position (0, 0), or the requested position with size 0x0); when the
    window resolves, the second read of the view is then still parked on
    the timer.  The sequence resolve, read the current view (zeros when the
    read fails), merge, apply, read again is what [updateWindowPosition]
    resolves to: a
    reposition changes only x and y and a resize only width and height
    (current members that are 0 or NaN are taken as 0); of the view read
    back, every member that is not 0 or NaN is reported as read, the others
    (or all, when the read fails) as applied; [isForeground] is reported as
    read, [false] when that read fails. *)
Theorem C1_resize_reposition_sequence {S : Type} (native : Screen.Native S) {cm : CaseMapping}
    {fmt : NumberFormat} (title_ : string) (w : World S) :
  (forall width height,
      exists w',
        Screen.resizeWindow native title_ width height w
          = (Ok (resizeAnswer title_ width height), w') /\
        Screen.fireAndForget native title_ None None (Some width) (Some height)
          resize_ w = (Ok tt, w')) /\
  (forall x y,
      exists w',
        Screen.repositionWindow native title_ x y w
          = (Ok (repositionAnswer title_ x y), w') /\
        Screen.fireAndForget native title_ (Some x) (Some y) None None
          reposition w = (Ok tt, w')) /\
  (forall x y width height op w1 focusResult rcur rset rupd rfg s2 s3 s4 s5,
      Screen.focusWindow native title_ w = (Ok focusResult, w1) ->
      success focusResult = true ->
      Screen.workwindow_getView native (host w1) = (rcur, s2) ->
      let applied :=
        Screen.mergeView x y width height (viewOr rcur Screen.zeroView) in
      Screen.workwindow_setView native applied s2 = (rset, s3) ->
      Screen.workwindow_getView native s3 = (rupd, s4) ->
      Screen.workwindow_isForeground native s4 = (rfg, s5) ->
      let readBack := viewOr rupd applied in
      exists response w',
        Screen.updateWindowPosition native title_ x y width height op w
          = (Ok response, w') /\
        host w' = s5 /\
        success response = true /\
        field response "position"
          = Screen.point (JS.or (Rect.x readBack) (Rect.x applied))
                         (JS.or (Rect.y readBack) (Rect.y applied)) /\
        field response "size"
          = Screen.extent (JS.or (Rect.width readBack) (Rect.width applied))
                          (JS.or (Rect.height readBack) (Rect.height applied)) /\
        field response "isForeground" = VBool (flagOr rfg) /\
        (truthy (Rect.x readBack) = true -> truthy (Rect.y readBack) = true ->
         field response "position"
           = Screen.point (Rect.x readBack) (Rect.y readBack)) /\
        (truthy (Rect.width readBack) = true ->
         truthy (Rect.height readBack) = true ->
         field response "size"
           = Screen.extent (Rect.width readBack) (Rect.height readBack))) /\
  (forall x y width height op w1 focusResult rcur rset s2 s3,
      Screen.focusWindow native title_ w = (Ok focusResult, w1) ->
      success focusResult = true ->
      Screen.workwindow_getView native (host w1) = (rcur, s2) ->
      let applied :=
        Screen.mergeView x y width height (viewOr rcur Screen.zeroView) in
      Screen.workwindow_setView native applied s2 = (rset, s3) ->
      exists w' parked,
        Screen.fireAndForget native title_ x y width height op w = (Ok tt, w') /\
        host w' = s3 /\
        timers w' = (timers w1 ++ [parked])%list /\
        newView parked = applied) /\
  (forall x y current,
      Screen.mergeView (Some x) (Some y) None None current
        = {| Rect.x := x; Rect.y := y;
             Rect.width := JS.or (Rect.width current) (ofZ 0);
             Rect.height := JS.or (Rect.height current) (ofZ 0) |}) /\
  (forall width height current,
      Screen.mergeView None None (Some width) (Some height) current
        = {| Rect.x := JS.or (Rect.x current) (ofZ 0);
             Rect.y := JS.or (Rect.y current) (ofZ 0);
             Rect.width := width; Rect.height := height |}).
Proof.
  split; [|split; [|split; [|split; [|split]]]].
  - intros width height. unfold Screen.resizeWindow, Eff.tryCatch, Eff.bind.
    destruct (fireAndForget_completes native title_ None None (Some width)
                (Some height) resize_ w) as [w' ->].
    exists w'. split; reflexivity.
  - intros x y. unfold Screen.repositionWindow, Eff.tryCatch, Eff.bind.
    destruct (fireAndForget_completes native title_ (Some x) (Some y) None None
                reposition w) as [w' ->].
    exists w'. split; reflexivity.
  - intros x y width height op w1 focusResult rcur rset rupd rfg s2 s3 s4 s5
      Hfocus Hok Hcur applied Hset Hupd Hfg readBack.
    destruct (updateWindowPosition_sequence native title_ x y width height op
                w w1 focusResult rcur rupd rset rfg s2 s3 s4 s5
                Hfocus Hok Hcur Hset Hupd Hfg)
      as (response & w' & Hrun & Hhost & Hsucc & Hdata).
    exists response, w'.
    assert (Hpos : field response "position"
                   = Screen.point (JS.or (Rect.x readBack) (Rect.x applied))
                                  (JS.or (Rect.y readBack) (Rect.y applied))).
    { unfold field. rewrite Hdata. reflexivity. }
    assert (Hsize : field response "size"
                    = Screen.extent
                        (JS.or (Rect.width readBack) (Rect.width applied))
                        (JS.or (Rect.height readBack) (Rect.height applied))).
    { unfold field. rewrite Hdata. reflexivity. }
    repeat split; try assumption.
    + unfold field. rewrite Hdata. reflexivity.
    + intros Hx Hy. rewrite Hpos, (or_truthy _ _ Hx), (or_truthy _ _ Hy).
      reflexivity.
    + intros Hw Hh. rewrite Hsize, (or_truthy _ _ Hw), (or_truthy _ _ Hh).
      reflexivity.
  - intros x y width height op w1 focusResult rcur rset s2 s3
      Hfocus Hok Hcur applied Hset.
    destruct (fireAndForget_parks native title_ x y width height op w w1
                focusResult rcur rset s2 s3 Hfocus Hok Hcur Hset)
      as (w' & Hrun & Hhost & Htimers).
    eexists. eexists. split; [exact Hrun|]. split; [exact Hhost|].
    split; [exact Htimers | reflexivity].
  - reflexivity.
  - reflexivity.
Qed.

(** On [clampingDesktop] a reposition to (50, 100) reports the size read back, 640x480. *)
Lemma C1_resize_reposition_sequence_witness :
  exists response w',
    Screen.updateWindowPosition (Scripted.native clampingDesktop)
      "Test Window" (Some (ofZ 50)) (Some (ofZ 100)) None None reposition
      (initial tt) = (Ok response, w') /\
    field response "size" = Screen.extent (ofZ 640) (ofZ 480) /\
    field response "isForeground" = VBool true.
Proof.
  destruct (C1_resize_reposition_sequence
              (Scripted.native clampingDesktop) "Test Window" (initial tt))
    as (_ & _ & Hseq & _).
  destruct (Hseq (Some (ofZ 50)) (Some (ofZ 100)) None None reposition
              (snd (Screen.focusWindow (Scripted.native clampingDesktop)
                      "Test Window" (initial tt)))
              (successWith "Focused window: Test Window (foreground) (open)"
                 (Screen.descriptor
                    {| title := "Test Window"; className := "TestClass";
                       handle := ofZ 12345 |}
                    (Scripted.rect 0 10 640 480) ++
                  [("isForeground", VBool true); ("isOpen", VBool true)]))
              (Ok (Scripted.rect 0 10 640 480)) (Ok tt)
              (Ok (Scripted.rect 0 10 640 480)) (Ok true) tt tt tt tt
              eq_refl eq_refl eq_refl eq_refl eq_refl eq_refl)
    as (response & w' & Hrun & _ & _ & _ & _ & Hfg & _ & Hsize).
  exists response, w'. split; [exact Hrun|]. split; [|exact Hfg].
  apply Hsize; reflexivity.
Defined.

(* ===================================================================== *)
(** * Screenshots                                                         *)
(* ===================================================================== *)

Lemma Qle_bool_inject_Z (a b : Z) :
  Qle_bool (inject_Z a) (inject_Z b) = (a <=? b).
Proof.
  unfold Qle_bool, inject_Z. simpl. now rewrite !Z.mul_1_r.
Qed.

Lemma gt_ofZ (a b : Z) : gt (ofZ a) (ofZ b) = (b <? a).
Proof.
  unfold gt, lt, ofZ, Qlt_bool. rewrite Qle_bool_inject_Z.
  now rewrite Z.ltb_antisym.
Qed.

Lemma Qeq_bool_inject_Z_0 (a : Z) : 0 < a -> Qeq_bool (inject_Z a) 0 = false.
Proof.
  intros H. unfold Qeq_bool, inject_Z. simpl. rewrite Z.mul_1_r.
  apply Z.eqb_neq. lia.
Qed.

Lemma Qlt_bool_iff (a b : Q) : Qlt_bool a b = true <-> (a < b)%Q.
Proof.
  unfold Qlt_bool. rewrite negb_true_iff. split; intros H.
  - apply Qnot_le_lt. intros Hle. apply Qle_bool_iff in Hle. congruence.
  - destruct (Qle_bool b a) eqn:E; [|reflexivity].
    apply Qle_bool_iff in E. exfalso. now apply (Qlt_not_le a b).
Qed.

Lemma inject_Z_pos (a : Z) : 0 < a -> (0 < inject_Z a)%Q.
Proof. intros H. unfold Qlt, inject_Z. simpl. lia. Qed.

(* ===================================================================== *)
(** * Facts about double precision                                        *)
(* ===================================================================== *)

Module DoubleFacts.
Local Open Scope Q_scope.

Lemma pow2_pos (e : Z) : 0 < pow2 e.
Proof. apply Qpower_0_lt. reflexivity. Qed.

Lemma pow2_add (a b : Z) : pow2 (a + b) == pow2 a * pow2 b.
Proof. apply Qpower_plus. discriminate. Qed.

Lemma pow2_le (a b : Z) : (a <= b)%Z -> pow2 a <= pow2 b.
Proof. intros H. apply Qpower_le_compat_l; [assumption | discriminate]. Qed.

Lemma pow2_inject (n : Z) : (0 <= n)%Z -> inject_Z (2 ^ n) == pow2 n.
Proof. intros H. apply (Zpower_Qpower 2 n H). Qed.

(** The binary logarithms of numerator and denominator locate [q] within a
    factor of four. *)
Lemma log2_bounds (q : Q) :
  0 < q ->
  let k := (Z.log2 (Qnum q) - Z.log2 (Zpos (Qden q)))%Z in
  pow2 (k - 1) < q /\ q < pow2 (k + 1).
Proof.
  destruct q as [n d]. intros Hpos k. unfold k. cbn [Qnum Qden].
  assert (Hn : (0 < n)%Z) by (unfold Qlt in Hpos; cbn in Hpos; lia).
  set (ln := Z.log2 n). set (ld := Z.log2 (Zpos d)).
  assert (Hln : (0 <= ln)%Z) by apply Z.log2_nonneg.
  assert (Hld : (0 <= ld)%Z) by apply Z.log2_nonneg.
  destruct (Z.log2_spec n Hn) as [Hn1 Hn2]. fold ln in Hn1, Hn2.
  destruct (Z.log2_spec (Zpos d) eq_refl) as [Hd1 Hd2]. fold ld in Hd1, Hd2.
  assert (Hq : (n # d) * inject_Z (Zpos d) == inject_Z n).
  { unfold Qeq, Qmult, inject_Z. cbn. lia. }
  assert (Hdpos : 0 < inject_Z (Zpos d)) by reflexivity.
  split.
  - apply Qmult_lt_r with (z := pow2 (ld + 1)); [apply pow2_pos|].
    rewrite <- pow2_add. replace (ln - ld - 1 + (ld + 1))%Z with ln by lia.
    rewrite <- (pow2_inject ln Hln).
    apply Qle_lt_trans with (inject_Z n); [now rewrite <- Zle_Qle|].
    rewrite <- Hq. apply Qmult_lt_l; [assumption|].
    rewrite <- (pow2_inject (ld + 1)) by lia. rewrite <- Zlt_Qlt.
    now rewrite <- Z.add_1_r in Hd2.
  - apply Qmult_lt_r with (z := pow2 ld); [apply pow2_pos|].
    rewrite <- pow2_add. replace (ln - ld + 1 + ld)%Z with (ln + 1)%Z by lia.
    apply Qle_lt_trans with ((n # d) * inject_Z (Zpos d)).
    + apply Qmult_le_l; [assumption|].
      rewrite <- (pow2_inject ld Hld). now rewrite <- Zle_Qle.
    + rewrite Hq. rewrite <- (pow2_inject (ln + 1)) by lia.
      rewrite <- Zlt_Qlt. now rewrite <- Z.add_1_r in Hn2.
Qed.

(** The exponent chosen before clamping puts [q] on a grid of 53 bits. *)
Lemma grid_normal (q : Q) :
  0 < q ->
  let k := (Z.log2 (Qnum q) - Z.log2 (Zpos (Qden q)))%Z in
  let e := if Qle_bool (pow2 k) q then (k - 52)%Z else (k - 53)%Z in
  pow2 52 * pow2 e <= q /\ q < pow2 53 * pow2 e.
Proof.
  intros Hpos k e. destruct (log2_bounds q Hpos) as [Hlow Hhigh].
  fold k in Hlow, Hhigh. unfold e.
  destruct (Qle_bool (pow2 k) q) eqn:Hcmp.
  - apply Qle_bool_iff in Hcmp. rewrite <- !pow2_add.
    replace (52 + (k - 52))%Z with k by lia.
    replace (53 + (k - 52))%Z with (k + 1)%Z by lia. now split.
  - assert (Hlt : q < pow2 k).
    { apply Qnot_le_lt. intros Hle. apply Qle_bool_iff in Hle. congruence. }
    rewrite <- !pow2_add.
    replace (52 + (k - 53))%Z with (k - 1)%Z by lia.
    replace (53 + (k - 53))%Z with k by lia.
    split; [now apply Qlt_le_weak | assumption].
Qed.

Lemma nearestEven_bounds (x : Q) :
  x - (1 # 2) <= inject_Z (nearestEven x) /\
  inject_Z (nearestEven x) <= x + (1 # 2).
Proof.
  unfold nearestEven.
  pose proof (Qfloor_le x) as Hlow. pose proof (Qlt_floor x) as Hhigh.
  rewrite inject_Z_plus in Hhigh. change (inject_Z 1) with 1 in Hhigh.
  destruct (Qcompare_spec (x - inject_Z (Qfloor x)) (1 # 2)) as [Heq|Hlt|Hgt].
  - destruct (Z.even (Qfloor x)); rewrite ?inject_Z_plus;
      change (inject_Z 1) with 1; split; lra.
  - split; lra.
  - rewrite inject_Z_plus. change (inject_Z 1) with 1. split; lra.
Qed.

Lemma nearestEven_comp (x y : Q) : x == y -> nearestEven x = nearestEven y.
Proof.
  intros H. unfold nearestEven. rewrite (Qfloor_comp x y H).
  assert (Hc : (x - inject_Z (Qfloor y) ?= 1 # 2)
               = (y - inject_Z (Qfloor y) ?= 1 # 2)).
  { apply Qcompare_comp; [now rewrite H | reflexivity]. }
  now rewrite Hc.
Qed.

Lemma nearestEven_inject (z : Z) : nearestEven (inject_Z z) = z.
Proof.
  unfold nearestEven. rewrite Qfloor_Z.
  assert (Hc : (inject_Z z - inject_Z z ?= 1 # 2) = Lt).
  { apply -> Qlt_alt. setoid_replace (inject_Z z - inject_Z z) with 0 by ring.
    reflexivity. }
  now rewrite Hc.
Qed.

Lemma epsilon_pow2 : pow2 (-53) == epsilon.
Proof. reflexivity. Qed.

(** Rounding a positive rational in the normal range moves it by at most
    half a unit in the last place. *)
Lemma nearestDouble_bounds (q : Q) :
  pow2 (-1022) <= q ->
  q * (1 - epsilon) <= nearestDouble q /\ nearestDouble q <= q * (1 + epsilon).
Proof.
  intros Hnormal.
  assert (Hpos : 0 < q)
    by (apply Qlt_le_trans with (pow2 (-1022)); [apply pow2_pos | assumption]).
  unfold nearestDouble, gridExponent.
  destruct (grid_normal q Hpos) as [Hlow Hhigh].
  set (k := (Z.log2 (Qnum q) - Z.log2 (Zpos (Qden q)))%Z) in *.
  set (e := if Qle_bool (pow2 k) q then (k - 52)%Z else (k - 53)%Z) in *.
  assert (He : (-1074 <= e)%Z).
  { destruct (Z_le_gt_dec (-1074) e) as [|Hsmall]; [assumption|].
    exfalso. apply (Qlt_irrefl q).
    apply Qlt_le_trans with (pow2 53 * pow2 e); [assumption|].
    rewrite <- pow2_add.
    apply Qle_trans with (pow2 (-1022)); [apply pow2_le; lia | assumption]. }
  rewrite Z.max_l by assumption.
  pose proof (pow2_pos e) as Hpe.
  destruct (nearestEven_bounds (q / pow2 e)) as [Hm1 Hm2].
  set (m := inject_Z (nearestEven (q / pow2 e))) in *.
  assert (Hx : q / pow2 e * pow2 e == q) by (field; lra).
  assert (Hhalf : pow2 e * (1 # 2) <= q * epsilon).
  { rewrite <- epsilon_pow2.
    assert (H52 : pow2 (-53) * pow2 52 == 1 # 2) by reflexivity.
    rewrite <- H52.
    apply Qle_trans with (pow2 (-53) * (pow2 52 * pow2 e)); [lra|].
    pose proof (pow2_pos (-53)).
    rewrite (Qmult_comm q). apply Qmult_le_l; assumption. }
  assert (Hup : m * pow2 e <= (q / pow2 e + (1 # 2)) * pow2 e)
    by (apply Qmult_le_compat_r; lra).
  assert (Hdown : (q / pow2 e - (1 # 2)) * pow2 e <= m * pow2 e)
    by (apply Qmult_le_compat_r; lra).
  rewrite Qmult_plus_distr_l in Hup. rewrite Hx in Hup.
  unfold Qminus in Hdown. rewrite Qmult_plus_distr_l in Hdown.
  rewrite Hx in Hdown.
  split; lra.
Qed.

(** Integers below 2^53 are doubles. *)
Lemma nearestDouble_integer (q : Q) (z : Z) :
  q == inject_Z z -> (0 < z < 2 ^ 53)%Z -> nearestDouble q == inject_Z z.
Proof.
  intros Hq Hz.
  assert (Hpos : 0 < q) by (rewrite Hq; rewrite <- (Zlt_Qlt 0); lia).
  unfold nearestDouble, gridExponent.
  destruct (grid_normal q Hpos) as [Hlow Hhigh].
  set (k := (Z.log2 (Qnum q) - Z.log2 (Zpos (Qden q)))%Z) in *.
  set (e0 := if Qle_bool (pow2 k) q then (k - 52)%Z else (k - 53)%Z) in *.
  assert (He0 : (e0 <= 0)%Z).
  { destruct (Z_le_gt_dec e0 0) as [|Hbig]; [assumption|].
    exfalso. apply (Qlt_irrefl q).
    apply Qlt_le_trans with (pow2 53).
    - rewrite Hq. rewrite <- (pow2_inject 53) by lia. rewrite <- Zlt_Qlt. lia.
    - apply Qle_trans with (pow2 52 * pow2 e0); [|assumption].
      rewrite <- pow2_add. apply pow2_le. lia. }
  set (e := Z.max e0 (-1074)).
  assert (He : (e <= 0)%Z) by (unfold e; lia).
  assert (Hpe : pow2 e == / inject_Z (2 ^ (- e))).
  { rewrite pow2_inject by lia. unfold pow2.
    rewrite <- (Qpower_opp 2 (- e)). now rewrite Z.opp_involutive. }
  assert (H2 : 0 < inject_Z (2 ^ (- e))).
  { rewrite <- (Zlt_Qlt 0). apply Z.pow_pos_nonneg; lia. }
  assert (Hint : q / pow2 e == inject_Z (z * 2 ^ (- e))).
  { rewrite Hq, Hpe, inject_Z_mult. field. lra. }
  rewrite (nearestEven_comp _ _ Hint), nearestEven_inject.
  rewrite inject_Z_mult, Hpe. field. lra.
Qed.

(** [double] on a positive rational between the smallest normal number and
    2^1000. *)
Lemma double_normal (q : Q) :
  pow2 (-1022) <= q -> q <= pow2 1000 ->
  exists r, double q = Fin r /\ q * (1 - epsilon) <= r /\ r <= q * (1 + epsilon).
Proof.
  intros Hlow Hhigh.
  assert (Hpos : 0 < q)
    by (apply Qlt_le_trans with (pow2 (-1022)); [apply pow2_pos | assumption]).
  destruct (nearestDouble_bounds q Hlow) as [Hr1 Hr2].
  unfold double. apply Qgt_alt in Hpos. rewrite Hpos. cbv zeta.
  assert (Hfinite : Qle_bool (pow2 1024) (nearestDouble q) = false).
  { destruct (Qle_bool (pow2 1024) (nearestDouble q)) eqn:E; [|reflexivity].
    apply Qle_bool_iff in E. exfalso.
    assert (H24 : pow2 1024 == pow2 24 * pow2 1000) by (apply (pow2_add 24 1000)).
    assert (H16 : pow2 24 == 16777216) by reflexivity.
    pose proof (pow2_pos 1000). unfold epsilon in Hr2.
    rewrite H24, H16 in E. nra. }
  rewrite Hfinite. exists (nearestDouble q). now split.
Qed.

Lemma double_integer (q : Q) (z : Z) :
  q == inject_Z z -> (0 < z < 2 ^ 53)%Z ->
  exists r, double q = Fin r /\ r == inject_Z z.
Proof.
  intros Hq Hz.
  assert (Hpos : 0 < q) by (rewrite Hq; rewrite <- (Zlt_Qlt 0); lia).
  pose proof (nearestDouble_integer q z Hq Hz) as Hr.
  unfold double. apply Qgt_alt in Hpos. rewrite Hpos. cbv zeta.
  assert (Hfinite : Qle_bool (pow2 1024) (nearestDouble q) = false).
  { destruct (Qle_bool (pow2 1024) (nearestDouble q)) eqn:E; [|reflexivity].
    apply Qle_bool_iff in E. exfalso. rewrite Hr in E.
    assert (H53 : inject_Z z < pow2 53).
    { rewrite <- (pow2_inject 53) by lia. rewrite <- Zlt_Qlt. lia. }
    pose proof (pow2_le 53 1024 ltac:(lia)). lra. }
  rewrite Hfinite. exists (nearestDouble q). now split.
Qed.

End DoubleFacts.

Section Scaling.
Import DoubleFacts.
Local Open Scope Q_scope.

Lemma Qfloor_unique (x : Q) (z : Z) :
  inject_Z z <= x -> x < inject_Z z + 1 -> Qfloor x = z.
Proof.
  intros Hlow Hhigh.
  pose proof (Qfloor_le x) as Hf1. pose proof (Qlt_floor x) as Hf2.
  rewrite inject_Z_plus in Hf2. change (inject_Z 1) with 1 in Hf2.
  assert (H1 : inject_Z (Qfloor x) < inject_Z z + 1) by lra.
  assert (H2 : inject_Z z < inject_Z (Qfloor x) + 1) by lra.
  change 1 with (inject_Z 1) in H1, H2.
  rewrite <- inject_Z_plus in H1, H2. rewrite <- Zlt_Qlt in H1, H2. lia.
Qed.

Lemma tiny_below_epsilon : pow2 (-1022) <= epsilon.
Proof. rewrite <- epsilon_pow2. apply pow2_le. lia. Qed.

Lemma below_pow2_1000 (q : Q) : q <= 2048 -> q <= pow2 1000.
Proof.
  intros H. apply Qle_trans with (pow2 11).
  - assert (H11 : pow2 11 == 2048) by reflexivity. now rewrite H11.
  - apply pow2_le. lia.
Qed.

Lemma side_below (W : Z) : (0 < W < 2 ^ 53)%Z ->
  1 <= inject_Z W /\ inject_Z W <= 9007199254740992.
Proof.
  intros [H1 H2]. split.
  - change 1 with (inject_Z 1). rewrite <- Zle_Qle. lia.
  - change 9007199254740992 with (inject_Z (2 ^ 53)). rewrite <- Zle_Qle. lia.
Qed.

(** [1280 / W] in double precision. *)
Lemma div_maxSize (W : Z) :
  (0 < W < 2 ^ 53)%Z ->
  exists d,
    div (ofZ 1280) (ofZ W) = Fin d /\
    1280 / inject_Z W * (1 - epsilon) <= d /\
    d <= 1280 / inject_Z W * (1 + epsilon).
Proof.
  intros HW. destruct (side_below W HW) as [H1 H2].
  unfold div, ofZ.
  rewrite (Qeq_bool_inject_Z_0 W) by lia.
  change (inject_Z 1280) with 1280.
  apply double_normal.
  - apply Qle_trans with epsilon; [apply tiny_below_epsilon|].
    apply Qle_shift_div_l; [lra|]. unfold epsilon. lra.
  - apply below_pow2_1000. apply Qle_shift_div_r; [lra|]. lra.
Qed.

(** One side of the capture, multiplied by the factor and rounded. *)
Lemma scaled_side (side : Z) (f x : Q) :
  (0 < side < 2 ^ 53)%Z ->
  epsilon <= f ->
  x * (1 - epsilon) <= inject_Z side * f ->
  inject_Z side * f <= x * (1 + epsilon) ->
  0 <= x -> x <= 1280 ->
  exists s : Z,
    round (mul (ofZ side) (Fin f)) = ofZ s /\
    (s <= 1280)%Z /\
    x - ((1 # 2) + tolerance) <= inject_Z s /\
    inject_Z s <= x + ((1 # 2) + tolerance).
Proof.
  intros Hside Hf Hlow Hhigh Hx0 Hx.
  destruct (side_below side Hside) as [H1 H2].
  unfold mul, ofZ.
  destruct (double_normal (inject_Z side * f)) as (y & -> & Hy1 & Hy2).
  - apply Qle_trans with epsilon; [apply tiny_below_epsilon|].
    unfold epsilon in *. nra.
  - apply below_pow2_1000. unfold epsilon in *. lra.
  - cbn [round]. exists (Qfloor (y + (1 # 2))). split; [reflexivity|].
    pose proof (Qfloor_le (y + (1 # 2))) as Hf1.
    pose proof (Qlt_floor (y + (1 # 2))) as Hf2.
    rewrite inject_Z_plus in Hf2. change (inject_Z 1) with 1 in Hf2.
    set (t := inject_Z side * f) in *.
    set (s := inject_Z (Qfloor (y + (1 # 2)))) in *.
    unfold epsilon, tolerance in *.
    split; [|split].
    + assert (Hs : s < inject_Z 1281) by (change (inject_Z 1281) with 1281; lra).
      unfold s in Hs. rewrite <- Zlt_Qlt in Hs. lia.
    + lra.
    + lra.
Qed.

Lemma scaleFactor_ofZ (W H : Z) :
  Screen.scaleFactor (ofZ W) (ofZ H)
  = if ((1280 <? W) || (1280 <? H))%Z
    then JS.min (div (ofZ 1280) (ofZ W)) (div (ofZ 1280) (ofZ H))
    else ofZ 1.
Proof.
  unfold Screen.scaleFactor. change Screen.maxSize with (ofZ 1280).
  now rewrite !gt_ofZ.
Qed.

(** The sides the fallback reports for a capture of [W] x [H] pixels. *)
Lemma scaled_dimensions (W H : Z) :
  (0 < W < 2 ^ 53)%Z -> (0 < H < 2 ^ 53)%Z ->
  exists (f : Q) (width height : Z),
    Screen.scaleFactor (ofZ W) (ofZ H) = Fin f /\
    Screen.scaledWidth (ofZ W) (ofZ H) = ofZ width /\
    Screen.scaledHeight (ofZ W) (ofZ H) = ofZ height /\
    ofZ width = round (mul (ofZ W) (Fin f)) /\
    ofZ height = round (mul (ofZ H) (Fin f)) /\
    ((W <= 1280)%Z -> (H <= 1280)%Z -> f = 1 /\ width = W /\ height = H) /\
    fitFactor W H * (1 - epsilon) <= f /\
    f <= fitFactor W H * (1 + epsilon) /\
    (width <= 1280)%Z /\ (height <= 1280)%Z /\
    inject_Z W * fitFactor W H - ((1 # 2) + tolerance) <= inject_Z width /\
    inject_Z width <= inject_Z W * fitFactor W H + ((1 # 2) + tolerance) /\
    inject_Z H * fitFactor W H - ((1 # 2) + tolerance) <= inject_Z height /\
    inject_Z height <= inject_Z H * fitFactor W H + ((1 # 2) + tolerance).
Proof.
  intros HW HH.
  destruct (side_below W HW) as [HW1 HW2].
  destruct (side_below H HH) as [HH1 HH2].
  unfold Screen.scaledWidth, Screen.scaledHeight, fitFactor.
  rewrite scaleFactor_ofZ.
  destruct ((1280 <? W)%Z || (1280 <? H)%Z) eqn:Hbig.
  - (* the capture does not fit *)
    destruct (div_maxSize W HW) as (dW & HdW & HdW1 & HdW2).
    destruct (div_maxSize H HH) as (dH & HdH & HdH1 & HdH2).
    rewrite HdW, HdH.
    set (a := 1280 / inject_Z W) in *. set (b := 1280 / inject_Z H) in *.
    set (phi := 1280 / inject_Z (Z.max W H)).
    assert (Ha : a * inject_Z W == 1280) by (unfold a; field; lra).
    assert (Hb : b * inject_Z H == 1280) by (unfold b; field; lra).
    assert (Hphi : (phi == a /\ phi <= b) \/ (phi == b /\ phi <= a)).
    { unfold phi. destruct (Z.max_spec W H) as [[Hlt ->]|[Hle ->]].
      - right. split; [reflexivity|]. fold b. unfold a.
        apply Qle_shift_div_l; [lra|].
        assert (inject_Z W <= inject_Z H) by (rewrite <- Zle_Qle; lia).
        assert (0 < b) by (unfold b; apply Qlt_shift_div_l; lra). nra.
      - left. split; [reflexivity|]. fold a. unfold b.
        apply Qle_shift_div_l; [lra|].
        assert (inject_Z H <= inject_Z W) by (rewrite <- Zle_Qle; lia).
        assert (0 < a) by (unfold a; apply Qlt_shift_div_l; lra). nra. }
    assert (Hapos : 0 < a) by (unfold a; apply Qlt_shift_div_l; lra).
    assert (Hbpos : 0 < b) by (unfold b; apply Qlt_shift_div_l; lra).
    assert (Hmin : exists f,
               JS.min (Fin dW) (Fin dH) = Fin f /\
               phi * (1 - epsilon) <= f /\ f <= phi * (1 + epsilon) /\
               f <= dW /\ f <= dH).
    { unfold JS.min, lt, Qlt_bool.
      destruct (Qle_bool dW dH) eqn:Hcmp; cbn [negb].
      - apply Qle_bool_iff in Hcmp. exists dW. split; [reflexivity|].
        unfold epsilon in *. destruct Hphi as [[-> ?]|[-> ?]];
          repeat split; lra.
      - assert (dH < dW).
        { apply Qnot_le_lt. intros Hle. apply Qle_bool_iff in Hle.
          congruence. }
        exists dH. split; [reflexivity|].
        unfold epsilon in *. destruct Hphi as [[-> ?]|[-> ?]];
          repeat split; lra. }
    destruct Hmin as (f & -> & Hf1 & Hf2 & HfW & HfH).
    assert (Hphi_low : 1280 * epsilon <= phi).
    { unfold epsilon.
      destruct Hphi as [[-> _]|[-> _]].
      - unfold a. apply Qle_shift_div_l; lra.
      - unfold b. apply Qle_shift_div_l; lra. }
    assert (Hphi_W : inject_Z W * phi <= 1280)
      by (destruct Hphi as [[-> ?]|[? ?]]; nra).
    assert (Hphi_H : inject_Z H * phi <= 1280)
      by (destruct Hphi as [[? ?]|[-> ?]]; nra).
    assert (Hphi_pos : 0 < phi) by (unfold epsilon in *; lra).
    assert (Hfe : epsilon <= f) by (unfold epsilon in *; lra).
    destruct (scaled_side W f (inject_Z W * phi) HW Hfe)
      as (width & Hwidth & Hw1 & Hw2 & Hw3);
      try (unfold epsilon in *; nra).
    destruct (scaled_side H f (inject_Z H * phi) HH Hfe)
      as (height & Hheight & Hh1 & Hh2 & Hh3);
      try (unfold epsilon in *; nra).
    exists f, width, height.
    repeat split; try assumption; try (symmetry; assumption).
    + intros. apply orb_true_iff in Hbig. rewrite !Z.ltb_lt in Hbig. lia.
    + intros. apply orb_true_iff in Hbig. rewrite !Z.ltb_lt in Hbig. lia.
    + intros. apply orb_true_iff in Hbig. rewrite !Z.ltb_lt in Hbig. lia.
  - (* the capture fits *)
    apply orb_false_iff in Hbig. rewrite !Z.ltb_ge in Hbig.
    destruct Hbig as [LW LH].
    assert (Hside : forall side : Z, (0 < side < 2 ^ 53)%Z ->
               round (mul (ofZ side) (ofZ 1)) = ofZ side).
    { intros side Hs. unfold mul, ofZ.
      destruct (double_integer (inject_Z side * inject_Z 1) side)
        as (r & -> & Hr); [change (inject_Z 1) with 1; ring | assumption|].
      cbn [round]. unfold ofZ. do 2 f_equal.
      apply Qfloor_unique; rewrite Hr; lra. }
    exists 1, W, H. change (ofZ 1) with (Fin 1) in *.
    pose proof (Hside W HW) as HsW. pose proof (Hside H HH) as HsH.
    unfold epsilon, tolerance.
    repeat split; try assumption; try (symmetry; assumption); try lra.
Qed.

End Scaling.

(** C4, as stated, fails on two counts.  When [import('sharp')] is rejected
    the call answers [success: false] although the capture was never tried
    (the only logged call is the import).  And when the capture hands back an
    empty buffer and the pipeline raises, the fallback envelope carries an
    empty [screenshot]. *)
Lemma C4_counterexample_import_and_empty_buffer :
  Screen.getScreenshot
    (Scripted.native (withImport (Throw "Cannot find module sharp")
                        Scripted.testDesktop))
    None (initial tt)
  = (Ok (failure "Failed to capture screenshot: Cannot find module sharp"),
     {| host := tt; timers := []; calls := [ImportSharp];
        raised := ["Cannot find module sharp"] |}) /\
  (exists response,
      fst (Screen.getScreenshot
             (Scripted.native
                (withSharp (Throw "Input buffer is empty")
                   (withCapture
                      (fun _ => Ok {| captureData := [];
                                      captureWidth := ofZ 0;
                                      captureHeight := ofZ 0 |})
                      Scripted.testDesktop)))
             None (initial tt)) = Ok response /\
      success response = true /\
      screenshot response = Some EmptyString).
Proof.
  split; [reflexivity|].
  eexists. split; [reflexivity|]. split; reflexivity.
Qed.

Section Screenshot.
Context {S : Type} (native : Screen.Native S) {cm : CaseMapping}.

Lemma screenshotData_full (options : option ScreenshotOptions)
    (full : list (string * value)) :
  Screen.regionOf options = None -> Screen.screenshotData options full = full.
Proof.
  destruct options as [[[r|] f q g c rs]|]; simpl; intros H;
    [discriminate | reflexivity | reflexivity].
Qed.

Lemma screenshotData_region (options : option ScreenshotOptions)
    (full : list (string * value)) (r : Rect.t) :
  Screen.regionOf options = Some r ->
  Screen.screenshotData options full
    = Screen.dims (Rect.width r) (Rect.height r).
Proof.
  destruct options as [[[r'|] f q g c rs]|]; simpl; intros H;
    [now injection H as -> | discriminate | discriminate].
Qed.

(** [getScreenshot] always returns an envelope. *)
Lemma getScreenshot_completes (options : option ScreenshotOptions)
    (w : World S) :
  exists response w',
    Screen.getScreenshot native options w = (Ok response, w').
Proof.
  unfold Screen.getScreenshot. unfold Eff.tryCatch at 1.
  destruct (Eff.bind _ _ w) as [[r|e] w']; do 2 eexists; reflexivity.
Qed.

(** A failure envelope comes from the import or from the capture. *)
Lemma getScreenshot_failure_origin (options : option ScreenshotOptions)
    (w w' : World S) (response : WindowsControlResponse) :
  Screen.getScreenshot native options w = (Ok response, w') ->
  success response = false ->
  (exists e s1, Screen.import_sharp native (host w) = (Throw e, s1) /\
                response = failure ("Failed to capture screenshot: " ++ e)) \/
  (exists s1 e s2,
      Screen.import_sharp native (host w) = (Ok tt, s1) /\
      Screen.workwindow_capture native (Screen.regionOf options) s1
        = (Throw e, s2) /\
      response = failure ("Failed to capture screenshot: " ++ e)).
Proof.
  unfold Screen.getScreenshot. run_step.
  destruct (Screen.import_sharp native (host w)) as [[[]|e] s1] eqn:Himport;
    cbn [host].
  - destruct (Screen.workwindow_capture native (Screen.regionOf options) s1)
      as [[cap|e] s2] eqn:Hcap; cbn [host].
    + destruct (Screen.sharp_toBuffer native _ s2) as [[out|e] s3];
        intros Hrun Hfail; injection Hrun as <- _; discriminate Hfail.
    + intros Hrun _. injection Hrun as <- _. right.
      exists s1, e, s2. repeat split; reflexivity || assumption.
  - intros Hrun _. injection Hrun as <- _. left.
    exists e, s1. split; reflexivity || assumption.
Qed.

(** The fallback branch, for a capture of the whole screen. *)
Lemma getScreenshot_fallback (options : option ScreenshotOptions)
    (w : World S) (cap : Capture) (e : string) (s1 s2 s3 : S) :
  Screen.regionOf options = None ->
  Screen.import_sharp native (host w) = (Ok tt, s1) ->
  Screen.workwindow_capture native None s1 = (Ok cap, s2) ->
  Screen.sharp_toBuffer native
    (Screen.sharpJob (Screen.mergeOptions options) (captureData cap)
       (captureWidth cap) (captureHeight cap)) s2 = (Throw e, s3) ->
  exists w',
    Screen.getScreenshot native options w
    = (Ok (Screen.screenshotResponse "Screenshot captured with basic processing"
             (base64 (captureData cap))
             (Screen.mimeTypeOf (Screen.mergeOptions options))
             (Screen.dims
                (Screen.scaledWidth (captureWidth cap) (captureHeight cap))
                (Screen.scaledHeight (captureWidth cap) (captureHeight cap)))),
       w').
Proof.
  intros Hregion Himport Hcap Hsharp.
  unfold Screen.getScreenshot. run_step.
  rewrite Himport. cbn [host]. rewrite Hregion, Hcap. cbn [host].
  rewrite Hsharp. rewrite (screenshotData_full options _ Hregion).
  eexists. reflexivity.
Qed.

End Screenshot.

(** C4 (amended).  For a capture of the whole screen, when the image
    library loads, the capture succeeds and the pipeline raises, the
    envelope has [success: true]; its [screenshot] is the base64 text of the
    captured buffer (not empty unless that buffer is); and for a capture of
    [W] x [H] pixels its [data] are [W] and [H], each multiplied in double
    precision by one common factor [f] and rounded to the nearest integer.
    The factor is 1 when both sides are at most 1280 (the sides are then
    reported as they are); otherwise it is the smaller of the quotients
    [1280 / W] and [1280 / H] in double precision, which is the factor
    that brings the longer side to 1280 up to one rounding.  Both reported
    sides are at most 1280, and each is within half a pixel (and 2^-40) of
    the exactly scaled side.  An envelope with [success: false] is produced
    only when loading the image library or the capture throws. *)
Theorem C4_fallback_is_a_success {S : Type} (native : Screen.Native S)
    (options : option ScreenshotOptions) (w : World S) :
  (forall (cap : Capture) (e : string) (s1 s2 s3 : S),
      Screen.regionOf options = None ->
      Screen.import_sharp native (host w) = (Ok tt, s1) ->
      Screen.workwindow_capture native None s1 = (Ok cap, s2) ->
      Screen.sharp_toBuffer native
        (Screen.sharpJob (Screen.mergeOptions options) (captureData cap)
           (captureWidth cap) (captureHeight cap)) s2 = (Throw e, s3) ->
      exists response w',
        Screen.getScreenshot native options w = (Ok response, w') /\
        success response = true /\
        screenshot response = Some (base64 (captureData cap)) /\
        (captureData cap <> [] -> base64 (captureData cap) <> EmptyString) /\
        (forall W H : Z,
            0 < W < 2 ^ 53 -> 0 < H < 2 ^ 53 ->
            captureWidth cap = ofZ W -> captureHeight cap = ofZ H ->
            exists (f : Q) (width height : Z),
              data response
                = Some [ ("width", VNum (ofZ width));
                         ("height", VNum (ofZ height)) ] /\
              Screen.scaleFactor (ofZ W) (ofZ H) = Fin f /\
              ofZ width = round (mul (ofZ W) (Fin f)) /\
              ofZ height = round (mul (ofZ H) (Fin f)) /\
              (W <= 1280 -> H <= 1280 -> f = 1%Q /\ width = W /\ height = H) /\
              (fitFactor W H * (1 - epsilon) <= f)%Q /\
              (f <= fitFactor W H * (1 + epsilon))%Q /\
              width <= 1280 /\ height <= 1280 /\
              (inject_Z W * fitFactor W H - ((1 # 2) + tolerance)
               <= inject_Z width)%Q /\
              (inject_Z width
               <= inject_Z W * fitFactor W H + ((1 # 2) + tolerance))%Q /\
              (inject_Z H * fitFactor W H - ((1 # 2) + tolerance)
               <= inject_Z height)%Q /\
              (inject_Z height
               <= inject_Z H * fitFactor W H + ((1 # 2) + tolerance))%Q)) /\
  (exists response w',
      Screen.getScreenshot native options w = (Ok response, w') /\
      (success response = false ->
       (exists e s1, Screen.import_sharp native (host w) = (Throw e, s1)) \/
       (exists s1 e s2,
           Screen.import_sharp native (host w) = (Ok tt, s1) /\
           Screen.workwindow_capture native (Screen.regionOf options) s1
             = (Throw e, s2)))).
Proof.
  split.
  - intros cap e s1 s2 s3 Hregion Himport Hcap Hsharp.
    destruct (getScreenshot_fallback native options w cap e s1 s2 s3
                Hregion Himport Hcap Hsharp) as [w' Hrun].
    eexists. exists w'. split; [exact Hrun|].
    split; [reflexivity|]. split; [reflexivity|]. split.
    + intros Hne Hempty. apply StringFacts.base64_empty in Hempty.
      contradiction.
    + intros W H HW HH HcW HcH.
      destruct (scaled_dimensions W H HW HH)
        as (f & width & height & Hf & Hsw & Hsh & Hrw & Hrh & Hfits & Hrest).
      exists f, width, height.
      split.
      * cbn [data Screen.screenshotResponse]. rewrite HcW, HcH, Hsw, Hsh.
        reflexivity.
      * split; [exact Hf|]. split; [exact Hrw|]. split; [exact Hrh|].
        split; [exact Hfits | exact Hrest].
  - destruct (getScreenshot_completes native options w)
      as (response & w' & Hrun).
    exists response, w'. split; [exact Hrun|].
    intros Hfail.
    destruct (getScreenshot_failure_origin native options w w' response
                Hrun Hfail)
      as [(e & s1 & Himport & _) | (s1 & e & s2 & Himport & Hcap & _)].
    + left. eauto.
    + right. eauto.
Qed.

(** A capture of 19968 x 117 pixels.  The exactly scaled height is 7.5;
    the quotient 1280 / 19968 is rounded down in double precision, the
    product falls short of 7.5, and the height reported is 7. *)
Example fallback_rounds_in_double_precision :
  (inject_Z 117 * fitFactor 19968 117 == 15 # 2)%Q /\
  Screen.scaledWidth (ofZ 19968) (ofZ 117) = ofZ 1280 /\
  Screen.scaledHeight (ofZ 19968) (ofZ 117) = ofZ 7.
Proof. split; [reflexivity|]. split; vm_compute; reflexivity. Qed.

(** On the tests' desktop with a pipeline that raises, the 1920x1080
    capture is reported as 1280x720. *)
Lemma C4_fallback_is_a_success_witness :
  exists response w',
    Screen.getScreenshot
      (Scripted.native (withSharp (Throw "Input image exceeds pixel limit")
                          Scripted.testDesktop))
      None (initial tt) = (Ok response, w') /\
    success response = true /\
    screenshot response = Some "ZnVsbA==" /\
    data response = Some (Screen.dims (ofZ 1280) (ofZ 720)).
Proof.
  destruct (C4_fallback_is_a_success
              (Scripted.native (withSharp (Throw "Input image exceeds pixel limit")
                                  Scripted.testDesktop))
              None (initial tt)) as [Hfallback _].
  destruct (Hfallback {| captureData := Scripted.pixels;
                         captureWidth := ofZ 1920;
                         captureHeight := ofZ 1080 |}
              "Input image exceeds pixel limit" tt tt tt
              eq_refl eq_refl eq_refl eq_refl)
    as (response & w' & Hrun & Hok & Hshot & _ & Hdims).
  exists response, w'. split; [exact Hrun|]. split; [exact Hok|].
  split; [exact Hshot|].
  destruct (Hdims 1920 1080 ltac:(lia) ltac:(lia) eq_refl eq_refl)
    as (f & width & height & Hdata & _).
  injection Hrun as <- _. reflexivity.
Defined.

Section ReportedSize.
Context {S : Type} (native : Screen.Native S) {cm : CaseMapping}.

(** A successful capture of a region reports the extent asked for,
    whichever branch produced the envelope. *)
Lemma getScreenshot_region_size (options : option ScreenshotOptions)
    (r : Rect.t) (w w' : World S) (response : WindowsControlResponse) :
  Screen.regionOf options = Some r ->
  Screen.getScreenshot native options w = (Ok response, w') ->
  success response = true ->
  data response = Some [ ("width", VNum (Rect.width r));
                         ("height", VNum (Rect.height r)) ].
Proof.
  intros Hregion. unfold Screen.getScreenshot. run_step.
  destruct (Screen.import_sharp native (host w)) as [[[]|e] s1]; cbn [host].
  - destruct (Screen.workwindow_capture native (Screen.regionOf options) s1)
      as [[cap|e] s2]; cbn [host].
    + destruct (Screen.sharp_toBuffer native _ s2) as [[out|e] s3];
        intros Hrun _; injection Hrun as <- _;
        cbn [data Screen.screenshotResponse];
        now rewrite (screenshotData_region options _ r Hregion).
    + intros Hrun Hok. injection Hrun as <- _. discriminate Hok.
  - intros Hrun Hok. injection Hrun as <- _. discriminate Hok.
Qed.

(** A capture of the whole screen that the pipeline processes reports the
    capture's own width and height, rounded. *)
Lemma getScreenshot_full_size (options : option ScreenshotOptions)
    (w : World S) (cap : Capture) (out : list byte) (s1 s2 s3 : S) :
  Screen.regionOf options = None ->
  Screen.import_sharp native (host w) = (Ok tt, s1) ->
  Screen.workwindow_capture native None s1 = (Ok cap, s2) ->
  Screen.sharp_toBuffer native
    (Screen.sharpJob (Screen.mergeOptions options) (captureData cap)
       (captureWidth cap) (captureHeight cap)) s2 = (Ok out, s3) ->
  exists w',
    Screen.getScreenshot native options w
    = (Ok (Screen.screenshotResponse "Screenshot captured successfully"
             (base64 out) (Screen.mimeTypeOf (Screen.mergeOptions options))
             (Screen.dims (round (captureWidth cap)) (round (captureHeight cap)))),
       w').
Proof.
  intros Hregion Himport Hcap Hsharp.
  unfold Screen.getScreenshot. run_step.
  rewrite Himport. cbn [host]. rewrite Hregion, Hcap. cbn [host].
  rewrite Hsharp. rewrite (screenshotData_full options _ Hregion).
  eexists. reflexivity.
Qed.

End ReportedSize.

(** C7, at the input where the code departs from it: the whole screen of
    the tests' desktop, 1920x1080, with a pipeline that works.  The pipeline
    is asked for an image at most 1280 wide, yet [data] carries the size of
    the capture, 1920x1080; the fallback branch, taken on the same capture
    when the pipeline raises, reports 1280x720. *)
Theorem C7_full_screen_reports_capture_size :
  let run :=
    Screen.getScreenshot (Scripted.native Scripted.testDesktop) None (initial tt) in
  let degraded :=
    Screen.getScreenshot
      (Scripted.native (withSharp (Throw "pipeline failed") Scripted.testDesktop))
      None (initial tt) in
  (exists response job,
      fst run = Ok response /\
      success response = true /\
      message response = "Screenshot captured successfully" /\
      map isPipelineRun (calls (snd run)) = [None; None; Some job] /\
      initialWidth job = ofZ 1280 /\
      finalResize job = Some (Some (ofZ 1280), None, inside) /\
      data response = Some [ ("width", VNum (ofZ 1920));
                             ("height", VNum (ofZ 1080)) ]) /\
  (exists response,
      fst degraded = Ok response /\
      success response = true /\
      data response = Some [ ("width", VNum (ofZ 1280));
                             ("height", VNum (ofZ 720)) ]).
Proof.
  cbv zeta. split.
  - do 2 eexists. repeat split; reflexivity.
  - eexists. repeat split; reflexivity.
Qed.

(* ===================================================================== *)
(** * The envelope as the only channel for errors                         *)
(* ===================================================================== *)

Section Discipline.
Context {S : Type}.










End Discipline.


Section NativeDiscipline.
Context {S : Type} (native : Screen.Native S) {fmt : NumberFormat}
        {cm : CaseMapping}.





End NativeDiscipline.

Section Accounting.
Context {S : Type} {answers : Call -> WindowsControlResponse -> Prop}
        {diagnostic : WindowsControlResponse -> Prop}.



Lemma sound_disciplined (m : M (World S) WindowsControlResponse) :
  sound answers diagnostic m -> disciplined m.
Proof.
  intros Hs w. destruct (Hs w) as (errs & cs & Hlog & Hres).
  exists errs, cs. split; [assumption|].
  destruct (fst (m w)); [exact I | assumption].
Qed.







End Accounting.

Section Yields.
Context {S : Type} {answers : Call -> WindowsControlResponse -> Prop}
        {diagnostic : WindowsControlResponse -> Prop}.







End Yields.


Section ScreenAccounting.
Context {S : Type} (native : Screen.Native S) {fmt : NumberFormat}
        {cm : CaseMapping}.





End ScreenAccounting.

Section MouseAccounting.
Context {S : Type} (provider : Mouse.AutomationProvider S)
        (env : Mouse.ProcessEnv) {fmt : NumberFormat}.








End MouseAccounting.





(* ===================================================================== *)
(** * Mouse tools: what is refused and what is forwarded                  *)
(* ===================================================================== *)

Section MouseEdges.
Context {S : Type} (provider : Mouse.AutomationProvider S)
        (env : Mouse.ProcessEnv) {fmt : NumberFormat}.

(** A position that is in range and has no NaN passes validation, whatever
    the screen size the provider reports. *)
Lemma validateMousePosition_accepts (p : Pos.t) (w : World S) :
  hasNaN p = false -> outOfRange p = false ->
  exists w',
    Mouse.validateMousePosition provider env p w = (Ok p, w') /\
    exists extra,
      calls w' = (calls w ++ extra)%list /\
      existsb Mouse.isMouseCall extra = false.
Proof.
  unfold hasNaN, outOfRange, Mouse.validateMousePosition. intros Hnan Hout.
  rewrite Hnan.
  cbv beta iota zeta delta [throwIf Eff.bind Eff.ret Eff.tryCatch].
  rewrite Hout.
  destruct (checkScreenBounds_quiet provider p w) as (w1 & -> & extra & Hc & Hm).
  exists w1. split; [reflexivity|]. exists extra. now split.
Qed.

Lemma validateMouseButton_rejects (button : string) (w : World S) :
  validButton button = false ->
  exists e w',
    Mouse.validateMouseButton button w = (Throw e, w') /\
    calls w' = calls w /\
    e = "Invalid mouse button: " ++ button ++
        (if truthyStr button
         then ". Must be 'left', 'right', or 'middle'" else EmptyString).
Proof.
  unfold validButton, Mouse.validateMouseButton. intros Hbad.
  destruct (truthyStr button) eqn:Ht; run_step; cbn [negb].
  - rewrite Hbad. cbn [negb]. do 2 eexists. repeat split; reflexivity.
  - do 2 eexists. split; [reflexivity|]. split; [reflexivity|].
    unfold truthyStr in Ht. apply negb_false_iff in Ht.
    apply String.eqb_eq in Ht. subst button. reflexivity.
Qed.

End MouseEdges.

(** X1.  [scrollMouse] refuses NaN and every amount whose absolute value
    exceeds 1000 without calling the mouse; any other amount is handed to
    [provider.mouse.scrollMouse] unchanged, once, and the backend's answer is
    returned as it is (a throw becomes the failure envelope). *)
Theorem scrollMouse_limit {S : Type} (provider : Mouse.AutomationProvider S)
    {fmt : NumberFormat} (amount : num) (w : World S) :
  (isNaN amount = true \/ gt (JS.abs amount) (ofZ 1000) = true ->
   failsWithoutMouse w (Mouse.scrollMouse provider amount w)) /\
  (isNaN amount = false -> gt (JS.abs amount) (ofZ 1000) = false ->
   forall m, Mouse.mouse provider = Some m ->
     fst (Mouse.scrollMouse provider amount w)
       = answerOr "Failed to scroll mouse: "
           (fst (Mouse.mouse_scrollMouse m amount (host w))) /\
     host (snd (Mouse.scrollMouse provider amount w))
       = snd (Mouse.mouse_scrollMouse m amount (host w)) /\
     calls (snd (Mouse.scrollMouse provider amount w))
       = (calls w ++ [ProviderScrollMouse amount])%list).
Proof.
  split.
  - intros Hbad. unfold failsWithoutMouse, Mouse.scrollMouse,
      Mouse.scrollTooLarge.
    destruct (isNaN amount) eqn:Hnan.
    + run_step. do 2 eexists. split; [reflexivity|]. split; [reflexivity|].
      exists []. rewrite app_nil_r. split; reflexivity.
    + destruct Hbad as [Hbad|Hbad]; [discriminate|].
      run_step. rewrite Hbad.
      do 2 eexists. split; [reflexivity|]. split; [reflexivity|].
      exists []. rewrite app_nil_r. split; reflexivity.
  - intros Hnan Hsmall m Hm.
    unfold Mouse.scrollMouse, Mouse.scrollTooLarge, Mouse.requireMouse.
    rewrite Hnan, Hsmall, Hm. run_step.
    destruct (Mouse.mouse_scrollMouse m amount (host w)) as [[r|e] s1];
      repeat split; reflexivity.
Qed.

(** Scrolling by 1001 is refused; by -1000 is forwarded. *)
Lemma scrollMouse_limit_witness :
  failsWithoutMouse (initial tt)
    (Mouse.scrollMouse Scripted.provider (ofZ 1001) (initial tt)) /\
  calls (snd (Mouse.scrollMouse Scripted.provider (ofZ (-1000)) (initial tt)))
    = [ProviderScrollMouse (ofZ (-1000))].
Proof.
  split.
  - apply (scrollMouse_limit Scripted.provider (ofZ 1001) (initial tt)).
    right. reflexivity.
  - destruct (scrollMouse_limit Scripted.provider (ofZ (-1000)) (initial tt))
      as [_ Hforward].
    destruct (Hforward eq_refl eq_refl _ eq_refl) as (_ & _ & Hcalls).
    exact Hcalls.
Defined.

(** X2.  A button other than [left], [right] and [middle] is refused by
    [clickMouse], [dragMouse] and [clickAt] without any call to the mouse;
    [clickMouse] echoes the refused value in its message. *)
Theorem invalid_button_refused {S : Type}
    (provider : Mouse.AutomationProvider S) (env : Mouse.ProcessEnv)
    {fmt : NumberFormat} (button : string) (from to : Pos.t) (x y : num)
    (w : World S) :
  validButton button = false ->
  (exists w',
      Mouse.clickMouse provider button w
        = (Ok (failure ("Failed to click mouse: Invalid mouse button: " ++
                        button ++
                        (if truthyStr button
                         then ". Must be 'left', 'right', or 'middle'"
                         else EmptyString))), w') /\
      calls w' = calls w) /\
  failsWithoutMouse w (Mouse.dragMouse provider env from to button w) /\
  failsWithoutMouse w (Mouse.clickAt provider env x y button w).
Proof.
  intros Hbad. split; [|split].
  - unfold Mouse.clickMouse. run_step.
    destruct (validateMouseButton_rejects button w Hbad)
      as (e & w1 & -> & Hcalls & ->).
    exists w1. split; [reflexivity | assumption].
  - unfold failsWithoutMouse, Mouse.dragMouse. run_step.
    destruct (validateMousePosition_no_mouse provider env from w)
      as (r1 & w1 & -> & extra1 & Hc1 & Hq1).
    destruct r1 as [p1|e1].
    + destruct (validateMousePosition_no_mouse provider env to w1)
        as (r2 & w2 & -> & extra2 & Hc2 & Hq2).
      destruct r2 as [p2|e2].
      * destruct (validateMouseButton_rejects button w2 Hbad)
          as (e & w3 & -> & Hc3 & _).
        do 2 eexists. split; [reflexivity|]. split; [reflexivity|].
        exists (extra1 ++ extra2)%list. split.
        -- cbn [snd calls]. rewrite Hc3, Hc2, Hc1. now rewrite app_assoc.
        -- rewrite existsb_app, Hq1, Hq2. reflexivity.
      * do 2 eexists. split; [reflexivity|]. split; [reflexivity|].
        exists (extra1 ++ extra2)%list. split.
        -- rewrite Hc2, Hc1. now rewrite app_assoc.
        -- rewrite existsb_app, Hq1, Hq2. reflexivity.
    + do 2 eexists. split; [reflexivity|]. split; [reflexivity|].
      exists extra1. now split.
  - unfold failsWithoutMouse, Mouse.clickAt.
    destruct (isNaN x || isNaN y).
    + run_step. do 2 eexists. split; [reflexivity|]. split; [reflexivity|].
      exists []. rewrite app_nil_r. split; reflexivity.
    + run_step.
      destruct (validateMousePosition_no_mouse provider env
                  {| Pos.x := x; Pos.y := y |} w)
        as (r1 & w1 & -> & extra1 & Hc1 & Hq1).
      destruct r1 as [p1|e1].
      * destruct (validateMouseButton_rejects button w1 Hbad)
          as (e & w3 & -> & Hc3 & _).
        do 2 eexists. split; [reflexivity|]. split; [reflexivity|].
        exists extra1. split; [|assumption]. cbn [snd calls]. congruence.
      * do 2 eexists. split; [reflexivity|]. split; [reflexivity|].
        exists extra1. now split.
Qed.

(** The button ["LEFT"] is not ["left"]. *)
Lemma invalid_button_refused_witness :
  exists w',
    Mouse.clickMouse Scripted.provider "LEFT" (initial tt)
    = (Ok (failure ("Failed to click mouse: Invalid mouse button: LEFT" ++
                    ". Must be 'left', 'right', or 'middle'")), w').
Proof.
  destruct (invalid_button_refused Scripted.provider Scripted.production
              "LEFT" (Dispatcher.position (ofZ 0) (ofZ 0))
              (Dispatcher.position (ofZ 1) (ofZ 1)) (ofZ 0) (ofZ 0)
              (initial tt) eq_refl) as [(w' & Hrun & _) _].
  exists w'. exact Hrun.
Defined.

(** X3.  The comparison with the screen size never refuses a position: the
    error it throws is caught in the same block.  So every position without
    NaN and within [-10000, 10000] is handed to [provider.mouse.moveMouse],
    whatever size the screen is reported to have. *)
Theorem moveMouse_ignores_screen_size {S : Type}
    (provider : Mouse.AutomationProvider S) (env : Mouse.ProcessEnv)
    {fmt : NumberFormat} (p : Pos.t) (w : World S) (m : Mouse.MouseAutomation S) :
  hasNaN p = false -> outOfRange p = false ->
  Mouse.mouse provider = Some m ->
  exists w1,
    Mouse.validateMousePosition provider env p w = (Ok p, w1) /\
    fst (Mouse.moveMouse provider env p w)
      = answerOr "Failed to move mouse: "
          (fst (Mouse.mouse_moveMouse m p (host w1))) /\
    calls (snd (Mouse.moveMouse provider env p w))
      = (calls w1 ++ [ProviderMoveMouse p])%list.
Proof.
  intros Hnan Hout Hm.
  destruct (validateMousePosition_accepts provider env p w Hnan Hout)
    as (w1 & Hval & _).
  exists w1. split; [exact Hval|].
  unfold Mouse.moveMouse, Mouse.requireMouse. run_step. rewrite Hval, Hm.
  destruct (Mouse.mouse_moveMouse m p (host w1)) as [[r|e] s1];
    split; reflexivity.
Qed.

(** (5000, 0) is off the 1920x1080 screen of the scripted provider and is
    forwarded all the same. *)
Lemma moveMouse_ignores_screen_size_witness :
  calls (snd (Mouse.moveMouse Scripted.provider Scripted.production
                (Dispatcher.position (ofZ 5000) (ofZ 0)) (initial tt)))
  = [ProviderGetScreenSize;
     ProviderMoveMouse (Dispatcher.position (ofZ 5000) (ofZ 0))].
Proof.
  destruct (moveMouse_ignores_screen_size Scripted.provider Scripted.production
              (Dispatcher.position (ofZ 5000) (ofZ 0)) (initial tt) _
              eq_refl eq_refl eq_refl) as (w1 & Hval & _ & Hcalls).
  rewrite Hcalls. injection Hval as <-. reflexivity.
Defined.

(** X4.  Without [provider.mouse] every mouse tool answers with a failure
    envelope that has no [data]; nothing escapes. *)
Theorem mouse_tools_without_mouse {S : Type}
    (provider : Mouse.AutomationProvider S) (env : Mouse.ProcessEnv)
    {fmt : NumberFormat} (op : Capability.MouseOperation) (w : World S) :
  Mouse.mouse provider = None ->
  exists response w',
    Capability.performMouse provider env op w = (Ok response, w') /\
    success response = false /\ data response = None.
Proof.
  intros Hnone.
  assert (Hreq : forall w0 : World S,
             exists w1, Mouse.requireMouse provider w0
                        = (Throw "Mouse provider not available", w1)).
  { intros w0. unfold Mouse.requireMouse. rewrite Hnone. run_step.
    eexists. reflexivity. }
  destruct op; cbn [Capability.performMouse].
  - unfold Mouse.moveMouse. run_step.
    destruct (Mouse.validateMousePosition provider env position w)
      as [[p|e] w1].
    + destruct (Hreq w1) as [w2 ->]. do 2 eexists. repeat split; reflexivity.
    + do 2 eexists. repeat split; reflexivity.
  - unfold Mouse.clickMouse. run_step.
    destruct (Mouse.validateMouseButton button w) as [[b|e] w1].
    + destruct (Hreq w1) as [w2 ->]. do 2 eexists. repeat split; reflexivity.
    + do 2 eexists. repeat split; reflexivity.
  - unfold Mouse.doubleClick. run_step. destruct position as [p|].
    + destruct (Mouse.validateMousePosition provider env p w) as [[p'|e] w1].
      * destruct (Hreq w1) as [w2 ->]. do 2 eexists. repeat split; reflexivity.
      * do 2 eexists. repeat split; reflexivity.
    + destruct (Hreq w) as [w2 ->]. do 2 eexists. repeat split; reflexivity.
  - unfold Mouse.getCursorPosition. run_step.
    destruct (Hreq w) as [w2 ->]. do 2 eexists. repeat split; reflexivity.
  - unfold Mouse.scrollMouse. run_step.
    destruct (isNaN amount); [do 2 eexists; repeat split; reflexivity|].
    destruct (Mouse.scrollTooLarge amount);
      [do 2 eexists; repeat split; reflexivity|].
    destruct (Hreq w) as [w2 ->]. do 2 eexists. repeat split; reflexivity.
  - unfold Mouse.dragMouse. run_step.
    destruct (Mouse.validateMousePosition provider env from w) as [[p|e] w1];
      [|do 2 eexists; repeat split; reflexivity].
    destruct (Mouse.validateMousePosition provider env to w1) as [[p'|e] w2];
      [|do 2 eexists; repeat split; reflexivity].
    destruct (Mouse.validateMouseButton button w2) as [[b|e] w3];
      [|do 2 eexists; repeat split; reflexivity].
    destruct (Hreq w3) as [w4 ->]. do 2 eexists. repeat split; reflexivity.
  - unfold Mouse.clickAt.
    destruct (isNaN x || isNaN y);
      [do 2 eexists; repeat split; reflexivity|].
    run_step.
    destruct (Mouse.validateMousePosition provider env _ w) as [[p|e] w1];
      [|do 2 eexists; repeat split; reflexivity].
    destruct (Mouse.validateMouseButton button w1) as [[b|e] w3];
      [|do 2 eexists; repeat split; reflexivity].
    destruct (Hreq w3) as [w4 ->]. do 2 eexists. repeat split; reflexivity.
Qed.

Lemma mouse_tools_without_mouse_witness :
  exists response w',
    Mouse.getCursorPosition mouseless (initial tt) = (Ok response, w') /\
    success response = false /\ data response = None.
Proof.
  apply (mouse_tools_without_mouse mouseless Scripted.production
           Capability.OpGetCursorPosition (initial tt)).
  reflexivity.
Defined.

(* ===================================================================== *)
(** * The screen provider: metrics and displays                           *)
(* ===================================================================== *)

(** X5.  [getScreenSize] succeeds exactly when both metrics are different
    from zero, and then reports them as read; a zero in either one gives
    the failure envelope although no call threw. *)
Theorem getScreenSize_zero_dimension {S : Type} (native : Screen.Native S)
    (w : World S) (screenWidth screenHeight : Z) (s1 s2 : S) :
  Screen.user32_GetSystemMetrics native Screen.SM_CXSCREEN (host w)
    = (Ok screenWidth, s1) ->
  Screen.user32_GetSystemMetrics native Screen.SM_CYSCREEN s1
    = (Ok screenHeight, s2) ->
  exists response w',
    Screen.getScreenSize native w = (Ok response, w') /\
    host w' = s2 /\
    (screenWidth = 0 \/ screenHeight = 0 ->
     response = failure ("Failed to get screen size using koffi: " ++
                         "GetSystemMetrics returned zero for screen dimensions.")) /\
    (screenWidth <> 0 -> screenHeight <> 0 ->
     success response = true /\
     data response = Some [ ("width", VNum (ofZ screenWidth));
                            ("height", VNum (ofZ screenHeight)) ]).
Proof.
  intros Hw Hh. unfold Screen.getScreenSize. run_step.
  rewrite Hw. cbn [host]. rewrite Hh. cbn [host].
  destruct (Z.eqb_spec screenWidth 0) as [Ew|Ew];
    destruct (Z.eqb_spec screenHeight 0) as [Eh|Eh]; cbn [orb];
    do 2 eexists; (split; [reflexivity|]); (split; [reflexivity|]);
    split; try (intros _; reflexivity); try (intros; contradiction);
    try (intros [?|?]; contradiction); intros; split; reflexivity.
Qed.

(** On the tests' desktop with a height of zero. *)
Lemma getScreenSize_zero_dimension_witness :
  fst (Screen.getScreenSize
         (Scripted.native
            (withMetric (fun i => Ok (if i =? 0 then 1920 else 0))
               Scripted.testDesktop)) (initial tt))
  = Ok (failure ("Failed to get screen size using koffi: " ++
                 "GetSystemMetrics returned zero for screen dimensions.")).
Proof.
  destruct (getScreenSize_zero_dimension
              (Scripted.native
                 (withMetric (fun i => Ok (if i =? 0 then 1920 else 0))
                    Scripted.testDesktop))
              (initial tt) 1920 0 tt tt eq_refl eq_refl)
    as (response & w' & Hrun & _ & Hzero & _).
  rewrite Hrun. cbn [fst]. f_equal. apply Hzero. right. reflexivity.
Defined.

(** X6.  When user32.dll cannot be loaded the provider is still built, and
    both metric readers then fail on every call, without touching the
    backend: [getScreenSize] with the zero-dimension message and
    [getAllDisplays] with the zero-monitors message. *)
Theorem degraded_provider_fails_metrics {S : Type} (native : Screen.Native S)
    (loadError : string) (w : World S) :
  (exists w',
      Screen.getScreenSize (constructor (Throw loadError) native) w
        = (Ok (failure ("Failed to get screen size using koffi: " ++
                        "GetSystemMetrics returned zero for screen dimensions.")),
           w') /\
      host w' = host w) /\
  (exists w',
      Screen.getAllDisplays (constructor (Throw loadError) native) w
        = (Ok (failure ("Failed to get display information using koffi: " ++
                        "GetSystemMetrics reported 0 monitors.")), w') /\
      host w' = host w).
Proof.
  split; eexists; split; reflexivity.
Qed.

Lemma estimateMonitors_length (screenWidth screenHeight monitorCount
    virtualWidth virtualHeight : Z) :
  Z.of_nat (List.length (Screen.estimateMonitors screenWidth screenHeight
                           monitorCount virtualWidth virtualHeight))
  = expectedMonitors monitorCount (virtualWidth - screenWidth).
Proof.
  unfold Screen.estimateMonitors, expectedMonitors.
  cbn [List.length].
  destruct (Z.gtb_spec monitorCount 1) as [Hmany|Hfew];
    destruct (Z.leb_spec monitorCount 1) as [Hle|Hgt]; try lia.
  - rewrite length_app, length_map, length_seq.
    destruct (Z.gtb_spec (virtualWidth - screenWidth) 0) as [Hwide|Hnarrow];
      destruct (Z.ltb_spec 0 (virtualWidth - screenWidth)) as [Hlt|Hge];
      try lia; cbn [List.length]; lia.
  - reflexivity.
Qed.

(** X7.  [getAllDisplays] fails only for a monitor count of zero (a zero
    width or height is let through).  Otherwise [monitorCount] is the
    count read, and [monitors] has one entry for a count of one or less,
    [monitorCount] entries when the virtual screen is wider than the
    primary one, and one entry fewer than [monitorCount] when it is not. *)
Theorem getAllDisplays_monitor_list {S : Type} (native : Screen.Native S)
    (metric : Z -> Z) (w : World S) :
  (forall i s, Screen.user32_GetSystemMetrics native i s = (Ok (metric i), s)) ->
  exists response w',
    Screen.getAllDisplays native w = (Ok response, w') /\
    (metric Screen.SM_CMONITORS = 0 ->
     response = failure ("Failed to get display information using koffi: " ++
                         "GetSystemMetrics reported 0 monitors.")) /\
    (metric Screen.SM_CMONITORS <> 0 ->
     success response = true /\
     field response "monitorCount" = VNum (ofZ (metric Screen.SM_CMONITORS)) /\
     exists monitors,
       field response "monitors" = VArr monitors /\
       Z.of_nat (List.length monitors)
         = expectedMonitors (metric Screen.SM_CMONITORS)
             (metric Screen.SM_CXVIRTUALSCREEN - metric Screen.SM_CXSCREEN)).
Proof.
  intros Hmetric. unfold Screen.getAllDisplays. run_step.
  repeat (rewrite Hmetric; cbn [host]).
  destruct (Z.eqb_spec (metric Screen.SM_CMONITORS) 0) as [Ezero|Esome].
  - replace ((_ || _ || _ || _ || _) && true) with true
      by (rewrite !orb_true_r; reflexivity).
    do 2 eexists. split; [reflexivity|].
    split; [intros _; reflexivity | intros; contradiction].
  - rewrite andb_false_r.
    do 2 eexists. split; [reflexivity|].
    split; [intros; contradiction | intros _].
    split; [reflexivity|]. split; [reflexivity|].
    eexists. split; [reflexivity|]. apply estimateMonitors_length.
Qed.

(** Three stacked monitors are listed as two. *)
Lemma getAllDisplays_monitor_list_witness :
  exists response monitors,
    fst (Screen.getAllDisplays (Scripted.native stackedDesktop) (initial tt))
      = Ok response /\
    field response "monitorCount" = VNum (ofZ 3) /\
    field response "monitors" = VArr monitors /\
    Z.of_nat (List.length monitors) = 2.
Proof.
  destruct (getAllDisplays_monitor_list (Scripted.native stackedDesktop)
              stackedMetric (initial tt) (fun i s => eq_refl))
    as (response & w' & Hrun & _ & Hsome).
  destruct Hsome as (_ & Hcount & monitors & Hlist & Hlen);
    [discriminate|].
  exists response, monitors. rewrite Hrun.
  split; [reflexivity|]. split; [exact Hcount|]. split; [exact Hlist|].
  exact Hlen.
Defined.

(* ===================================================================== *)
(** * The screen provider: which window is resolved                       *)
(* ===================================================================== *)

Lemma isEmpty_false {A} (l : list A) : Screen.isEmpty l = false -> l <> [].
Proof. destruct l; [discriminate | discriminate]. Qed.

Lemma isEmpty_true {A} (l : list A) : Screen.isEmpty l = true <-> l = [].
Proof. destruct l; split; intros H; reflexivity || discriminate H. Qed.

Lemma matchingWindows_matches {cm : CaseMapping} (targetTitle : option string)
    (windowsWithTitle : list WindowInfo) (win : WindowInfo) :
  In win (Screen.matchingWindows targetTitle windowsWithTitle) ->
  In win windowsWithTitle /\
  exists t, targetTitle = Some t /\ Screen.matchesTitle t win = true.
Proof.
  unfold Screen.matchingWindows. destruct targetTitle as [t|]; [|intros []].
  destruct (truthyStr t); [|intros []].
  intros Hin. apply filter_In in Hin as [Hin Hmatch].
  split; [assumption|]. exists t. now split.
Qed.

(** What [selectCandidates] hands to the loop. *)
Lemma selectCandidates_some {cm : CaseMapping} (targetTitle : option string)
    (allWindows candidates : list WindowInfo) :
  Screen.selectCandidates targetTitle allWindows = Some candidates ->
  candidates <> [] /\
  incl candidates (filter Screen.hasTitle allWindows) /\
  (Screen.targetRequired targetTitle = true ->
   candidates
     = Screen.matchingWindows targetTitle (filter Screen.hasTitle allWindows)) /\
  (Screen.matchingWindows targetTitle (filter Screen.hasTitle allWindows) = [] ->
   (exists p, In p (filter Screen.hasTitle allWindows) /\
              Screen.isPreferred p = true) ->
   candidates = filter Screen.isPreferred (filter Screen.hasTitle allWindows)).
Proof.
  unfold Screen.selectCandidates.
  destruct (Screen.isEmpty allWindows); [discriminate|].
  destruct (Screen.isEmpty (filter Screen.hasTitle allWindows)) eqn:Htitled;
    [discriminate|].
  destruct (Screen.isEmpty (Screen.matchingWindows _ _)) eqn:Hmatching.
  - destruct (Screen.targetRequired targetTitle); [discriminate|].
    destruct (Screen.isEmpty (filter Screen.isPreferred _)) eqn:Hpref;
      intros H; injection H as <-.
    + split; [now apply isEmpty_false|]. split; [apply incl_refl|].
      split; [discriminate|]. intros _ (p & Hin & Hp).
      apply isEmpty_true in Hpref.
      assert (Hin' : In p (filter Screen.isPreferred
                             (filter Screen.hasTitle allWindows)))
        by (apply filter_In; now split).
      rewrite Hpref in Hin'. destruct Hin'.
    + split; [now apply isEmpty_false|].
      split; [intros a Ha; now apply filter_In in Ha|].
      split; [discriminate|]. reflexivity.
  - intros H. injection H as <-.
    split; [now apply isEmpty_false|].
    split.
    + intros a Ha. now apply matchingWindows_matches in Ha.
    + split; [reflexivity|]. intros Hnil. rewrite Hnil in Hmatching.
      discriminate Hmatching.
Qed.

Lemma selectCandidates_none {cm : CaseMapping} (targetTitle : option string)
    (allWindows : list WindowInfo) :
  Screen.selectCandidates targetTitle allWindows = None <->
  filter Screen.hasTitle allWindows = [] \/
  (Screen.targetRequired targetTitle = true /\
   Screen.matchingWindows targetTitle (filter Screen.hasTitle allWindows) = []).
Proof.
  unfold Screen.selectCandidates.
  destruct allWindows as [|a rest] eqn:Hall; cbn [Screen.isEmpty].
  - split; [intros _; left; reflexivity | reflexivity].
  - rewrite <- Hall. clear Hall.
    destruct (Screen.isEmpty (filter Screen.hasTitle allWindows)) eqn:Htitled.
    + apply isEmpty_true in Htitled. split; [now left | reflexivity].
    + apply isEmpty_false in Htitled.
      destruct (Screen.isEmpty (Screen.matchingWindows _ _)) eqn:Hmatching.
      * apply isEmpty_true in Hmatching.
        destruct (Screen.targetRequired targetTitle).
        -- split; [intros _; right; now split | reflexivity].
        -- split; [discriminate|]. intros [H|[H _]]; [contradiction|discriminate].
      * apply isEmpty_false in Hmatching.
        split; [discriminate|]. intros [H|[_ H]]; contradiction.
Qed.

Section Scanning.
Context {S : Type} (native : Screen.Native S) {cm : CaseMapping}.

(** What the loop over the candidates returns and the calls it makes: the
    candidates before the one returned were read and rejected. *)
Lemma eachRejected_cons (c : WindowInfo) (read : list WindowInfo) (s : S) :
  viewRejected (fst (Screen.hardware_getView native (handle c) s)) ->
  eachRejected native read
    (snd (Screen.hardware_getView native (handle c) s)) ->
  eachRejected native (c :: read) s.
Proof.
  intros Hc Hread [|c' earlier] b later Hsplit.
  - injection Hsplit as <- _. exact Hc.
  - injection Hsplit as <- ->. cbn [viewsRead]. now apply (Hread earlier b later).
Qed.

Lemma scanCandidates_trace (candidates : list WindowInfo) (w : World S) :
  exists found w',
    Screen.scanCandidates native candidates w = (Ok found, w') /\
    match found with
    | Some (c, viewInfo) =>
        Screen.validView viewInfo = true /\
        exists before after,
          candidates = (before ++ c :: after)%list /\
          calls w' = (calls w ++ map viewCall (before ++ [c]))%list /\
          Screen.hardware_getView native (handle c)
            (viewsRead native before (host w)) = (Ok viewInfo, host w') /\
          eachRejected native before (host w)
    | None =>
        calls w' = (calls w ++ map viewCall candidates)%list /\
        host w' = viewsRead native candidates (host w) /\
        eachRejected native candidates (host w)
    end.
Proof.
  revert w. induction candidates as [|c rest IH]; intros w.
  - exists None, w. cbn. rewrite app_nil_r. split; [reflexivity|].
    split; [reflexivity|]. split; [reflexivity|].
    intros [|x earlier] b later Hsplit; discriminate Hsplit.
  - cbn [Screen.scanCandidates]. run_step.
    destruct (Screen.hardware_getView native (handle c) (host w))
      as [[viewInfo|e] s1] eqn:Hread.
    + destruct (Screen.validView viewInfo) eqn:Hvalid.
      * do 2 eexists. split; [reflexivity|].
        split; [assumption|]. exists [], rest. split; [reflexivity|].
        split; [reflexivity|]. split; [exact Hread|].
        intros [|x earlier] b later Hsplit; discriminate Hsplit.
      * match goal with
        | |- context [Screen.scanCandidates native rest ?w0] =>
            destruct (IH w0) as (found & w' & Hscan & Hfound)
        end.
        rewrite Hscan. exists found, w'. split; [reflexivity|].
        cbn [host] in Hfound.
        assert (Hrej : viewRejected
                         (fst (Screen.hardware_getView native (handle c)
                                 (host w))))
          by (rewrite Hread; exact Hvalid).
        assert (Hnext : snd (Screen.hardware_getView native (handle c) (host w))
                        = s1) by now rewrite Hread.
        destruct found as [[c' v']|].
        -- destruct Hfound
             as (Hvalid' & before & after & -> & Hcalls & Hhit & Hbefore).
           split; [assumption|]. exists (c :: before), after.
           split; [reflexivity|]. split.
           ++ rewrite Hcalls. cbn [calls map app]. now rewrite <- app_assoc.
           ++ cbn [viewsRead]. rewrite Hnext. split; [assumption|].
              apply eachRejected_cons; [assumption | now rewrite Hnext].
        -- destruct Hfound as (Hcalls & Hhost & Hall). split.
           ++ rewrite Hcalls. cbn [calls map]. now rewrite <- app_assoc.
           ++ cbn [viewsRead]. rewrite Hnext. split; [assumption|].
              apply eachRejected_cons; [assumption | now rewrite Hnext].
    + match goal with
      | |- context [Screen.scanCandidates native rest ?w0] =>
          destruct (IH w0) as (found & w' & Hscan & Hfound)
      end.
      rewrite Hscan. exists found, w'. split; [reflexivity|].
      cbn [host] in Hfound.
      assert (Hrej : viewRejected
                       (fst (Screen.hardware_getView native (handle c)
                               (host w))))
        by (rewrite Hread; exact I).
      assert (Hnext : snd (Screen.hardware_getView native (handle c) (host w))
                      = s1) by now rewrite Hread.
      destruct found as [[c' v']|].
      * destruct Hfound
          as (Hvalid' & before & after & -> & Hcalls & Hhit & Hbefore).
        split; [assumption|]. exists (c :: before), after.
        split; [reflexivity|]. split.
        -- rewrite Hcalls. cbn [calls map app]. now rewrite <- app_assoc.
        -- cbn [viewsRead]. rewrite Hnext. split; [assumption|].
           apply eachRejected_cons; [assumption | now rewrite Hnext].
      * destruct Hfound as (Hcalls & Hhost & Hall). split.
        -- rewrite Hcalls. cbn [calls map]. now rewrite <- app_assoc.
        -- cbn [viewsRead]. rewrite Hnext. split; [assumption|].
           apply eachRejected_cons; [assumption | now rewrite Hnext].
Qed.

(** What [findSuitableWindow] returns once the enumeration has answered. *)
Lemma findSuitableWindow_enumerated (targetTitle : option string)
    (w : World S) (allWindows : list WindowInfo) (s1 : S) :
  Screen.getAllWindows native (host w) = (Ok allWindows, s1) ->
  match Screen.selectCandidates targetTitle allWindows with
  | None =>
      Screen.findSuitableWindow native targetTitle w
      = (Ok None,
         {| host := s1; timers := timers w;
            calls := calls w ++ [GetAllWindows]; raised := raised w |})
  | Some candidates =>
      exists win viewInfo w',
        Screen.findSuitableWindow native targetTitle w
          = (Ok (Some (win, viewInfo)), w') /\
        In win candidates /\
        (Screen.validView viewInfo = true \/
         viewInfo = Screen.fallbackView /\ hd_error candidates = Some win)
  end.
Proof.
  intros Hall. unfold Screen.findSuitableWindow. run_step. rewrite Hall.
  destruct (Screen.selectCandidates targetTitle allWindows)
    as [candidates|] eqn:Hsel; [|reflexivity].
  apply selectCandidates_some in Hsel as (Hne & _).
  match goal with
  | |- context [Screen.scanCandidates native candidates ?w0] =>
      destruct (scanCandidates_trace candidates w0)
        as (found & w' & Hscan & Hfound)
  end.
  rewrite Hscan. destruct found as [[c v]|].
  - destruct Hfound as (Hvalid & before & after & Hsplit & _).
    exists c, v, w'. split; [reflexivity|]. split; [|now left].
    rewrite Hsplit. apply in_or_app. right. now left.
  - destruct candidates as [|first others]; [contradiction|].
    exists first, Screen.fallbackView, w'. split; [reflexivity|].
    split; [now left|]. right. split; reflexivity.
Qed.

End Scanning.

(** X8.  The loop over the candidates never throws, and it returns the
    first candidate whose view passes the test.  The views are read in the
    order of the list, each in the state the reads before it left behind;
    every candidate before the one returned had its view rejected when it
    was read (not valid, or not readable); the view returned is the one
    read for that candidate, in its turn, and it is valid; the calls made
    are the view reads of the candidates up to and including it, and
    nothing is read after it.  When nothing is returned every candidate was
    read and rejected. *)
Theorem scanCandidates_stops_at_first_valid {S : Type}
    (native : Screen.Native S) (candidates : list WindowInfo) (w : World S) :
  exists found w',
    Screen.scanCandidates native candidates w = (Ok found, w') /\
    match found with
    | Some (c, viewInfo) =>
        Screen.validView viewInfo = true /\
        exists before after,
          candidates = (before ++ c :: after)%list /\
          calls w' = (calls w ++ map viewCall (before ++ [c]))%list /\
          Screen.hardware_getView native (handle c)
            (viewsRead native before (host w)) = (Ok viewInfo, host w') /\
          eachRejected native before (host w)
    | None =>
        calls w' = (calls w ++ map viewCall candidates)%list /\
        host w' = viewsRead native candidates (host w) /\
        eachRejected native candidates (host w)
    end.
Proof.
  destruct (scanCandidates_trace native candidates w)
    as (found & w' & Hscan & Hfound).
  exists found, w'. split; assumption.
Qed.

(** X9.  A window returned by [findSuitableWindow] is one of the enumerated
    windows and has a title that is not blank; its rectangle passed the
    validity test or is the placeholder (0, 0, 800, 600); and when a title
    other than ["Unknown"] and the empty one was asked for, the window's
    title equals it, contains it, or contains it once both are
    lower-cased. *)
Theorem findSuitableWindow_result {S : Type} (native : Screen.Native S) {cm : CaseMapping}
    (targetTitle : option string) (w w' : World S)
    (allWindows : list WindowInfo) (s1 : S)
    (win : WindowInfo) (viewInfo : Rect.t) :
  Screen.getAllWindows native (host w) = (Ok allWindows, s1) ->
  Screen.findSuitableWindow native targetTitle w
    = (Ok (Some (win, viewInfo)), w') ->
  In win allWindows /\
  Screen.hasTitle win = true /\
  (Screen.validView viewInfo = true \/ viewInfo = Screen.fallbackView) /\
  (Screen.targetRequired targetTitle = true ->
   exists t, targetTitle = Some t /\
             (title win = t \/
              includes (title win) t = true \/
              includes (toLowerCase (title win)) (toLowerCase t) = true)).
Proof.
  intros Hall Hrun.
  pose proof (findSuitableWindow_enumerated native targetTitle w allWindows s1
                Hall) as Hfind.
  destruct (Screen.selectCandidates targetTitle allWindows)
    as [candidates|] eqn:Hsel.
  - destruct Hfind as (win' & v' & w'' & Hrun' & Hin & Hview).
    rewrite Hrun in Hrun'. injection Hrun' as <- <- <-.
    apply selectCandidates_some in Hsel as (_ & Hincl & Hreq & _).
    pose proof (Hincl _ Hin) as Htitled. apply filter_In in Htitled as [H1 H2].
    split; [assumption|]. split; [assumption|].
    split; [destruct Hview as [?|[? _]]; [now left | now right]|].
    intros Hrequired. rewrite (Hreq Hrequired) in Hin.
    apply matchingWindows_matches in Hin as (_ & t & -> & Hmatch).
    exists t. split; [reflexivity|].
    unfold Screen.matchesTitle in Hmatch.
    rewrite !orb_true_iff, String.eqb_eq in Hmatch. tauto.
  - rewrite Hfind in Hrun. discriminate Hrun.
Qed.

(** Asking the tests' desktop for ["test"]. *)
Lemma findSuitableWindow_result_witness :
  exists t,
    Some "test" = Some t /\
    ("Test Window" = t \/
     includes "Test Window" t = true \/
     includes (toLowerCase "Test Window") (toLowerCase t) = true).
Proof.
  destruct (findSuitableWindow_result (cm := Scripted.latin1)
              (Scripted.native Scripted.testDesktop)
              (Some "test") (initial tt)
              (snd (Screen.findSuitableWindow (cm := Scripted.latin1)
                      (Scripted.native Scripted.testDesktop) (Some "test")
                      (initial tt)))
              [ {| title := "Test Window"; className := "TestClass";
                   handle := ofZ 12345 |} ] tt
              {| title := "Test Window"; className := "TestClass";
                 handle := ofZ 12345 |}
              (Scripted.rect 100 200 800 600) eq_refl eq_refl)
    as (_ & _ & _ & Hmatch).
  apply Hmatch. reflexivity.
Defined.

(** X10.  Once the windows are enumerated, [findSuitableWindow] returns
    [null] in two cases only: no enumerated window has a title, or a title
    other than ["Unknown"] and the empty one was asked for and no titled
    window matches it.  It then has read no view at all. *)
Theorem findSuitableWindow_null {S : Type} (native : Screen.Native S) {cm : CaseMapping}
    (targetTitle : option string) (w : World S)
    (allWindows : list WindowInfo) (s1 : S) :
  Screen.getAllWindows native (host w) = (Ok allWindows, s1) ->
  (fst (Screen.findSuitableWindow native targetTitle w) = Ok None <->
   filter Screen.hasTitle allWindows = [] \/
   (Screen.targetRequired targetTitle = true /\
    Screen.matchingWindows targetTitle (filter Screen.hasTitle allWindows) = []))
  /\
  (fst (Screen.findSuitableWindow native targetTitle w) = Ok None ->
   calls (snd (Screen.findSuitableWindow native targetTitle w))
     = (calls w ++ [GetAllWindows])%list).
Proof.
  intros Hall.
  pose proof (findSuitableWindow_enumerated native targetTitle w allWindows s1
                Hall) as Hfind.
  rewrite <- selectCandidates_none.
  destruct (Screen.selectCandidates targetTitle allWindows)
    as [candidates|] eqn:Hsel.
  - destruct Hfind as (win & v & w' & Hrun & _). rewrite Hrun. cbn [fst].
    split; [split; discriminate | discriminate].
  - rewrite Hfind. cbn [fst snd calls]. split; [split|]; reflexivity.
Qed.

(** On the tests' desktop nothing matches ["Calculator"]. *)
Lemma findSuitableWindow_null_witness :
  fst (Screen.findSuitableWindow (Scripted.native Scripted.testDesktop)
         (Some "Calculator") (initial tt)) = Ok None.
Proof.
  destruct (findSuitableWindow_null (Scripted.native Scripted.testDesktop)
              (Some "Calculator") (initial tt)
              [ {| title := "Test Window"; className := "TestClass";
                   handle := ofZ 12345 |} ] tt eq_refl) as [[_ Hnull] _].
  apply Hnull. right. split; reflexivity.
Defined.

(** X11.  When no titled window matches what was asked for (or nothing was
    asked for) and some titled window belongs to one of the preferred
    applications, the window returned is a preferred one, wherever it
    stands in the enumeration. *)
Theorem findSuitableWindow_prefers_known_applications {S : Type}
    (native : Screen.Native S) {cm : CaseMapping} (targetTitle : option string) (w w' : World S)
    (allWindows : list WindowInfo) (s1 : S)
    (win : WindowInfo) (viewInfo : Rect.t) :
  Screen.getAllWindows native (host w) = (Ok allWindows, s1) ->
  Screen.matchingWindows targetTitle (filter Screen.hasTitle allWindows) = [] ->
  (exists p, In p allWindows /\ Screen.hasTitle p = true /\
             Screen.isPreferred p = true) ->
  Screen.findSuitableWindow native targetTitle w
    = (Ok (Some (win, viewInfo)), w') ->
  Screen.isPreferred win = true.
Proof.
  intros Hall Hnomatch (p & Hp & Htitled & Hpref) Hrun.
  pose proof (findSuitableWindow_enumerated native targetTitle w allWindows s1
                Hall) as Hfind.
  destruct (Screen.selectCandidates targetTitle allWindows)
    as [candidates|] eqn:Hsel.
  - destruct Hfind as (win' & v' & w'' & Hrun' & Hin & _).
    rewrite Hrun in Hrun'. injection Hrun' as <- <- <-.
    apply selectCandidates_some in Hsel as (_ & _ & _ & Hpreferred).
    rewrite Hpreferred in Hin.
    + now apply filter_In in Hin.
    + assumption.
    + exists p. split; [apply filter_In; now split | assumption].
  - rewrite Hfind in Hrun. discriminate Hrun.
Qed.

(** With a calculator enumerated before Notepad, no title asked for. *)
Lemma findSuitableWindow_prefers_known_applications_witness :
  fst (Screen.findSuitableWindow (Scripted.native officeDesktop) None
         (initial tt))
    = Ok (Some (notepad, Scripted.rect 100 200 800 600)) /\
  Screen.isPreferred notepad = true.
Proof.
  split; [reflexivity|].
  apply (findSuitableWindow_prefers_known_applications
           (Scripted.native officeDesktop) None (initial tt)
           (snd (Screen.findSuitableWindow (Scripted.native officeDesktop) None
                   (initial tt)))
           [calculator; notepad] tt notepad (Scripted.rect 100 200 800 600)).
  - reflexivity.
  - reflexivity.
  - exists notepad. split; [right; left; reflexivity|]. split; reflexivity.
  - reflexivity.
Defined.

(* ===================================================================== *)
(** * The screen provider: the operations on the resolved window          *)
(* ===================================================================== *)

Section Focusing.
Context {S : Type} (native : Screen.Native S) {cm : CaseMapping}.

(** [focusWindow] on a window that was resolved. *)
Lemma focusWindow_resolved (title_ : string) (w w1 : World S)
    (targetWindow : WindowInfo) (viewInfo : Rect.t) :
  Screen.findSuitableWindow native (Some title_) w
    = (Ok (Some (targetWindow, viewInfo)), w1) ->
  exists response w',
    Screen.focusWindow native title_ w = (Ok response, w') /\
    success response = true /\
    field response "title" = VStr (title targetWindow) /\
    field response "handle" = VNum (handle targetWindow).
Proof.
  intros Hfound.
  unfold Screen.focusWindow.
  unfold Eff.tryCatch at 1. unfold Eff.bind at 1. rewrite Hfound.
  unfold Eff.bind at 1.
  destruct (quietly_completes
              (invoke (WorkwindowSet (handle targetWindow))
                 (Screen.workwindow_set native (handle targetWindow))) w1)
    as [w2 ->].
  unfold Eff.bind at 1.
  destruct (quietly_completes
              (invoke WorkwindowSetForeground
                 (Screen.workwindow_setForeground native)) w2) as [w3 ->].
  unfold Eff.bind at 1.
  destruct (flagOf_completes
              (invoke WorkwindowIsForeground
                 (Screen.workwindow_isForeground native)) w3)
    as (isForeground & w4 & ->).
  unfold Eff.bind at 1.
  destruct (flagOf_completes
              (invoke WorkwindowIsOpen (Screen.workwindow_isOpen native)) w4)
    as (isOpen & w5 & ->).
  unfold Eff.bind at 1.
  match goal with
  | |- context [Screen.quietly ?m w5] =>
      destruct (quietly_completes m w5) as [w6 ->]
  end.
  unfold Eff.ret.
  do 2 eexists. split; [reflexivity|]. repeat split; reflexivity.
Qed.

End Focusing.

(** X12.  [getActiveWindow] fails in one case only: a window was resolved
    and attaching to its handle ([new Hardware(handle)]) threw; the
    message then carries that error.  In every other case it succeeds,
    with the placeholder descriptor when nothing was resolved. *)
Theorem getActiveWindow_failure_origin {S : Type} (native : Screen.Native S) {cm : CaseMapping}
    (w : World S) :
  exists response w',
    Screen.getActiveWindow native w = (Ok response, w') /\
    (success response = false ->
     exists win viewInfo w1 e s',
       Screen.findSuitableWindow native None w
         = (Ok (Some (win, viewInfo)), w1) /\
       Screen.hardware_get native (handle win) (host w1) = (Throw e, s') /\
       response = failure ("Failed to get active window: " ++ e)) /\
    (fst (Screen.findSuitableWindow native None w) = Ok None ->
     response = successWith "Active window: Unknown (no suitable window found)"
                  Screen.unknownWindow).
Proof.
  unfold Screen.getActiveWindow.
  unfold Eff.tryCatch at 1. unfold Eff.bind at 1.
  destruct (findSuitableWindow_completes native None w) as (found & w1 & Hfind).
  rewrite Hfind. destruct found as [[win viewInfo]|].
  - unfold Eff.bind at 1. unfold invoke at 1.
    destruct (Screen.hardware_get native (handle win) (host w1))
      as [[[]|e] s'] eqn:Hget.
    + unfold Eff.bind at 1.
      match goal with
      | |- context [Screen.quietly ?m ?w0] =>
          destruct (quietly_completes m w0) as [w2 ->]
      end.
      unfold Eff.bind at 1.
      match goal with
      | |- context [Screen.flagOf ?m ?w0] =>
          destruct (flagOf_completes m w0) as (isForeground & w3 & ->)
      end.
      unfold Eff.ret. do 2 eexists. split; [reflexivity|].
      split; [discriminate | discriminate].
    + unfold Eff.ret. do 2 eexists. split; [reflexivity|].
      split; [|discriminate]. intros _.
      exists win, viewInfo, w1, e, s'. repeat split; reflexivity || assumption.
  - unfold Eff.ret. do 2 eexists. split; [reflexivity|].
    split; [discriminate|]. intros _. reflexivity.
Qed.

(** X13.  For the title ["Unknown"], as for the empty title, any titled
    window will do: as soon as one enumerated window has a title,
    [focusWindow] succeeds and reports an enumerated, titled window. *)
Theorem focusWindow_title_not_required {S : Type} (native : Screen.Native S) {cm : CaseMapping}
    (title_ : string) (w : World S) (allWindows : list WindowInfo) (s1 : S) :
  Screen.getAllWindows native (host w) = (Ok allWindows, s1) ->
  title_ = "Unknown" \/ title_ = EmptyString ->
  (exists p, In p allWindows /\ Screen.hasTitle p = true) ->
  exists response w' win,
    Screen.focusWindow native title_ w = (Ok response, w') /\
    success response = true /\
    In win allWindows /\
    Screen.hasTitle win = true /\
    field response "title" = VStr (title win).
Proof.
  intros Hall Htitle (p & Hp & Htitled).
  assert (Hfree : Screen.targetRequired (Some title_) = false)
    by (destruct Htitle as [->| ->]; reflexivity).
  pose proof (findSuitableWindow_enumerated native (Some title_) w allWindows
                s1 Hall) as Hfind.
  destruct (Screen.selectCandidates (Some title_) allWindows)
    as [candidates|] eqn:Hsel.
  - destruct Hfind as (win & v & w1 & Hrun & Hin & _).
    apply selectCandidates_some in Hsel as (_ & Hincl & _).
    apply Hincl in Hin. apply filter_In in Hin as [Hin Ht].
    destruct (focusWindow_resolved native title_ w w1 win v Hrun)
      as (response & w' & Hfocus & Hok & Hname & _).
    exists response, w', win. repeat split; assumption.
  - apply selectCandidates_none in Hsel as [Hnone|[Hreq _]].
    + assert (Hin : In p (filter Screen.hasTitle allWindows))
        by (apply filter_In; now split).
      rewrite Hnone in Hin. destruct Hin.
    + rewrite Hfree in Hreq. discriminate Hreq.
Qed.

(** Focusing ["Unknown"] on the tests' desktop reaches ["Test Window"]. *)
Lemma focusWindow_title_not_required_witness :
  exists response w' win,
    Screen.focusWindow (Scripted.native Scripted.testDesktop) "Unknown"
      (initial tt) = (Ok response, w') /\
    success response = true /\
    In win [ {| title := "Test Window"; className := "TestClass";
                handle := ofZ 12345 |} ] /\
    Screen.hasTitle win = true /\
    field response "title" = VStr (title win).
Proof.
  apply (focusWindow_title_not_required (Scripted.native Scripted.testDesktop)
           "Unknown" (initial tt) _ tt eq_refl).
  - left. reflexivity.
  - eexists. split; [left; reflexivity | reflexivity].
Defined.

(** X14.  When the window cannot be focused, [resizeWindow] and
    [repositionWindow] stop right after the attempt: no view is read or
    applied and nothing waits on the timer, the world is the one
    [focusWindow] left.  They answer [success: true] all the same. *)
Theorem resize_of_missing_window {S : Type} (native : Screen.Native S) {cm : CaseMapping}
    {fmt : NumberFormat} (title_ : string) (w w1 : World S)
    (focusResult : WindowsControlResponse) (a b : num) :
  Screen.focusWindow native title_ w = (Ok focusResult, w1) ->
  success focusResult = false ->
  Screen.resizeWindow native title_ a b w
    = (Ok (resizeAnswer title_ a b), w1) /\
  Screen.repositionWindow native title_ a b w
    = (Ok (repositionAnswer title_ a b), w1) /\
  success (resizeAnswer title_ a b) = true /\
  success (repositionAnswer title_ a b) = true.
Proof.
  intros Hfocus Hfail.
  unfold Screen.resizeWindow, Screen.repositionWindow, Screen.fireAndForget,
    Screen.updateWindowPosition_start.
  run_step. rewrite Hfocus, Hfail. cbn [negb].
  repeat split; reflexivity.
Qed.

(** Resizing a window of a desktop without windows. *)
Lemma resize_of_missing_window_witness :
  Screen.resizeWindow (Scripted.native emptyDesktop) "Calculator"
    (ofZ 1024) (ofZ 768) (initial tt)
  = (Ok (resizeAnswer "Calculator" (ofZ 1024) (ofZ 768)),
     snd (Screen.focusWindow (Scripted.native emptyDesktop) "Calculator"
            (initial tt))) /\
  calls (snd (Screen.focusWindow (Scripted.native emptyDesktop) "Calculator"
                (initial tt))) = [GetAllWindows].
Proof.
  split; [|reflexivity].
  apply (resize_of_missing_window (Scripted.native emptyDesktop) "Calculator"
           (initial tt) _
           (failure "Could not find window with title: Calculator")
           (ofZ 1024) (ofZ 768) eq_refl eq_refl).
Defined.

Section Timers.
Context {S : Type}.

Lemma keepsTimers_ret {A} (a : A) : keepsTimers (S := S) (Eff.ret a).
Proof. intros w. reflexivity. Qed.

Lemma keepsTimers_throw {A} (e : string) : keepsTimers (@throw S A e).
Proof. intros w. reflexivity. Qed.

Lemma keepsTimers_throwIf (c : bool) (e : string) :
  keepsTimers (@throwIf S c e).
Proof. intros w. destruct c; reflexivity. Qed.

Lemma keepsTimers_invoke {A} (c : Call) (f : S -> Res A * S) :
  keepsTimers (invoke c f).
Proof. intros w. unfold invoke. destruct (f (host w)). reflexivity. Qed.

Lemma keepsTimers_bind {A B} (m : M (World S) A) (k : A -> M (World S) B) :
  keepsTimers m -> (forall a, keepsTimers (k a)) -> keepsTimers (Eff.bind m k).
Proof.
  intros Hm Hk w. unfold Eff.bind. specialize (Hm w).
  destruct (m w) as [[a|e] w1]; cbn [snd] in *.
  - now rewrite Hk.
  - assumption.
Qed.

Lemma keepsTimers_tryCatch {A} (m : M (World S) A) (h : string -> M (World S) A) :
  keepsTimers m -> (forall e, keepsTimers (h e)) ->
  keepsTimers (Eff.tryCatch m h).
Proof.
  intros Hm Hh w. unfold Eff.tryCatch. specialize (Hm w).
  destruct (m w) as [[a|e] w1]; cbn [snd] in *.
  - assumption.
  - now rewrite Hh.
Qed.

End Timers.

(** Proves [keepsTimers m] by following the shape of [m]. *)
Ltac keeping :=
  repeat first
    [ assumption
    | match goal with H : context [keepsTimers] |- _ => apply H end
    | apply keepsTimers_ret
    | apply keepsTimers_throw
    | apply keepsTimers_throwIf
    | apply keepsTimers_invoke
    | apply keepsTimers_bind; [|intro]
    | apply keepsTimers_tryCatch; [|intro]
    | match goal with
      | |- keepsTimers (match ?x with _ => _ end) => destruct x
      | |- keepsTimers (let (_, _) := ?x in _) => destruct x
      end ].

Section Deferred.
Context {S : Type} (native : Screen.Native S) {fmt : NumberFormat}
        {cm : CaseMapping}.

Lemma keepsTimers_scanCandidates (candidates : list WindowInfo) :
  keepsTimers (Screen.scanCandidates native candidates).
Proof.
  induction candidates as [|c rest IH]; cbn [Screen.scanCandidates]; keeping.
Qed.

Lemma keepsTimers_findSuitableWindow (targetTitle : option string) :
  keepsTimers (Screen.findSuitableWindow native targetTitle).
Proof.
  unfold Screen.findSuitableWindow.
  pose proof keepsTimers_scanCandidates. keeping.
Qed.

Lemma keepsTimers_focusWindow (title_ : string) :
  keepsTimers (Screen.focusWindow native title_).
Proof.
  unfold Screen.focusWindow, Screen.focusAlternative, Screen.quietly,
    Screen.flagOf.
  pose proof keepsTimers_findSuitableWindow. keeping.
Qed.

Lemma keepsTimers_start (title_ : string) (x y width height : option num)
    (op : OperationType) :
  keepsTimers
    (Screen.updateWindowPosition_start native title_ x y width height op).
Proof.
  unfold Screen.updateWindowPosition_start, Screen.quietly.
  pose proof keepsTimers_focusWindow. keeping.
Qed.

Lemma emptied_queue (w : World S) :
  timers w = [] ->
  {| host := host w; timers := []; calls := calls w; raised := raised w |} = w.
Proof. destruct w. cbn. now intros ->. Qed.

(** What [void this.updateWindowPosition(...)] followed by the timers
    leaves, against the awaited call. *)
Lemma deferred_update (title_ : string) (x y width height : option num)
    (op : OperationType) (w : World S) :
  timers w = [] ->
  snd (Screen.fireTimers native
         (snd (Screen.fireAndForget native title_ x y width height op w)))
  = snd (Screen.updateWindowPosition native title_ x y width height op w).
Proof.
  intros Hidle.
  pose proof (keepsTimers_start title_ x y width height op w) as Hkeep.
  unfold Screen.fireAndForget, Screen.updateWindowPosition, Eff.bind.
  destruct (updateWindowPosition_start_completes native title_ x y width
              height op w) as ([settled|k] & w1 & Hstart).
  - rewrite Hstart in Hkeep |- *. cbn [snd] in Hkeep |- *.
    unfold Screen.fireTimers, Eff.ret. cbn [snd]. rewrite Hkeep, Hidle.
    cbn [Screen.resumeAll Eff.ret snd]. apply emptied_queue. congruence.
  - rewrite Hstart in Hkeep |- *. cbn [snd] in Hkeep |- *.
    unfold Screen.fireTimers, park. cbn [snd timers host calls raised].
    rewrite Hkeep, Hidle. cbn [app Screen.resumeAll].
    unfold Eff.bind, Eff.ret.
    rewrite emptied_queue by congruence.
    destruct (updateWindowPosition_resume_completes native k w1)
      as (r & w2 & ->).
    reflexivity.
Qed.

End Deferred.

(** X15.  What [resizeWindow] and [repositionWindow] leave undone is done
    by the timer: starting from an empty timer queue, once the timers have
    fired the world (the backend's state, the calls made, the errors
    raised, the queue) is the one the awaited [updateWindowPosition] would
    have left. *)
Theorem resize_then_timers_is_the_awaited_update {S : Type}
    (native : Screen.Native S) {cm : CaseMapping} {fmt : NumberFormat} (title_ : string)
    (a b : num) (w : World S) :
  timers w = [] ->
  snd (Screen.fireTimers native
         (snd (Screen.resizeWindow native title_ a b w)))
    = snd (Screen.updateWindowPosition native title_ None None
             (Some a) (Some b) resize_ w) /\
  snd (Screen.fireTimers native
         (snd (Screen.repositionWindow native title_ a b w)))
    = snd (Screen.updateWindowPosition native title_ (Some a) (Some b)
             None None reposition w).
Proof.
  intros Hidle. split.
  - rewrite <- (deferred_update native title_ None None (Some a) (Some b)
                  resize_ w Hidle).
    unfold Screen.resizeWindow. unfold Eff.tryCatch at 1. unfold Eff.bind at 1.
    destruct (fireAndForget_completes native title_ None None (Some a)
                (Some b) resize_ w) as [w1 ->].
    reflexivity.
  - rewrite <- (deferred_update native title_ (Some a) (Some b) None None
                  reposition w Hidle).
    unfold Screen.repositionWindow. unfold Eff.tryCatch at 1.
    unfold Eff.bind at 1.
    destruct (fireAndForget_completes native title_ (Some a) (Some b) None
                None reposition w) as [w1 ->].
    reflexivity.
Qed.

(** On the tests' desktop: five more calls are made by the timer. *)
Lemma resize_then_timers_is_the_awaited_update_witness :
  calls (snd (Screen.fireTimers (Scripted.native Scripted.testDesktop)
                (snd (Screen.resizeWindow (Scripted.native Scripted.testDesktop)
                        "Test Window" (ofZ 1024) (ofZ 768) (initial tt)))))
  = calls (snd (Screen.updateWindowPosition
                  (Scripted.native Scripted.testDesktop) "Test Window"
                  None None (Some (ofZ 1024)) (Some (ofZ 768)) resize_
                  (initial tt))).
Proof.
  destruct (resize_then_timers_is_the_awaited_update
              (Scripted.native Scripted.testDesktop) "Test Window"
              (ofZ 1024) (ofZ 768) (initial tt) eq_refl) as [Hresize _].
  now rewrite Hresize.
Defined.

Section Envelope.
Context {S : Type} (native : Screen.Native S) {cm : CaseMapping}.

(** The image of a screenshot envelope with [success: true]. *)
Lemma getScreenshot_success_shape (options : option ScreenshotOptions)
    (w w' : World S) (response : WindowsControlResponse) :
  Screen.getScreenshot native options w = (Ok response, w') ->
  success response = true ->
  exists image,
    screenshot response = Some image /\
    encoding response = Some "base64" /\
    content response
      = Some [ {| type_ := "image"; imageData := image;
                  mimeType :=
                    match options with
                    | Some {| format := Some png |} => "image/png"
                    | _ => "image/jpeg"
                    end |} ].
Proof.
  unfold Screen.getScreenshot. run_step.
  assert (Hmime : Screen.mimeTypeOf (Screen.mergeOptions options)
                  = match options with
                    | Some {| format := Some png |} => "image/png"
                    | _ => "image/jpeg"
                    end).
  { destruct options as [[r [[|]|] q g c rs]|]; reflexivity. }
  rewrite Hmime.
  destruct (Screen.import_sharp native (host w)) as [[[]|e] s1]; cbn [host].
  - destruct (Screen.workwindow_capture native (Screen.regionOf options) s1)
      as [[cap|e] s2]; cbn [host].
    + destruct (Screen.sharp_toBuffer native _ s2) as [[out|e] s3];
        intros Hrun _; injection Hrun as <- _;
        eexists; repeat split; reflexivity.
    + intros Hrun Hok. injection Hrun as <- _. discriminate Hok.
  - intros Hrun Hok. injection Hrun as <- _. discriminate Hok.
Qed.

End Envelope.

(** X16.  A screenshot envelope with [success: true] always carries the
    image twice, as [screenshot] and as the only item of [content], in
    base64, under the MIME type of the requested format (JPEG unless PNG
    was asked for); and for a region its [data] is the extent that was
    requested, not the extent that was captured. *)
Theorem getScreenshot_success_envelope {S : Type} (native : Screen.Native S)
    (options : option ScreenshotOptions) (w w' : World S)
    (response : WindowsControlResponse) :
  Screen.getScreenshot native options w = (Ok response, w') ->
  success response = true ->
  (exists image,
      screenshot response = Some image /\
      encoding response = Some "base64" /\
      content response
        = Some [ {| type_ := "image"; imageData := image;
                    mimeType :=
                      match options with
                      | Some {| format := Some png |} => "image/png"
                      | _ => "image/jpeg"
                      end |} ]) /\
  (forall r, Screen.regionOf options = Some r ->
     data response = Some [ ("width", VNum (Rect.width r));
                            ("height", VNum (Rect.height r)) ]).
Proof.
  intros Hrun Hok. split.
  - exact (getScreenshot_success_shape native options w w' response Hrun Hok).
  - intros r Hregion.
    exact (getScreenshot_region_size native options r w w' response
             Hregion Hrun Hok).
Qed.

(** A PNG of a region of 100x50 on the tests' desktop. *)
Lemma getScreenshot_success_envelope_witness :
  exists response,
    fst (Screen.getScreenshot (Scripted.native Scripted.testDesktop)
           (Some {| region := Some (Scripted.rect 10 20 100 50);
                    format := Some png; quality := None; grayscale := None;
                    compressionLevel := None; resize := None |})
           (initial tt)) = Ok response /\
    (exists image,
        content response
          = Some [ {| type_ := "image"; imageData := image;
                      mimeType := "image/png" |} ]) /\
    data response = Some [ ("width", VNum (ofZ 100));
                           ("height", VNum (ofZ 50)) ].
Proof.
  eexists. split; [reflexivity|].
  destruct (getScreenshot_success_envelope
              (Scripted.native Scripted.testDesktop)
              (Some {| region := Some (Scripted.rect 10 20 100 50);
                       format := Some png; quality := None; grayscale := None;
                       compressionLevel := None; resize := None |})
              (initial tt) _ _ eq_refl eq_refl)
    as [(image & _ & _ & Hcontent) Hdata].
  split; [exists image; exact Hcontent|].
  apply (Hdata (Scripted.rect 10 20 100 50)). reflexivity.
Defined.

(* ===================================================================== *)
(** * The dispatcher: arguments, unknown tools, screenshots               *)
(* ===================================================================== *)

(** Evaluates the comparisons of [name] with the case labels. *)
Ltac labels :=
  repeat match goal with
         | |- context [String.eqb ?a ?b] =>
             let r := eval vm_compute in (String.eqb a b) in
             change (String.eqb a b) with r
         end;
  cbv iota.

(** X17.  A call whose arguments fail the check of its case is answered
    with the error text of that check ([isError: true]); no tool is
    called, the backend is not touched, whatever tools the dispatcher is
    connected to. *)
Theorem malformed_arguments_are_refused {S : Type}
    (tools : Dispatcher.Tools S) (name : string) (check : value -> bool)
    (text : string) (args : value) (w : World S) :
  In (name, check, text) argumentChecks ->
  check args = false ->
  Dispatcher.callTool tools name args w
    = (Ok (Handler.ErrorText ("Error: " ++ text)), afterError w text).
Proof.
  intros Hin Hcheck. unfold argumentChecks in Hin. cbn [In] in Hin.
  repeat (destruct Hin as [Hin|Hin];
          [injection Hin as <- <- <-;
           unfold Dispatcher.callTool, Dispatcher.dispatch,
             Dispatcher.inputCase, Handler.windowCase;
           labels |]);
    try contradiction;
    try (rewrite Hcheck; reflexivity);
    revert Hcheck;
    repeat match goal with
           | |- context [match prop args ?k with _ => _ end] =>
               destruct (prop args k)
           end;
    cbn; intros Hcheck; try discriminate Hcheck; reflexivity.
Qed.

(** [scroll_mouse] with the amount given as a string. *)
Lemma malformed_arguments_are_refused_witness :
  Dispatcher.callTool deskTools "scroll_mouse"
    (VObj [("amount", VStr "3")]) (initial tt)
  = (Ok (Handler.ErrorText "Error: Invalid scroll amount argument"),
     afterError (initial tt) "Invalid scroll amount argument").
Proof.
  apply (malformed_arguments_are_refused deskTools "scroll_mouse"
           (fun args => isNumber (prop args "amount"))
           "Invalid scroll amount argument"
           (VObj [("amount", VStr "3")]) (initial tt)).
  - do 4 right. left. reflexivity.
  - reflexivity.
Defined.

(** X18.  A name that is none of the 24 case labels is answered with
    ["Error: Unknown tool: <name>"]; no tool is called. *)
Theorem unknown_tool_is_refused {S : Type} (tools : Dispatcher.Tools S)
    (name : string) (args : value) (w : World S) :
  ~ In name Dispatcher.toolNames ->
  Dispatcher.callTool tools name args w
    = (Ok (Handler.ErrorText ("Error: Unknown tool: " ++ name)),
       afterError w ("Unknown tool: " ++ name)).
Proof.
  intros Hout.
  assert (Hneq : forall t, In t Dispatcher.toolNames -> (name =? t)%string = false).
  { intros t Hin. apply String.eqb_neq. intros ->. contradiction. }
  unfold Dispatcher.callTool, Dispatcher.dispatch, Dispatcher.inputCase,
    Handler.windowCase.
  repeat match goal with
         | |- context [(name =? ?t)%string] =>
             rewrite (Hneq t)
               by (unfold Dispatcher.toolNames;
                   repeat (first [left; reflexivity | right]))
         end.
  reflexivity.
Qed.

(** The label is ["get_screenshot"], not ["screenshot"]. *)
Lemma unknown_tool_is_refused_witness :
  Dispatcher.callTool deskTools "screenshot" VUndefined (initial tt)
  = (Ok (Handler.ErrorText "Error: Unknown tool: screenshot"),
     afterError (initial tt) "Unknown tool: screenshot").
Proof.
  apply (unknown_tool_is_refused deskTools "screenshot" VUndefined (initial tt)).
  intros Hin. unfold Dispatcher.toolNames in Hin. cbn [In] in Hin.
  repeat (destruct Hin as [Hin|Hin]; [discriminate Hin|]). exact Hin.
Defined.

(** X19.  When the screenshot tool is the keysender provider's
    [getScreenshot], the answer to [get_screenshot] is either the image
    alone -- one content item of type [image] under the MIME type of the
    format, JPEG unless [format] is ["png"]; the envelope's message and
    dimensions are not sent -- or the failure envelope as text.  It is
    never an error result. *)
Theorem get_screenshot_sends_the_image_only {S : Type}
    (tools : Dispatcher.Tools S) (native : Screen.Native S)
    (args : value) (w : World S) :
  Dispatcher.getScreenshot tools
    = (fun options => Screen.getScreenshot native (Some options)) ->
  exists result w',
    Dispatcher.callTool tools "get_screenshot" args w = (Ok result, w') /\
    match result with
    | Handler.Images [item] =>
        type_ item = "image" /\
        mimeType item = match Dispatcher.formatArgument args with
                        | png => "image/png"
                        | jpeg => "image/jpeg"
                        end
    | Handler.Text response => success response = false /\ data response = None
    | _ => False
    end.
Proof.
  intros Htool.
  unfold Dispatcher.callTool, Dispatcher.dispatch, Dispatcher.inputCase.
  labels. rewrite Htool.
  unfold Eff.tryCatch, Eff.bind, Eff.ret.
  destruct (getScreenshot_completes native
              (Some (Dispatcher.screenshotOptions args)) w)
    as (response & w' & Hrun).
  rewrite Hrun. exists (Handler.wrap response), w'. split; [reflexivity|].
  destruct (success response) eqn:Hok.
  - destruct (getScreenshot_success_shape native _ w w' response Hrun Hok)
      as (image & _ & _ & Hcontent).
    unfold Handler.wrap. rewrite Hcontent. cbn.
    destruct (Dispatcher.formatArgument args); split; reflexivity.
  - destruct (getScreenshot_failure_origin native _ w w' response Hrun Hok)
      as [(e & s1 & _ & ->)|(s1 & e & s2 & _ & _ & ->)];
      cbn; split; reflexivity.
Qed.

(** On the tests' desktop, asking for a PNG. *)
Lemma get_screenshot_sends_the_image_only_witness :
  exists item w',
    Dispatcher.callTool deskTools "get_screenshot"
      (VObj [("format", VStr "png")]) (initial tt)
    = (Ok (Handler.Images [item]), w') /\
    mimeType item = "image/png".
Proof.
  destruct (get_screenshot_sends_the_image_only deskTools
              (Scripted.native Scripted.testDesktop)
              (VObj [("format", VStr "png")]) (initial tt) eq_refl)
    as (result & w' & Hrun & Hresult).
  vm_compute in Hrun. injection Hrun as <- <-.
  eexists. eexists. split; [reflexivity|]. apply Hresult.
Defined.

(** X20.  What the arguments of [get_screenshot] come to in the provider's
    pipeline.  The options the dispatcher builds always name the format,
    the quality, the grayscale flag and the resize, so the provider's merge
    with its defaults gives them back as they are.  The image is converted
    to grayscale unless [grayscale] is [false], and is encoded in the
    format the arguments name.  A JPEG is written with the [quality] of the
    arguments when that is a number other than 0 and NaN, with the
    provider's 70 when it is 0 or NaN, and with the dispatcher's 85 when it
    is not a number.  A PNG is written with [compressionLevel] when that is
    a number other than 0 and NaN, and with the provider's 9 otherwise.
    The first resize is to the smaller of the capture's width and
    [resize.width], the provider's 1280 standing in for a width that is 0
    or NaN and the dispatcher's 1280 for one that is not a number. *)
Theorem screenshot_arguments_in_the_pipeline (args : value)
    (screenImage : list byte) (width height : num) :
  Screen.mergeOptions (Some (Dispatcher.screenshotOptions args))
    = Dispatcher.screenshotOptions args /\
  let job := Screen.sharpJob
               (Screen.mergeOptions (Some (Dispatcher.screenshotOptions args)))
               screenImage width height in
  toGrayscale job = negb (declinesGrayscale args) /\
  encoder job = Dispatcher.formatArgument args /\
  encoderLevel job =
    match Dispatcher.formatArgument args with
    | jpeg =>
        match prop args "quality" with
        | VNum q => if truthy q then q else ofZ 70
        | _ => ofZ 85
        end
    | png =>
        match prop args "compressionLevel" with
        | VNum c => if truthy c then c else ofZ 9
        | _ => ofZ 9
        end
    end /\
  initialWidth job =
    JS.min width
      match prop (prop args "resize") "width" with
      | VNum w => if truthy w then w else ofZ 1280
      | _ => ofZ 1280
      end.
Proof.
  split; [reflexivity|]. cbv zeta.
  unfold Screen.sharpJob, Screen.mergeOptions, Dispatcher.screenshotOptions,
    Screen.formatIsJpeg, declinesGrayscale.
  cbn [toGrayscale encoder encoderLevel initialWidth grayscale format quality
       compressionLevel resize].
  split; [|split; [|split]].
  - destruct (prop args "grayscale") as [| |[|]| | | |]; reflexivity.
  - destruct (Dispatcher.formatArgument args); reflexivity.
  - destruct (Dispatcher.formatArgument args).
    + destruct (prop args "quality"); reflexivity.
    + destruct (prop args "compressionLevel"); reflexivity.
  - f_equal. unfold Screen.resizeWidthOf, Dispatcher.resizeArgument.
    cbn [resize].
    destruct (prop args "resize") as [| | | | |items|fields];
      cbn [Dispatcher.isObject resizeWidth Screen.optOr prop]; try reflexivity.
    destruct (lookup "width" fields); reflexivity.
Qed.

(** With no arguments a JPEG of quality 85 is asked for; with [quality: 0]
    the provider's 70 is used. *)
Example screenshot_quality_samples :
  encoderLevel (Screen.sharpJob
                  (Screen.mergeOptions
                     (Some (Dispatcher.screenshotOptions VUndefined)))
                  Scripted.pixels (ofZ 1920) (ofZ 1080)) = ofZ 85 /\
  encoderLevel (Screen.sharpJob
                  (Screen.mergeOptions
                     (Some (Dispatcher.screenshotOptions
                              (VObj [("quality", VNum (ofZ 0))]))))
                  Scripted.pixels (ofZ 1920) (ofZ 1080)) = ofZ 70 /\
  encoderLevel (Screen.sharpJob (Screen.mergeOptions None)
                  Scripted.pixels (ofZ 1920) (ofZ 1080)) = ofZ 70.
Proof. repeat split; reflexivity. Qed.

(* ===================================================================== *)
(** * Reading resources                                                   *)
(* ===================================================================== *)

(** X21.  The resource reader never hands a failure on: for the resources
    answered with JSON, an envelope that is not a success, or has no
    [data], is thrown as an error with the envelope's message, and that
    error leaves the handler; a uri that is not listed is thrown as
    ["Unknown resource: <uri>"] without any tool being called. *)
Theorem readResource_throws_failures {S : Type} (tools : Resources.Tools S)
    (w : World S) :
  (forall uri_ tool response w1,
      In (uri_, tool) (jsonResources tools) ->
      tool w = (Ok response, w1) ->
      success response = false \/ data response = None ->
      Resources.readResource tools uri_ w
        = (Throw (message response), afterError w1 (message response))) /\
  (forall uri_,
      ~ In uri_ Resources.listed ->
      Resources.readResource tools uri_ w
        = (Throw ("Unknown resource: " ++ uri_),
           afterError w ("Unknown resource: " ++ uri_))).
Proof.
  split.
  - intros uri_ tool response w1 Hin Hrun Hfail.
    unfold jsonResources in Hin. cbn [In] in Hin.
    repeat (destruct Hin as [Hin|Hin];
            [injection Hin as <- <-;
             unfold Resources.readResource; labels;
             unfold Resources.readJson, Eff.bind; rewrite Hrun;
             destruct Hfail as [Hfail|Hfail]; rewrite Hfail;
             [reflexivity | destruct (success response); reflexivity] |]).
    contradiction.
  - intros uri_ Hout.
    assert (Hneq : forall t, In t Resources.listed -> (uri_ =? t)%string = false).
    { intros t Hin. apply String.eqb_neq. intros ->. contradiction. }
    unfold Resources.readResource.
    repeat match goal with
           | |- context [(uri_ =? ?t)%string] =>
               rewrite (Hneq t)
                 by (unfold Resources.listed;
                     repeat (first [left; reflexivity | right]))
           end.
    reflexivity.
Qed.

(** Reading the screen size on a desktop whose metrics are zero. *)
Lemma readResource_throws_failures_witness :
  fst (Resources.readResource (deskResources emptyDesktop) "screen://size"
         (initial tt))
  = Throw ("Failed to get screen size using koffi: " ++
           "GetSystemMetrics returned zero for screen dimensions.").
Proof.
  destruct (readResource_throws_failures (deskResources emptyDesktop)
              (initial tt)) as [Hthrown _].
  rewrite (Hthrown "screen://size"
             (Screen.getScreenSize (Scripted.native emptyDesktop))
             (failure ("Failed to get screen size using koffi: " ++
                       "GetSystemMetrics returned zero for screen dimensions."))
             (snd (Screen.getScreenSize (Scripted.native emptyDesktop)
                     (initial tt)))).
  - reflexivity.
  - left. reflexivity.
  - reflexivity.
  - left. reflexivity.
Defined.

(** X22.  What a read returns when it returns: the uri was one of the five
    listed, the answer has exactly one entry, that entry echoes the uri,
    and its type is decided by the uri alone -- [image/png] with a blob
    for ["screen://current"], whatever MIME type the screenshot's own
    content item carries, and [application/json] with the envelope's
    [data] for the others. *)
Theorem readResource_answer {S : Type} (tools : Resources.Tools S)
    (uri_ : string) (w w' : World S) (contents : list Resources.Contents) :
  Resources.readResource tools uri_ w = (Ok contents, w') ->
  In uri_ Resources.listed /\
  exists entry,
    contents = [entry] /\
    Resources.uri entry = uri_ /\
    if (uri_ =? "screen://current")%string
    then Resources.contentType entry = "image/png" /\
         exists response first rest,
           Resources.getScreenshot tools w = (Ok response, w') /\
           content response = Some (first :: rest) /\
           Resources.body entry = Resources.Blob (imageData first)
    else Resources.contentType entry = "application/json" /\
         exists tool response payload,
           In (uri_, tool) (jsonResources tools) /\
           tool w = (Ok response, w') /\
           success response = true /\
           data response = Some payload /\
           Resources.body entry = Resources.Json payload.
Proof.
  assert (Hjson : forall tool,
             In (uri_, tool) (jsonResources tools) ->
             Resources.readJson uri_ tool w = (Ok contents, w') ->
             exists entry,
               contents = [entry] /\ Resources.uri entry = uri_ /\
               Resources.contentType entry = "application/json" /\
               exists tool response payload,
                 In (uri_, tool) (jsonResources tools) /\
                 tool w = (Ok response, w') /\
                 success response = true /\
                 data response = Some payload /\
                 Resources.body entry = Resources.Json payload).
  { intros tool Hin. unfold Resources.readJson, Eff.bind.
    destruct (tool w) as [[response|e] w1] eqn:Hrun; [|discriminate].
    destruct (success response) eqn:Hok;
      [|unfold throw; discriminate].
    destruct (data response) as [payload|] eqn:Hdata;
      [|unfold throw; discriminate].
    unfold Eff.ret. intros H. injection H as <- <-.
    eexists. split; [reflexivity|]. split; [reflexivity|].
    split; [reflexivity|].
    exists tool, response, payload. repeat split; assumption. }
  unfold Resources.readResource.
  destruct (String.eqb_spec uri_ "screen://current") as [->|_].
  - intros Hrun. split; [left; reflexivity|].
    revert Hrun. unfold Resources.readScreen, Eff.bind.
    destruct (Resources.getScreenshot tools w) as [[response|e] w1] eqn:Hshot;
      [|discriminate].
    destruct (success response); [|unfold throw; discriminate].
    destruct (content response) as [[|first rest]|] eqn:Hcontent;
      try (unfold throw; discriminate).
    unfold Eff.ret. intros H. injection H as <- <-.
    eexists. split; [reflexivity|]. split; [reflexivity|].
    split; [reflexivity|]. exists response, first, rest.
    repeat split; reflexivity || assumption.
  - destruct (String.eqb_spec uri_ "screen://size") as [->|_].
    { intros Hrun. split; [right; left; reflexivity|].
      apply (Hjson (Resources.getScreenSize tools));
        [left; reflexivity | exact Hrun]. }
    destruct (String.eqb_spec uri_ "cursor://position") as [->|_].
    { intros Hrun. split; [do 2 right; left; reflexivity|].
      apply (Hjson (Resources.getCursorPosition tools));
        [right; left; reflexivity | exact Hrun]. }
    destruct (String.eqb_spec uri_ "window://active") as [->|_].
    { intros Hrun. split; [do 3 right; left; reflexivity|].
      apply (Hjson (Resources.getActiveWindow tools));
        [do 2 right; left; reflexivity | exact Hrun]. }
    destruct (String.eqb_spec uri_ "window://list") as [->|_].
    { intros Hrun. split; [do 4 right; left; reflexivity|].
      apply (Hjson (Resources.listAllWindows tools));
        [do 3 right; left; reflexivity | exact Hrun]. }
    unfold throw. discriminate.
Qed.

(** With a screenshot tool that answers with a JPEG item, the entry is
    labelled PNG all the same. *)
Lemma readResource_answer_witness :
  exists entry response first rest,
    fst (Resources.readResource (deskResources Scripted.testDesktop)
           "screen://current" (initial tt)) = Ok [entry] /\
    Resources.contentType entry = "image/png" /\
    fst (Resources.getScreenshot (deskResources Scripted.testDesktop)
           (initial tt)) = Ok response /\
    content response = Some (first :: rest) /\
    mimeType first = "image/jpeg".
Proof.
  destruct (readResource_answer (deskResources Scripted.testDesktop)
              "screen://current" (initial tt) _ _ eq_refl)
    as (_ & entry & Hentry & _ & Htype & response & first & rest
        & Hshot & Hcontent & _).
  exists entry, response, first, rest.
  injection Hentry as <-. vm_compute in Hshot. injection Hshot as <-.
  injection Hcontent as <- <-. repeat split; reflexivity.
Defined.

(* ===================================================================== *)
(** * The scripted client                                                 *)
(* ===================================================================== *)

Section ClientFacts.
Context {S : Type} (backend : Client.Backend S) {fmt : NumberFormat}.

(** [String] of an array is [join(",")]. *)
Lemma toText_array (items : list value) :
  toText (VArr items) = joinWith "," items.
Proof.
  cbn [toText]. induction items as [|x rest IH]; [reflexivity|].
  cbn [joinWith]. destruct rest as [|y rest'].
  - destruct x; reflexivity.
  - rewrite <- IH. destruct x; reflexivity.
Qed.

Lemma textItems_defined (items : list value) (w : Client.World S) :
  find nullish items = None ->
  Client.textItems items w = (Ok (filter isTextItem items), w).
Proof.
  induction items as [|item rest IH]; intros Htyped; [reflexivity|].
  cbn [find] in Htyped. destruct (nullish item) eqn:Hitem; [discriminate|].
  cbn [Client.textItems filter]. unfold Eff.bind, Client.member.
  destruct item; try discriminate Hitem;
    rewrite (IH Htyped); unfold Eff.ret, isTextItem;
    match goal with
    | |- context [prop ?v "type"] => destruct (prop v "type"); try reflexivity
    end;
    match goal with
    | |- context [(?k =? "text")%string] => destruct (k =? "text")%string
    end; reflexivity.
Qed.

Lemma textItems_nullish (items : list value) (bad : value)
    (w : Client.World S) :
  find nullish items = Some bad ->
  Client.textItems items w = (Throw (unreadable bad "type"), w).
Proof.
  induction items as [|item rest IH]; intros Hbad; [discriminate|].
  cbn [find] in Hbad. cbn [Client.textItems]. unfold Eff.bind, Client.member.
  destruct (nullish item) eqn:Hitem.
  - injection Hbad as <-. destruct item; try discriminate Hitem; reflexivity.
  - destruct item; try discriminate Hitem; rewrite (IH Hbad); reflexivity.
Qed.

Lemma converted_pure (text : option string) (w : Client.World S) :
  snd (Client.converted text w) = w.
Proof. destruct text; reflexivity. Qed.

Lemma extractTextContent_pure (content : value) (w : Client.World S) :
  snd (Client.extractTextContent content w) = w.
Proof.
  unfold Client.extractTextContent. destruct content; try reflexivity.
  unfold Eff.bind.
  assert (Hpure : forall l, snd (Client.textItems l w) = w).
  { induction l as [|item rest IH]; [reflexivity|].
    cbn [Client.textItems]. unfold Eff.bind, Client.member.
    destruct item; try reflexivity;
      destruct (Client.textItems rest w) as [[kept|e] w1];
      cbn [snd] in IH |- *; assumption. }
  specialize (Hpure items).
  destruct (Client.textItems items w) as [[kept|e] w1]; cbn [snd] in *;
    [|assumption].
  subst w1. apply converted_pure.
Qed.

(** [callTool] always returns, and leaves one more call in the trace. *)
Lemma callTool_returns (toolName : string) (args : value)
    (w : Client.World S) :
  exists outcome w',
    Client.callTool backend toolName args w = (Ok outcome, w') /\
    Client.trace w' = (Client.trace w ++ [Client.Called toolName args])%list.
Proof.
  unfold Client.callTool, Eff.tryCatch, Eff.bind at 1, Client.send.
  destruct (Client.request backend toolName args (Client.server w))
    as [[response|e] s1].
  - destruct (Client.isError response).
    + unfold Eff.bind.
      match goal with
      | |- context [Client.extractTextContent ?c ?w0] =>
          pose proof (extractTextContent_pure c w0) as Hpure;
          destruct (Client.extractTextContent c w0) as [[text|e] w1]
      end; cbn [snd] in Hpure; subst w1;
        do 2 eexists; split; reflexivity.
    + do 2 eexists. split; reflexivity.
  - do 2 eexists. split; reflexivity.
Qed.

Lemma calledTools_app (a b : list Client.Event) :
  calledTools (a ++ b) = (calledTools a ++ calledTools b)%list.
Proof.
  induction a as [|[t x|ms] a IH]; cbn [calledTools app]; [reflexivity| |];
    now rewrite IH.
Qed.

Lemma member_defined (item : value) (k : string) (w : Client.World S) :
  nullish item = false -> Client.member item k w = (Ok (prop item k), w).
Proof. destruct item; intros H; reflexivity || discriminate H. Qed.

Lemma member_nullish (item : value) (k : string) (w : Client.World S) :
  nullish item = true -> exists e, Client.member item k w = (Throw e, w).
Proof.
  destruct item; intros H; try discriminate H; eexists; reflexivity.
Qed.

(** The loop of [runScript] makes the planned calls, whether it ends
    normally, on a [null] entry or on a [tool] that cannot be logged. *)
Lemma runCommands_calls (commands : list value) (w : Client.World S) :
  calledTools (Client.trace (snd (Client.runCommands backend commands w)))
  = (calledTools (Client.trace w) ++ planned commands)%list.
Proof.
  revert w. induction commands as [|command rest IH]; intros w.
  - cbn. now rewrite app_nil_r.
  - cbn [Client.runCommands planned]. unfold Eff.bind at 1.
    destruct (nullish command) eqn:Hnull.
    + destruct (member_nullish command "tool" w Hnull) as [e ->].
      cbn [snd orb]. now rewrite app_nil_r.
    + rewrite (member_defined command "tool" w Hnull). cbn [orb].
      unfold Eff.bind at 1, unprintable, Client.converted.
      destruct (toText (prop command "tool")) as [text|] eqn:Htext;
        [|cbn [snd]; now rewrite app_nil_r].
      unfold runnable.
      destruct (prop command "tool") as [| | | |toolName| |]; try apply IH.
      destruct (truthyStr toolName); [|apply IH].
      unfold Eff.bind at 1.
      destruct (callTool_returns toolName (Client.argsOf command) w)
        as (outcome & w1 & -> & Htrace).
      unfold Eff.bind at 1.
      assert (Hwait : exists w2,
                 (match prop command "waitMs" with
                  | VNum ms => if truthy ms then Client.wait ms else Eff.ret tt
                  | _ => Eff.ret tt
                  end) w1 = (Ok tt, w2) /\
                 calledTools (Client.trace w2) = calledTools (Client.trace w1)).
      { destruct (prop command "waitMs") as [| | |ms| | |];
          try (exists w1; split; reflexivity).
        destruct (truthy ms); [|exists w1; split; reflexivity].
        eexists. split; [reflexivity|]. cbn [Client.trace].
        rewrite calledTools_app. cbn. now rewrite app_nil_r. }
      destruct Hwait as (w2 & -> & Hsame).
      rewrite IH, Hsame, Htrace, calledTools_app. cbn [calledTools].
      now rewrite <- app_assoc.
Qed.

End ClientFacts.

(** X23.  [runScript] never throws.  When the script file holds an array,
    the tools called are, in order, those of the commands that name a tool
    (a non-empty string), with [args] or an empty object, up to the first
    entry that is [null] or whose [tool] cannot be converted to a string
    for the log line (an object with a member named [toString], or an array
    holding one): there the script is abandoned.  Whatever the server
    answers, a failed call does not stop the script.  When the file cannot
    be read or holds something else, no tool is called. *)
Theorem runScript_runs_the_plan {S : Type} (backend : Client.Backend S)
    {fmt : NumberFormat} (scriptPath : string) (w : Client.World S) :
  fst (Client.runScript backend scriptPath w) = Ok tt /\
  calledTools (Client.trace (snd (Client.runScript backend scriptPath w)))
  = (calledTools (Client.trace w) ++
     match fst (Client.readScript backend scriptPath (Client.server w)) with
     | Ok (VArr commands) => planned commands
     | _ => []
     end)%list.
Proof.
  unfold Client.runScript, Eff.tryCatch, Eff.bind, Client.load.
  destruct (Client.readScript backend scriptPath (Client.server w))
    as [[commands|e] s1]; cbn [fst].
  - destruct commands as [| | | | |commands|];
      try (cbn; split; [reflexivity | now rewrite app_nil_r]).
    pose proof (runCommands_calls backend commands
                  {| Client.server := s1; Client.trace := Client.trace w |})
      as Hcalls.
    destruct (Client.runCommands backend commands _) as [[[]|e] w1];
      cbn [fst snd Eff.ret] in *; split; reflexivity || exact Hcalls.
  - cbn. split; [reflexivity | now rewrite app_nil_r].
Qed.

(** The sample script is run up to its [null] entry; a command whose
    [tool] is an object with a member named [toString] ends the script
    where it stands. *)
Example runScript_samples :
  calledTools
    (Client.trace
       (snd (Client.runScript (refusingServer (VArr sampleScript))
               "script.json" {| Client.server := tt; Client.trace := [] |})))
  = [ ("move_mouse", VObj [("x", VNum (ofZ 1)); ("y", VNum (ofZ 2))]);
      ("click_mouse", VObj []) ] /\
  calledTools
    (Client.trace
       (snd (Client.runScript (refusingServer (VArr opaqueScript))
               "script.json" {| Client.server := tt; Client.trace := [] |})))
  = [ ("get_screen_size", VObj []) ].
Proof. split; reflexivity. Qed.

(** X24.  [callTool] never throws, issues one request and reports what the
    server said.  The outcome is the content when the answer is not flagged
    [isError], and the text of the error when the request itself threw.
    For a flagged answer whose content is not an array the outcome is the
    failure "Unknown error".  For a flagged answer whose content is an
    array: if an item is [null] or [undefined], the failure carries the
    TypeError of reading [type] from the first such item; otherwise the
    [text] members of the items of type ["text"] are joined by newlines as
    [join] does it (a missing or [null] text counts as empty, any other
    value is converted to a string: 42 gives "42"), and when that
    conversion throws the failure carries its TypeError. *)
Theorem client_callTool_outcome {S : Type} (backend : Client.Backend S)
    {fmt : NumberFormat} (toolName : string) (args : value)
    (w : Client.World S) :
  exists outcome w',
    Client.callTool backend toolName args w = (Ok outcome, w') /\
    Client.trace w' = (Client.trace w ++ [Client.Called toolName args])%list /\
    match fst (Client.request backend toolName args (Client.server w)) with
    | Throw e => outcome = Client.Failed e
    | Ok response =>
        if Client.isError response then
          match Client.responseContent response with
          | VArr items =>
              match find nullish items with
              | Some bad => outcome = Client.Failed (unreadable bad "type")
              | None =>
                  match joinWith Client.newline
                          (map (fun item => prop item "text")
                             (filter isTextItem items)) with
                  | Some text => outcome = Client.Failed text
                  | None =>
                      outcome =
                        Client.Failed
                          "TypeError: Cannot convert object to primitive value"
                  end
              end
          | _ => outcome = Client.Failed "Unknown error"
          end
        else outcome = Client.Succeeded (Client.responseContent response)
    end.
Proof.
  unfold Client.callTool, Eff.tryCatch, Eff.bind at 1, Client.send.
  destruct (Client.request backend toolName args (Client.server w))
    as [[response|e] s1]; cbn [fst].
  - destruct (Client.isError response).
    + unfold Eff.bind at 1.
      destruct (Client.responseContent response) as [| | | | |items|];
        try (do 2 eexists; repeat split; reflexivity).
      unfold Client.extractTextContent, Eff.bind at 1.
      destruct (find nullish items) as [bad|] eqn:Hfind.
      * rewrite (textItems_nullish items bad _ Hfind).
        do 2 eexists. repeat split; reflexivity.
      * rewrite (textItems_defined items _ Hfind).
        unfold Client.converted, Client.textOf.
        destruct (joinWith Client.newline
                    (map (fun item => prop item "text")
                       (filter isTextItem items)));
          do 2 eexists; repeat split; reflexivity.
    + do 2 eexists. repeat split; reflexivity.
  - do 2 eexists. repeat split; reflexivity.
Qed.

(** Flagged answers: a number for [text] is reported in decimal, a [null]
    item and a [text] with a member named [toString] as the TypeError they
    raise. *)
Example callTool_samples :
  fst (Client.callTool
         (flaggingServer
            (VArr [ VObj [("type", VStr "text"); ("text", VNum (ofZ 42))];
                    VObj [("type", VStr "image")];
                    VObj [("type", VStr "text"); ("text", VStr "no")] ]))
         "get_screen_size" (VObj [])
         {| Client.server := tt; Client.trace := [] |})
  = Ok (Client.Failed ("42" ++ Client.newline ++ "no")) /\
  fst (Client.callTool (flaggingServer (VArr [VNull]))
         "get_screen_size" (VObj [])
         {| Client.server := tt; Client.trace := [] |})
  = Ok (Client.Failed
          "TypeError: Cannot read properties of null (reading 'type')") /\
  fst (Client.callTool
         (flaggingServer
            (VArr [ VObj [("type", VStr "text");
                          ("text", VObj [("toString", VNull)])] ]))
         "get_screen_size" (VObj [])
         {| Client.server := tt; Client.trace := [] |})
  = Ok (Client.Failed "TypeError: Cannot convert object to primitive value").
Proof. repeat split; reflexivity. Qed.
